(** * Audio acquisition and transcoding pipeline of [endpoint.py]

    A shallow embedding of [inspect_file], [download_and_transcribe] and
    the request handler [create_event] (src/endpoint.py) and the
    properties of the fallback transcoding strategy, the error mapping,
    the working-file naming and the storing of events.

    The Python code is a straight line of blocking calls to external
    collaborators (HTTP, libmagic, ffmpeg/ffprobe through [subprocess.run],
    the Whisper model, the wall clock).  Each collaborator is an oracle of
    a [World]; the code itself is written in a small state/exception/trace
    monad: the state holds the files of the working directory and the
    number of clock readings taken so far, the trace records every
    external invocation and every log record in program order. *)

From Stdlib Require Import List String Ascii ZArith NArith Bool Lia.
From Stdlib Require Import Strings.Byte DecimalString.
Import ListNotations.

Local Open Scope list_scope.
Local Open Scope string_scope.

(** ** Python values used by the endpoint *)

Module Py.

(** Python [bytes]. *)
Definition bytes := list byte.

(** Python [str].  Characters are the 8-bit characters of [ascii], read as
    the code points 0..255. *)
Definition str := string.

(** [str.isspace] on one code point below 256. *)
Definition isspace (c : ascii) : bool :=
  let n := N_of_ascii c in
  ((9 <=? n) && (n <=? 13) || (28 <=? n) && (n <=? 32)
   || (n =? 133) || (n =? 160))%N.

(** [str.lstrip()], [str.rstrip()] and [str.strip()] without argument. *)
Fixpoint lstrip (s : str) : str :=
  match s with
  | EmptyString => EmptyString
  | String c s' => if isspace c then lstrip s' else s
  end.

Fixpoint rstrip (s : str) : str :=
  match s with
  | EmptyString => EmptyString
  | String c s' =>
      match rstrip s' with
      | EmptyString => if isspace c then EmptyString else String c EmptyString
      | r => String c r
      end
  end.

Definition strip (s : str) : str := rstrip (lstrip s).

(** Every character of [s] is white space. *)
Fixpoint all_space (s : str) : bool :=
  match s with
  | EmptyString => true
  | String c s' => isspace c && all_space s'
  end.

(** The first and the last character of a string, if any. *)
Definition first_char (s : str) : option ascii :=
  match s with
  | EmptyString => None
  | String c _ => Some c
  end.

Fixpoint last_char (s : str) : option ascii :=
  match s with
  | EmptyString => None
  | String c EmptyString => Some c
  | String _ s' => last_char s'
  end.

(** [str(n)] for a non-negative integer. *)
Definition str_of_N (n : N) : str := NilEmpty.string_of_uint (N.to_uint n).

(** [str(z)] for an integer. *)
Definition str_of_Z (z : Z) : str :=
  match z with
  | Zneg p => "-" ++ str_of_N (Npos p)
  | _ => str_of_N (Z.to_N z)
  end.

(** Left padding with zeros up to [width], the [%02d] of [strftime]. *)
Fixpoint zeros (k : nat) : str :=
  match k with
  | O => EmptyString
  | S k' => String "0" (zeros k')
  end.

Definition zfill (width : nat) (s : str) : str :=
  zeros (width - String.length s) ++ s.

(** [bytes.hex()]: two lower-case hexadecimal digits per byte. *)
Definition hex_digit (n : N) : ascii :=
  if (n <? 10)%N then ascii_of_N (48 + n) else ascii_of_N (87 + n).

Fixpoint hex (b : bytes) : str :=
  match b with
  | [] => EmptyString
  | x :: b' =>
      let n := Byte.to_N x in
      String (hex_digit (n / 16)) (String (hex_digit (n mod 16)) (hex b'))
  end.

(** ASCII lower-casing, the key normalisation of the case-insensitive
    header dictionary of [requests]. *)
Definition lower_char (c : ascii) : ascii :=
  let n := N_of_ascii c in
  if ((65 <=? n) && (n <=? 90))%N then ascii_of_N (n + 32) else c.

Fixpoint lower (s : str) : str :=
  match s with
  | EmptyString => EmptyString
  | String c s' => String (lower_char c) (lower s')
  end.

(** [s.endswith("/")] and [s.startswith("/")]. *)
Definition startswith_slash (s : str) : bool :=
  match s with
  | String "/" _ => true
  | _ => false
  end.

Definition endswith_slash (s : str) : bool :=
  match last_char s with
  | Some "/"%char => true
  | _ => false
  end.

(** [os.path.join(a, b)] of [posixpath]; [os.path.join(a, b, c)] is
    [join (join a b) c]. *)
Definition path_join (a b : str) : str :=
  if startswith_slash b then b
  else if (a =? "") || endswith_slash a then a ++ b
  else a ++ "/" ++ b.

(** [datetime]: the fields of a reading of the wall clock. *)
Record datetime : Type := mkDatetime {
  year : N; month : N; day : N;
  hour : N; minute : N; second : N;
  microsecond : N
}.

(** [dt.strftime('%Y%m%d_%H%M%S')], for the years of four digits that a
    reading of the clock has. *)
Definition strftime_Ymd_HMS (dt : datetime) : str :=
  zfill 4 (str_of_N (year dt)) ++ zfill 2 (str_of_N (month dt))
  ++ zfill 2 (str_of_N (day dt)) ++ "_"
  ++ zfill 2 (str_of_N (hour dt)) ++ zfill 2 (str_of_N (minute dt))
  ++ zfill 2 (str_of_N (second dt)).

(** A raised exception, as far as the [except] clauses of the endpoint and
    [str(e)] can tell exceptions apart: whether it is an instance of
    [requests.exceptions.RequestException], whether it is an instance of
    [ValueError], and its message.  (Some classes of [requests], such as
    [InvalidURL], are instances of both.)  Only instances of [Exception]
    are modelled. *)
Record exn : Type := mkExn {
  is_request_exception : bool;
  is_value_error : bool;
  exn_str : str
}.

Definition ValueError (msg : str) : exn := mkExn false true msg.
Definition RuntimeError (msg : str) : exn := mkExn false false msg.
Definition ZeroDivisionError (msg : str) : exn := mkExn false false msg.
Definition FileNotFoundError (msg : str) : exn := mkExn false false msg.
Definition HTTPError (msg : str) : exn := mkExn true false msg.

(** The outcome of evaluating an expression: a value or a raised
    exception of type [E]. *)
Inductive result (E A : Type) : Type :=
| Ok (a : A)
| Raise (e : E).
Arguments Ok {E A} a.
Arguments Raise {E A} e.

End Py.

Import Py.

(** ** The external collaborators *)

Module Endpoint.

(** A [requests.Response] as the endpoint uses it.  [resp_chunks] are the
    chunks that [iter_content] yields, in order; [resp_stream_error] is the
    exception the iterator raises after the last of them, if the transfer
    breaks off. *)
Record Response : Type := mkResponse {
  resp_status : Z;
  resp_reason : str;
  resp_url : str;
  resp_headers : list (str * str);
  resp_chunks : list bytes;
  resp_stream_error : option exn
}.

(** [subprocess.CompletedProcess] with [capture_output=True, text=True]. *)
Record CompletedProcess : Type := mkCompleted {
  returncode : Z;
  stdout : str;
  stderr : str
}.

(** What a call of [subprocess.run] does: the child runs to its end and
    leaves the files [writes] behind (created or overwritten), or the call
    itself raises.  A call that raises may have run the child before (with
    [text=True] the output is decoded after the child has ended), so that
    it leaves files behind as well; a program that cannot be launched
    leaves none. *)
Inductive run_outcome : Type :=
| Completed (p : CompletedProcess) (writes : list (str * bytes))
| RunRaises (e : exn) (writes : list (str * bytes)).

(** The collaborators of one run.  An oracle is a function of the
    arguments of the call: within one run no oracle is asked twice with the
    same arguments, except [py_int] and [format_progress], which are pure
    functions of the Python runtime left abstract. *)
Record World : Type := mkWorld {
  (** [os.path.expanduser("~")] *)
  home : str;
  (** the [n]-th reading of [datetime.now()] in the run *)
  clock : nat -> datetime;
  (** [requests.get(url, headers=..., stream=True)] *)
  requests_get : str -> list (str * str) -> result exn Response;
  (** [int(s)]: the integer, or the message of the [ValueError] *)
  py_int : str -> result str Z;
  (** [f"{(downloaded / total) * 100:.1f}"], float arithmetic *)
  format_progress : N -> Z -> str;
  (** [magic.from_file(path, mime=True)] *)
  magic_from_file : str -> result exn str;
  (** [subprocess.run(cmd, capture_output=True, text=True)] *)
  subprocess_run : list str -> run_outcome;
  (** [model.transcribe(path)["text"]] *)
  model_transcribe : str -> result exn str
}.

(** [fastapi.HTTPException]. *)
Record HTTPException : Type := mkHTTPException {
  status_code : Z;
  detail : str
}.

(** ** State, trace and the monad of the endpoint *)

Inductive level : Type := INFO | ERROR.

(** What a run does that is visible from outside, in program order.
    [HttpGet] is one call of [requests.get]: what the library sends to
    servers inside that call (the redirections it follows) is not an event
    of the code. *)
Inductive event : Type :=
| Log (l : level) (msg : str)
| HttpGet (url : str) (headers : list (str * str))
| MagicFromFile (path : str)
| SubprocessRun (cmd : list str)
| Transcribe (path : str).

(** The files of the working directory: an association list from paths to
    contents, the first entry of a path being the file. *)
Definition files := list (str * bytes).

Fixpoint files_get (path : str) (fs : files) : option bytes :=
  match fs with
  | [] => None
  | (p, d) :: fs' => if (p =? path) then Some d else files_get path fs'
  end.

Definition files_put (path : str) (data : bytes) (fs : files) : files :=
  (path, data) :: fs.

Record state : Type := mkState {
  st_files : files;
  st_ticks : nat
}.

Definition M (E A : Type) : Type :=
  state -> result E A * state * list event.

Definition ret {E A} (a : A) : M E A := fun s => (Ok a, s, []).

Definition raise {E A} (e : E) : M E A := fun s => (Raise e, s, []).

Definition bind {E A B} (m : M E A) (f : A -> M E B) : M E B :=
  fun s =>
    match m s with
    | (Ok a, s1, t1) =>
        let '(r, s2, t2) := f a s1 in (r, s2, (t1 ++ t2)%list)
    | (Raise e, s1, t1) => (Raise e, s1, t1)
    end.

(** [try: m  except Exception as e: h e], also with a handler that raises
    an exception of another type. *)
Definition try_except {E F A} (m : M E A) (h : E -> M F A) : M F A :=
  fun s =>
    match m s with
    | (Ok a, s1, t1) => (Ok a, s1, t1)
    | (Raise e, s1, t1) =>
        let '(r, s2, t2) := h e s1 in (r, s2, (t1 ++ t2)%list)
    end.

Notation "x <- m ;; k" := (bind m (fun x => k))
  (at level 61, m at next level, right associativity).
Notation "m ;; k" := (bind m (fun _ => k))
  (at level 61, right associativity).

Definition emit {E} (ev : event) : M E unit := fun s => (Ok tt, s, [ev]).

Definition logger_info {E} (msg : str) : M E unit := emit (Log INFO msg).
Definition logger_error {E} (msg : str) : M E unit := emit (Log ERROR msg).

Definition lift {A} (r : result exn A) : M exn A :=
  match r with
  | Ok a => ret a
  | Raise e => raise e
  end.

Fixpoint for_each {E A} (l : list A) (f : A -> M E unit) : M E unit :=
  match l with
  | [] => ret tt
  | x :: l' => f x ;; for_each l' f
  end.

(** The result, the final state and the trace of a computation. *)
Definition outcome {E A} (x : result E A * state * list event) : result E A :=
  fst (fst x).
Definition final {E A} (x : result E A * state * list event) : state :=
  snd (fst x).
Definition trace {E A} (x : result E A * state * list event) : list event :=
  snd x.

(** ** The primitive operations *)

Definition datetime_now (w : World) : M exn datetime :=
  fun s => (Ok (clock w (st_ticks s)),
            mkState (st_files s) (S (st_ticks s)), []).

(** [open(path, 'wb')]: the file exists and is empty. *)
Definition open_wb (path : str) : M exn unit :=
  fun s => (Ok tt, mkState (files_put path [] (st_files s)) (st_ticks s), []).

(** [f.write(chunk)] on a file opened for writing. *)
Definition file_write (path : str) (chunk : bytes) : M exn unit :=
  fun s =>
    let old := match files_get path (st_files s) with Some d => d | None => [] end in
    (Ok tt, mkState (files_put path (old ++ chunk)%list (st_files s))
                    (st_ticks s), []).

(** [os.path.getsize(path)]. *)
Definition getsize (path : str) : M exn N :=
  fun s =>
    match files_get path (st_files s) with
    | Some d => (Ok (N.of_nat (List.length d)), s, [])
    | None =>
        (Raise (FileNotFoundError
                  ("[Errno 2] No such file or directory: '" ++ path ++ "'")),
         s, [])
    end.

(** [open(path, 'rb').read(n)]. *)
Definition file_read (path : str) (n : nat) : M exn bytes :=
  fun s =>
    match files_get path (st_files s) with
    | Some d => (Ok (firstn n d), s, [])
    | None =>
        (Raise (FileNotFoundError
                  ("[Errno 2] No such file or directory: '" ++ path ++ "'")),
         s, [])
    end.

Definition do_requests_get (w : World) (url : str)
    (headers : list (str * str)) : M exn Response :=
  emit (HttpGet url headers) ;; lift (requests_get w url headers).

(** [Response.raise_for_status()] of [requests]: the message is set for
    the statuses 400..499 and 500..599, and an [HTTPError] is raised when
    it is set. *)
Definition http_error_msg (r : Response) : option str :=
  let st := resp_status r in
  if ((400 <=? st) && (st <? 500))%Z then
    Some (str_of_Z st ++ " Client Error: " ++ resp_reason r
          ++ " for url: " ++ resp_url r)
  else if ((500 <=? st) && (st <? 600))%Z then
    Some (str_of_Z st ++ " Server Error: " ++ resp_reason r
          ++ " for url: " ++ resp_url r)
  else None.

Definition raise_for_status (r : Response) : M exn unit :=
  match http_error_msg r with
  | Some msg => raise (HTTPError msg)
  | None => ret tt
  end.

(** [headers.get(name)] of the case-insensitive dictionary. *)
Fixpoint headers_get (name : str) (hs : list (str * str)) : option str :=
  match hs with
  | [] => None
  | (k, v) :: hs' =>
      if (lower k =? lower name) then Some v else headers_get name hs'
  end.

Definition do_magic_from_file (w : World) (path : str) : M exn str :=
  emit (MagicFromFile path) ;; lift (magic_from_file w path).

Fixpoint files_put_all (ws : list (str * bytes)) (fs : files) : files :=
  match ws with
  | [] => fs
  | (p, d) :: ws' => files_put_all ws' (files_put p d fs)
  end.

Definition do_subprocess_run (w : World) (cmd : list str)
    : M exn CompletedProcess :=
  emit (SubprocessRun cmd) ;;
  fun s =>
    match subprocess_run w cmd with
    | Completed p writes =>
        (Ok p, mkState (files_put_all writes (st_files s)) (st_ticks s), [])
    | RunRaises e writes =>
        (Raise e, mkState (files_put_all writes (st_files s)) (st_ticks s),
         [])
    end.

Definition do_transcribe (w : World) (path : str) : M exn str :=
  emit (Transcribe path) ;; lift (model_transcribe w path).

(** ** The code of [endpoint.py] *)

Definition nl : str := String (ascii_of_nat 10) EmptyString.

(** ["=" * 40] *)
Fixpoint str_repeat (s : str) (n : nat) : str :=
  match n with
  | O => EmptyString
  | S n' => s ++ str_repeat s n'
  end.

(** [inspect_file], lines 35-44. *)
Definition inspect_file (w : World) (file_path : str) : M exn (option str) :=
  try_except
    (let cmd := ["ffprobe"; "-v"; "error"; "-show_format"; "-show_streams";
                 file_path] in
     result <- do_subprocess_run w cmd ;;
     logger_info ("File inspection result:" ++ nl ++ stdout result) ;;
     ret (Some (stdout result)))
    (fun e =>
       logger_error ("Error inspecting file: " ++ exn_str e) ;;
       ret None).

(** The request headers, lines 53-56. *)
Definition headers : list (str * str) :=
  [("User-Agent",
    "Mozilla/5.0 (Windows NT 10.0; Win64; x64) AppleWebKit/537.36 (KHTML, like Gecko) Chrome/91.0.4472.124 Safari/537.36");
   ("Accept", "*/*")].

(** The progress report of line 87-89 for one chunk. *)
Definition report_progress (w : World) (content_length : option str)
    (downloaded_size : N) : M exn unit :=
  match content_length with
  | None => ret tt
  | Some cl =>
      if (cl =? "") then ret tt
      else
        match py_int w cl with
        | Raise msg => raise (ValueError msg)
        | Ok total =>
            if (total =? 0)%Z then raise (ZeroDivisionError "division by zero")
            else logger_info ("Download progress: "
                              ++ format_progress w downloaded_size total
                              ++ "%")
        end
  end.

(** The loop over [response.iter_content], lines 83-89. *)
Fixpoint download_chunks (w : World) (temp_oga_path : str)
    (content_length : option str) (chunks : list bytes)
    (downloaded_size : N) : M exn N :=
  match chunks with
  | [] => ret downloaded_size
  | chunk :: rest =>
      match chunk with
      | [] => download_chunks w temp_oga_path content_length rest
                              downloaded_size
      | _ :: _ =>
          file_write temp_oga_path chunk ;;
          let downloaded_size :=
            (downloaded_size + N.of_nat (List.length chunk))%N in
          report_progress w content_length downloaded_size ;;
          download_chunks w temp_oga_path content_length rest downloaded_size
      end
  end.

(** The end of the iteration: the iterator is exhausted or raises. *)
Definition end_of_stream (response : Response) : M exn unit :=
  match resp_stream_error response with
  | Some e => raise e
  | None => ret tt
  end.

(** Lines 72 and 75, 111: the working directory and the two file names. *)
Definition temp_dir_of (w : World) : str :=
  path_join (path_join (home w) "Downloads") "audio_temp".

Definition audio_path (temp_dir : str) (now : datetime) (ext : str) : str :=
  path_join temp_dir ("audio_" ++ strftime_Ymd_HMS now ++ ext).

(** Lines 51-99: download the file and check that it is not empty.  The
    working directory is taken to be writable: [os.makedirs], [open],
    [write], [flush] and [os.fsync] do not raise.  Returns [temp_dir] and
    [temp_oga_path]. *)
Definition download (w : World) (url : str) : M exn (str * str) :=
  logger_info ("Downloading audio from URL: " ++ url) ;;
  response <- do_requests_get w url headers ;;
  raise_for_status response ;;
  logger_info "Response headers:" ;;
  for_each (resp_headers response)
    (fun kv => logger_info (fst kv ++ ": " ++ snd kv)) ;;
  let content_type :=
    match headers_get "Content-Type" (resp_headers response) with
    | Some v => v
    | None => ""
    end in
  logger_info ("Content-Type from response: " ++ content_type) ;;
  let temp_dir := temp_dir_of w in
  now <- datetime_now w ;;
  let temp_oga_path := audio_path temp_dir now ".oga" in
  logger_info ("Saving audio to: " ++ temp_oga_path) ;;
  let content_length := headers_get "Content-Length" (resp_headers response) in
  open_wb temp_oga_path ;;
  download_chunks w temp_oga_path content_length (resp_chunks response) 0 ;;
  end_of_stream response ;;
  file_size <- getsize temp_oga_path ;;
  logger_info ("Downloaded file size: " ++ str_of_N file_size ++ " bytes") ;;
  (if (file_size =? 0)%N then raise (ValueError "Downloaded file is empty")
   else ret tt) ;;
  ret (temp_dir, temp_oga_path).

(** Lines 101-108: sniff the MIME type and log the first bytes. *)
Definition sniff (w : World) (temp_oga_path : str) : M exn unit :=
  mime_type <- do_magic_from_file w temp_oga_path ;;
  logger_info ("Detected MIME type: " ++ mime_type) ;;
  header <- file_read temp_oga_path 16 ;;
  logger_info ("File header (hex): " ++ hex header).

(** Lines 51-108. *)
Definition fetch (w : World) (url : str) : M exn (str * str) :=
  paths <- download w url ;;
  sniff w (snd paths) ;;
  ret paths.

(** Lines 115-122. *)
Definition conversion_commands (temp_oga_path wav_path : str)
    : list (list str) :=
  [ ["ffmpeg"; "-y"; "-f"; "ogg"; "-i"; temp_oga_path;
     "-acodec"; "pcm_s16le"; "-ar"; "16000"; "-ac"; "1"; wav_path];
    ["ffmpeg"; "-y"; "-f"; "audio"; "-i"; temp_oga_path;
     "-acodec"; "pcm_s16le"; "-ar"; "16000"; "-ac"; "1"; wav_path];
    ["ffmpeg"; "-y"; "-i"; temp_oga_path;
     "-acodec"; "pcm_s16le"; "-ar"; "16000"; "-ac"; "1"; wav_path] ].

(** One pass through the body of the loop, lines 126-135: [true] when the
    body sets [success] and breaks. *)
Definition conversion_attempt (w : World) (cmd : list str) : M exn bool :=
  try_except
    (logger_info ("Trying conversion with command: " ++ String.concat " " cmd) ;;
     result <- do_subprocess_run w cmd ;;
     if (returncode result =? 0)%Z then ret true
     else
       logger_error ("Conversion attempt failed: " ++ stderr result) ;;
       ret false)
    (fun e =>
       logger_error ("Error during conversion attempt: " ++ exn_str e) ;;
       ret false).

(** The loop of lines 124-135; the value is [success]. *)
Fixpoint conversion_loop (w : World) (cmds : list (list str)) : M exn bool :=
  match cmds with
  | [] => ret false
  | cmd :: rest =>
      success <- conversion_attempt w cmd ;;
      if success then ret true else conversion_loop w rest
  end.

(** Lines 110-145: name the output, convert, check the output.  Returns
    [wav_path]. *)
Definition transcode (w : World) (temp_dir temp_oga_path : str) : M exn str :=
  now <- datetime_now w ;;
  let wav_path := audio_path temp_dir now ".wav" in
  logger_info ("WAV file will be saved to: " ++ wav_path) ;;
  success <- conversion_loop w (conversion_commands temp_oga_path wav_path) ;;
  (if negb success then raise (RuntimeError "All conversion attempts failed")
   else ret tt) ;;
  wav_size <- getsize wav_path ;;
  logger_info ("Converted WAV file size: " ++ str_of_N wav_size ++ " bytes") ;;
  (if (wav_size =? 0)%N then raise (ValueError "Converted WAV file is empty")
   else ret tt) ;;
  ret wav_path.

(** Lines 147-165: probe, transcribe and return the text. *)
Definition transcribe (w : World) (temp_oga_path wav_path : str) : M exn str :=
  logger_info "Inspecting converted WAV file:" ;;
  inspect_file w wav_path ;;
  logger_info "Starting transcription..." ;;
  text <- do_transcribe w wav_path ;;
  let transcription := strip text in
  logger_info (str_repeat "=" 40) ;;
  logger_info ("Transcription: " ++ transcription) ;;
  logger_info (str_repeat "=" 40) ;;
  logger_info "Audio files saved at:" ;;
  logger_info ("OGA: " ++ temp_oga_path) ;;
  logger_info ("WAV: " ++ wav_path) ;;
  ret transcription.

(** The [try] block of [download_and_transcribe], lines 51-165. *)
Definition try_block (w : World) (url : str) : M exn str :=
  paths <- fetch w url ;;
  wav_path <- transcode w (fst paths) (snd paths) ;;
  transcribe w (snd paths) wav_path.

(** The [except] clauses, lines 167-175, in their order. *)
Definition except_clauses (e : exn) : M HTTPException str :=
  if is_request_exception e then
    logger_error ("Error downloading file: " ++ exn_str e) ;;
    raise (mkHTTPException 500 ("Download error: " ++ exn_str e))
  else if is_value_error e then
    logger_error ("Validation error: " ++ exn_str e) ;;
    raise (mkHTTPException 400 (exn_str e))
  else
    logger_error ("Error in download_and_transcribe: " ++ exn_str e) ;;
    raise (mkHTTPException 500 (exn_str e)).

(** [download_and_transcribe], lines 46-175. *)
Definition download_and_transcribe (w : World) (url : str)
    : M HTTPException str :=
  try_except (try_block w url) except_clauses.

(** A run starts with the files already in the working directory and a
    clock that has not been read. *)
Definition start (fs : files) : state := mkState fs 0.

Definition run (w : World) (url : str) (fs : files)
    : result HTTPException str * state * list event :=
  download_and_transcribe w url (start fs).

(** ** What a trace shows *)

(** The commands handed to [subprocess.run], in order. *)
Fixpoint subprocess_calls (tr : list event) : list (list str) :=
  match tr with
  | [] => []
  | SubprocessRun cmd :: tr' => cmd :: subprocess_calls tr'
  | _ :: tr' => subprocess_calls tr'
  end.

(** The files handed to the speech-to-text engine, in order. *)
Fixpoint transcribe_calls (tr : list event) : list str :=
  match tr with
  | [] => []
  | Transcribe path :: tr' => path :: transcribe_calls tr'
  | _ :: tr' => transcribe_calls tr'
  end.

(** The messages logged at level [ERROR], in order. *)
Fixpoint error_log (tr : list event) : list str :=
  match tr with
  | [] => []
  | Log ERROR msg :: tr' => msg :: error_log tr'
  | _ :: tr' => error_log tr'
  end.

Definition is_ffmpeg (cmd : list str) : bool :=
  match cmd with
  | prog :: _ => (prog =? "ffmpeg")
  | [] => false
  end.

Definition is_ffprobe (cmd : list str) : bool :=
  match cmd with
  | prog :: _ => (prog =? "ffprobe")
  | [] => false
  end.

(** The decode steps of a run: the invocations of the media decode tool. *)
Definition decoder_calls (tr : list event) : list (list str) :=
  filter is_ffmpeg (subprocess_calls tr).

(** The container hint of a decode command: the value of [-f] given before
    the input. *)
Fixpoint container_hint (cmd : list str) : option str :=
  match cmd with
  | [] => None
  | a :: rest =>
      if (a =? "-i") then None
      else if (a =? "-f") then
        match rest with
        | h :: _ => Some h
        | [] => None
        end
      else container_hint rest
  end.

(** A decode step reports success: the child ran and its exit status is
    zero. *)
Definition reports_success (w : World) (cmd : list str) : bool :=
  match subprocess_run w cmd with
  | Completed p _ => (returncode p =? 0)%Z
  | RunRaises _ _ => false
  end.

(** The strategy list read as the specification words it: each strategy in
    order, up to and including the first that reports success. *)
Fixpoint attempted (w : World) (cmds : list (list str)) : list (list str) :=
  match cmds with
  | [] => []
  | cmd :: rest =>
      if reports_success w cmd then [cmd] else cmd :: attempted w rest
  end.

(** The errors of the taxonomy as the endpoint raises them. *)
Definition NetworkError (e : exn) : HTTPException :=
  mkHTTPException 500 ("Download error: " ++ exn_str e).
Definition EmptyDownload : HTTPException :=
  mkHTTPException 400 "Downloaded file is empty".
Definition AllConversionsFailed : HTTPException :=
  mkHTTPException 500 "All conversion attempts failed".
Definition EmptyTranscode : HTTPException :=
  mkHTTPException 400 "Converted WAV file is empty".

(** The same world, except that content sniffing answers [r]. *)
Definition with_magic (w : World) (r : result exn str) : World :=
  mkWorld (home w) (clock w) (requests_get w) (py_int w) (format_progress w)
          (fun _ => r) (subprocess_run w) (model_transcribe w).

(** The same world, except that every launch of [ffprobe] ends as [o]. *)
Definition with_probe (w : World) (o : run_outcome) : World :=
  mkWorld (home w) (clock w) (requests_get w) (py_int w) (format_progress w)
          (magic_from_file w)
          (fun cmd => if is_ffprobe cmd then o else subprocess_run w cmd)
          (model_transcribe w).

(** [after t x]: the computation [x] run after the events [t]. *)
Definition after {E A} (t : list event)
    (x : result E A * state * list event) : result E A * state * list event :=
  (outcome x, final x, (t ++ trace x)%list).

(** A trace without any launch of a child process, without any call of
    the speech-to-text engine and without any record at level [ERROR]. *)
Definition quiet (tr : list event) : Prop :=
  subprocess_calls tr = [] /\ transcribe_calls tr = [] /\ error_log tr = [].

(** The output path chosen by [transcode] when it starts in state [s], and
    the strategy list built from it. *)
Definition wav_path_at (w : World) (temp_dir : str) (s : state) : str :=
  audio_path temp_dir (clock w (st_ticks s)) ".wav".

Definition strategies (w : World) (temp_dir temp_oga_path : str) (s : state)
    : list (list str) :=
  conversion_commands temp_oga_path (wav_path_at w temp_dir s).

(** The state in which the conversion loop starts: the clock has been read
    once more. *)
Definition tick (s : state) : state := mkState (st_files s) (S (st_ticks s)).

(** What the loop logs at level [ERROR] for a strategy that does not
    report success. *)
Definition failure_message (w : World) (cmd : list str) : str :=
  match subprocess_run w cmd with
  | Completed p _ => "Conversion attempt failed: " ++ stderr p
  | RunRaises e _ => "Error during conversion attempt: " ++ exn_str e
  end.

(** The events by which the loop shows its progress: the launches of a
    child and the records at level [ERROR]. *)
Definition is_strategy_event (ev : event) : bool :=
  match ev with
  | SubprocessRun _ => true
  | Log ERROR _ => true
  | _ => false
  end.

(** The command of [inspect_file]. *)
Definition ffprobe_command (file_path : str) : list str :=
  ["ffprobe"; "-v"; "error"; "-show_format"; "-show_streams"; file_path].

(** Lines 110-165, the part of the [try] block after the download. *)
Definition convert_and_transcribe (w : World) (temp_dir temp_oga_path : str)
    : M exn str :=
  wav_path <- transcode w temp_dir temp_oga_path ;;
  transcribe w temp_oga_path wav_path.

(** The text of the [HTTPError] for an answer with an error status. *)
Definition status_message (r : Response) : str :=
  match http_error_msg r with
  | Some msg => msg
  | None => ""
  end.

(** The progress of the body of [r] can be reported: the body is empty,
    or the answer has no Content-Length header (or an empty one), or
    [int] reads the header as a number that is not zero. *)
Definition progress_reportable (w : World) (r : Response) : Prop :=
  List.concat (resp_chunks r) = []
  \/ match headers_get "Content-Length" (resp_headers r) with
     | None => True
     | Some cl =>
         cl = "" \/ exists total, py_int w cl = Ok total /\ total <> 0%Z
     end.

(** The fetch fails at the transport layer with the exception [e]: the
    request itself raises an exception of [requests] (connection failure,
    timeout, ...), or the answer has a status that [raise_for_status]
    turns into an [HTTPError], or the answer is accepted and the
    connection breaks (or times out) with an exception of [requests] while
    the body is read, after chunks whose progress could be reported. *)
Inductive transport_failure (w : World) (url : str) : exn -> Prop :=
| request_raises (e : exn) :
    requests_get w url headers = Raise e ->
    is_request_exception e = true ->
    transport_failure w url e
| error_status (r : Response) :
    requests_get w url headers = Ok r ->
    (400 <= resp_status r < 600)%Z ->
    transport_failure w url (HTTPError (status_message r))
| stream_breaks (r : Response) (e : exn) :
    requests_get w url headers = Ok r ->
    (resp_status r < 400 \/ 600 <= resp_status r)%Z ->
    resp_stream_error r = Some e ->
    is_request_exception e = true ->
    progress_reportable w r ->
    transport_failure w url e.

(** The same world, except that every request is answered as [resp]. *)
Definition with_response (w : World) (resp : result exn Response) : World :=
  mkWorld (home w) (clock w) (fun _ _ => resp) (py_int w) (format_progress w)
          (magic_from_file w) (subprocess_run w) (model_transcribe w).

(** The answer [r] with another status line. *)
Definition with_status (r : Response) (status : Z) (reason : str)
    : Response :=
  mkResponse status reason (resp_url r) (resp_headers r) (resp_chunks r)
    (resp_stream_error r).

(** The launches of libmagic in a trace. *)
Fixpoint magic_calls (tr : list event) : list str :=
  match tr with
  | [] => []
  | MagicFromFile path :: tr' => path :: magic_calls tr'
  | _ :: tr' => magic_calls tr'
  end.

(** The [HTTPException] that the [except] clauses raise for [e]. *)
Definition http_error_of (e : exn) : HTTPException :=
  if is_request_exception e then
    mkHTTPException 500 ("Download error: " ++ exn_str e)
  else if is_value_error e then mkHTTPException 400 (exn_str e)
  else mkHTTPException 500 (exn_str e).

(** A reading of the clock with a year of four digits and the other
    fields in the ranges of [datetime]. *)
Definition valid_datetime (dt : datetime) : Prop :=
  (1000 <= year dt <= 9999 /\ 1 <= month dt <= 12 /\ 1 <= day dt <= 31
   /\ hour dt <= 23 /\ minute dt <= 59 /\ second dt <= 59)%N.

(** The number written by a string of decimal digits, read after [acc]. *)
Fixpoint digits_value (acc : N) (s : str) : N :=
  match s with
  | EmptyString => acc
  | String c s' => digits_value (10 * acc + (N_of_ascii c - 48)) s'
  end.

(** The fields of a reading that the time stamp of a file name shows. *)
Definition to_the_second (dt : datetime) : N * N * N * N * N * N :=
  (year dt, month dt, day dt, hour dt, minute dt, second dt).

(** [needle in haystack] on strings. *)
Fixpoint str_contains (needle haystack : str) : bool :=
  String.prefix needle haystack
  || match haystack with
     | EmptyString => false
     | String _ rest => str_contains needle rest
     end.

End Endpoint.

Import Endpoint.

(** ** Concrete worlds *)

Module Examples.

Definition url : str := "https://cdn.example.org/voice/msg-17.oga".

(** The first bytes of an Ogg page. *)
Definition ogg_bytes : bytes := [x4f; x67; x67; x53; x00; x02].

Definition wav_bytes : bytes := [x52; x49; x46; x46; x24; x00].

Definition at_noon (us : N) : datetime := mkDatetime 2024 3 5 12 0 7 us.

Definition response_of (status : Z) (reason : str) (chunks : list bytes)
    : Response :=
  mkResponse status reason url
    [("Content-Type", "application/octet-stream"); ("content-length", "6")]
    chunks None.

Definition no_files : files := [].

(** [ffmpeg] fails with [msg] on its error output and writes nothing. *)
Definition fails_with (msg : str) : run_outcome :=
  Completed (mkCompleted 1 "" msg) [].

(** A child that exits with status zero and leaves [data] in the file
    named by the last argument of [cmd]. *)
Definition succeeds_writing (cmd : list str) (data : bytes) : run_outcome :=
  Completed (mkCompleted 0 "" "") [(last cmd "", data)].

Definition cannot_launch : run_outcome :=
  RunRaises (mkExn false false "[Errno 2] No such file or directory: 'ffmpeg'")
    [].

(** A world given by the answer of the server, the behaviour of the three
    decode strategies (by container hint) and of the probe, and the text
    of the engine. *)
Definition world (resp : result exn Response)
    (ogg raw auto probe : list str -> run_outcome) (text : result exn str)
    : World :=
  mkWorld "/home/app" (fun n => at_noon (N.of_nat n))
    (fun _ _ => resp)
    (fun s => if (s =? "6") then Ok 6%Z
              else Raise ("invalid literal for int() with base 10: '"
                          ++ s ++ "'"))
    (fun _ _ => "100.0")
    (fun _ => Ok "audio/ogg")
    (fun cmd =>
       if is_ffprobe cmd then probe cmd
       else match container_hint cmd with
            | Some "ogg" => ogg cmd
            | Some _ => raw cmd
            | None => auto cmd
            end)
    (fun _ => text).

Definition ok_response : result exn Response :=
  Ok (response_of 200 "OK" [ogg_bytes]).

Definition probe_ok (cmd : list str) : run_outcome :=
  Completed (mkCompleted 0 "[FORMAT]" "") [].

(** Only auto-detection decodes the stream. *)
Definition world_auto_only : World :=
  world ok_response
    (fun _ => fails_with "Invalid data found when processing input")
    (fun _ => fails_with "Unknown input format: 'audio'")
    (fun cmd => succeeds_writing cmd wav_bytes)
    probe_ok (Ok "  bom dia  ").

(** No strategy decodes the stream. *)
Definition world_none (err1 err2 err3 : str) : World :=
  world ok_response
    (fun _ => fails_with err1) (fun _ => fails_with err2)
    (fun _ => fails_with err3) probe_ok (Ok "").

(** The decoder cannot be launched at all. *)
Definition world_no_ffmpeg : World :=
  world ok_response (fun _ => cannot_launch) (fun _ => cannot_launch)
    (fun _ => cannot_launch) probe_ok (Ok "").

(** The second strategy exits with status zero and an empty output. *)
Definition world_empty_output : World :=
  world ok_response
    (fun _ => fails_with "Invalid data found when processing input")
    (fun cmd => succeeds_writing cmd [])
    (fun cmd => succeeds_writing cmd wav_bytes)
    probe_ok (Ok "never reached").

(** The server answers with [status] and the body [chunks]. *)
Definition world_status (status : Z) (reason : str) (chunks : list bytes)
    : World :=
  world (Ok (response_of status reason chunks))
    (fun cmd => succeeds_writing cmd wav_bytes)
    (fun cmd => succeeds_writing cmd wav_bytes)
    (fun cmd => succeeds_writing cmd wav_bytes)
    probe_ok (Ok "").

(** The connection cannot be established. *)
Definition world_unreachable : World :=
  world (Raise (mkExn true false "Connection refused"))
    (fun cmd => succeeds_writing cmd wav_bytes)
    (fun cmd => succeeds_writing cmd wav_bytes)
    (fun cmd => succeeds_writing cmd wav_bytes)
    probe_ok (Ok "").

(** A silent clip: the first strategy decodes it and the engine hears
    nothing. *)
Definition world_silent : World :=
  world ok_response
    (fun cmd => succeeds_writing cmd wav_bytes)
    (fun _ => fails_with "") (fun _ => fails_with "")
    probe_ok (Ok " ").

(** The download of the examples: working directory, file name, and what
    [fetch] leaves behind. *)
Definition ex_dir : str := "/home/app/Downloads/audio_temp".
Definition ex_oga : str :=
  "/home/app/Downloads/audio_temp/audio_20240305_120007.oga".
Definition ex_wav : str :=
  "/home/app/Downloads/audio_temp/audio_20240305_120007.wav".

Definition fetched (w : World) : result exn (str * str) * state * list event :=
  fetch w url (start no_files).

(** The conversion loop of the examples, started where [fetch] ended. *)
Definition converted (w : World) : result exn bool * state * list event :=
  conversion_loop w (strategies w ex_dir ex_oga (final (fetched w)))
    (tick (final (fetched w))).

(** The transcode of the examples, started where [fetch] ended. *)
Definition transcoded (w : World) : result exn str * state * list event :=
  transcode w ex_dir ex_oga (final (fetched w)).

(** A second request in the same second: another resource, and a clock
    that is read half a second later. *)
Definition other_url : str := "https://cdn.example.org/voice/msg-18.oga".

Definition other_bytes : bytes := [x4f; x67; x67; x53; x00; x04; xff].

Definition world_half_a_second_later : World :=
  mkWorld (home world_auto_only)
    (fun n => at_noon (500000 + N.of_nat n))
    (fun _ _ => Ok (mkResponse 200 "OK" other_url [] [other_bytes] None))
    (py_int world_auto_only) (format_progress world_auto_only)
    (magic_from_file world_auto_only) (subprocess_run world_auto_only)
    (model_transcribe world_auto_only).

(** The transfer breaks off after the first chunk. *)
Definition broken : exn :=
  mkExn true false "Connection broken: IncompleteRead(6 bytes read)".

Definition world_broken_stream : World :=
  world (Ok (mkResponse 200 "OK" url [("Content-Type", "audio/ogg")]
               [ogg_bytes] (Some broken)))
    (fun cmd => succeeds_writing cmd wav_bytes)
    (fun cmd => succeeds_writing cmd wav_bytes)
    (fun cmd => succeeds_writing cmd wav_bytes)
    probe_ok (Ok "").

(** The server sends the Content-Length header twice: the dictionary of
    headers joins the two values, and [int] cannot read the result. *)
Definition world_two_lengths : World :=
  world (Ok (mkResponse 200 "OK" url [("Content-Length", "6, 6")]
               [ogg_bytes] None))
    (fun cmd => succeeds_writing cmd wav_bytes)
    (fun cmd => succeeds_writing cmd wav_bytes)
    (fun cmd => succeeds_writing cmd wav_bytes)
    probe_ok (Ok "").

(** The output of the child cannot be decoded: [subprocess.run] raises
    after the child has run and left [data] in the file named by the last
    argument of [cmd]. *)
Definition undecodable : exn :=
  mkExn false true
    "'utf-8' codec can't decode byte 0xff in position 0: invalid start byte".

Definition garbles (cmd : list str) (data : bytes) : run_outcome :=
  RunRaises undecodable [(last cmd "", data)].

(** The call for the first strategy raises, the second strategy decodes
    the stream. *)
Definition world_garbled_first : World :=
  world ok_response
    (fun cmd => garbles cmd [xff])
    (fun cmd => succeeds_writing cmd wav_bytes)
    (fun _ => fails_with "")
    probe_ok (Ok "bom dia").

(** [ffprobe] runs and exits with an error status. *)
Definition probe_erroring : run_outcome :=
  Completed (mkCompleted 1 "" "Invalid data found when processing input") [].

Definition world_probe_fails : World :=
  world ok_response
    (fun cmd => succeeds_writing cmd wav_bytes)
    (fun _ => fails_with "") (fun _ => fails_with "")
    (fun _ => probe_erroring) (Ok "bom dia").

(** The transfer breaks off after half of the announced body. *)
Definition half_body : Response :=
  mkResponse 200 "OK" url [("Content-Length", "6")] [[x4f; x67; x67]]
    (Some broken).

Definition world_broken_with_length : World :=
  world (Ok half_body)
    (fun cmd => succeeds_writing cmd wav_bytes)
    (fun cmd => succeeds_writing cmd wav_bytes)
    (fun cmd => succeeds_writing cmd wav_bytes)
    probe_ok (Ok "").

End Examples.

(** ** The request handler [create_event] *)

Module Service.

(** A value decoded from JSON, as Python holds it.  A float is kept as far
    as the handler can tell floats apart: whether it is zero, and its
    text. *)
#[warnings="-register-all"]
Inductive json : Type :=
| JNull
| JBool (b : bool)
| JInt (z : Z)
| JFloat (nonzero : bool) (repr : str)
| JStr (s : str)
| JList (l : list json)
| JDict (d : list (str * json)).

(** [bool(v)]. *)
Definition truthy (v : json) : bool :=
  match v with
  | JNull => false
  | JBool b => b
  | JInt z => negb (z =? 0)%Z
  | JFloat nonzero _ => nonzero
  | JStr s => negb (s =? "")
  | JList l => match l with [] => false | _ :: _ => true end
  | JDict d => match d with [] => false | _ :: _ => true end
  end.

(** [type(v).__name__]. *)
Definition type_name (v : json) : str :=
  match v with
  | JNull => "NoneType"
  | JBool _ => "bool"
  | JInt _ => "int"
  | JFloat _ _ => "float"
  | JStr _ => "str"
  | JList _ => "list"
  | JDict _ => "dict"
  end.

(** A dictionary is the list of its items in insertion order; the item of
    a key is the first one with that key. *)
Fixpoint dict_get (k : str) (d : list (str * json)) : option json :=
  match d with
  | [] => None
  | (k', v) :: d' => if (k' =? k) then Some v else dict_get k d'
  end.

(** [d[k] = v]: the item of [k] gets the value [v], a new key goes to the
    end. *)
Fixpoint dict_set (k : str) (v : json) (d : list (str * json))
    : list (str * json) :=
  match d with
  | [] => [(k, v)]
  | (k', v') :: d' =>
      if (k' =? k) then (k', v) :: d' else (k', v') :: dict_set k v d'
  end.

Definition AttributeError (msg : str) : exn := mkExn false false msg.
Definition TypeError (msg : str) : exn := mkExn false false msg.
Definition KeyError (msg : str) : exn := mkExn false false msg.
Definition IndexError (msg : str) : exn := mkExn false false msg.

(** [d.get(k, default)] for a dictionary. *)
Definition dict_get_or (k : str) (d : list (str * json)) (default : json)
    : json :=
  match dict_get k d with
  | Some v => v
  | None => default
  end.

(** [obj.get(key, default)]: only a dictionary has the method. *)
Definition py_get (obj : json) (key : str) (default : json)
    : result exn json :=
  match obj with
  | JDict d => Ok (dict_get_or key d default)
  | _ =>
      Raise (AttributeError
               ("'" ++ type_name obj ++ "' object has no attribute 'get'"))
  end.

(** [obj[key]] for a key that is a string.  The handler subscripts only
    what [get] was called on before, so that it reaches the cases of the
    values that are not dictionaries with no input; their texts are those
    of Python 3.11. *)
Definition py_getitem (obj : json) (key : str) : result exn json :=
  match obj with
  | JDict d =>
      match dict_get key d with
      | Some v => Ok v
      | None => Raise (KeyError ("'" ++ key ++ "'"))
      end
  | JList _ =>
      Raise (TypeError "list indices must be integers or slices, not str")
  | JStr _ => Raise (TypeError "string indices must be integers, not 'str'")
  | _ => Raise (TypeError ("'" ++ type_name obj
                           ++ "' object is not subscriptable"))
  end.

(** [obj[0]]. *)
Definition py_getitem_0 (obj : json) : result exn json :=
  match obj with
  | JList (x :: _) => Ok x
  | JList [] => Raise (IndexError "list index out of range")
  | JStr (String c _) => Ok (JStr (String c EmptyString))
  | JStr EmptyString => Raise (IndexError "string index out of range")
  | JDict _ => Raise (KeyError "0")
  | _ => Raise (TypeError ("'" ++ type_name obj
                           ++ "' object is not subscriptable"))
  end.

(** [len(obj)]. *)
Definition py_len (obj : json) : result exn nat :=
  match obj with
  | JStr s => Ok (String.length s)
  | JList l => Ok (List.length l)
  | JDict d => Ok (List.length d)
  | _ => Raise (TypeError ("object of type '" ++ type_name obj
                           ++ "' has no len()"))
  end.

(** [dt.isoformat()]: the microseconds are printed when they are not
    zero. *)
Definition isoformat (dt : datetime) : str :=
  zfill 4 (str_of_N (year dt)) ++ "-" ++ zfill 2 (str_of_N (month dt))
  ++ "-" ++ zfill 2 (str_of_N (day dt)) ++ "T"
  ++ zfill 2 (str_of_N (hour dt)) ++ ":" ++ zfill 2 (str_of_N (minute dt))
  ++ ":" ++ zfill 2 (str_of_N (second dt))
  ++ (if (microsecond dt =? 0)%N then ""
      else "." ++ zfill 6 (str_of_N (microsecond dt))).

(** The row handed to BigQuery, lines 203-207. *)
Record TableRow : Type := mkRow {
  created_at : str;
  event_name : json;
  row_body : str
}.

(** What a request meets besides the collaborators of the pipeline. *)
Record Service : Type := mkService {
  (** the collaborators of [download_and_transcribe] *)
  world : World;
  (** [await request.json()] *)
  request_json : result exn json;
  (** [json.dumps(v)] and [json.dumps(v, indent=2)] *)
  json_dumps : json -> option nat -> str;
  (** [str(v)] for a value that is not a string *)
  str_of_value : json -> str;
  (** [str(e)] for an [HTTPException] (it depends on the version of
      Starlette) *)
  str_of_http_exception : HTTPException -> str;
  (** [datetime.utcnow()] *)
  utcnow : datetime;
  (** [client.insert_rows_json(table, rows)]: the list of errors *)
  insert_rows_json : str -> list TableRow -> result exn (list json)
}.

(** Lines 31-33. *)
Definition PROJECT_ID : str := "zapy-306602".
Definition DATASET_ID : str := "gtms".
Definition TABLE_ID : str := "events".

(** What the handler does that is visible from outside: the events of the
    pipeline and of the log, and the insertions. *)
Inductive sevent : Type :=
| Pipeline (ev : event)
| InsertRowsJson (table : str) (rows : list TableRow).

(** An exception raised inside the handler: one of Python or of a library,
    or the [HTTPException] of the pipeline. *)
Inductive raised : Type :=
| PyExn (e : exn)
| Http (h : HTTPException).

(** [str(e)]. *)
Definition str_of_raised (srv : Service) (e : raised) : str :=
  match e with
  | PyExn e => exn_str e
  | Http h => str_of_http_exception srv h
  end.

(** [str(v)]. *)
Definition py_str (srv : Service) (v : json) : str :=
  match v with
  | JStr s => s
  | _ => str_of_value srv v
  end.

(** The state of a request: the state of the pipeline and the local
    variables [body] and [transcription] ([JNull] and [None] before they
    are bound). *)
Record locals : Type := mkLocals {
  loc_state : state;
  loc_body : json;
  loc_transcription : option str
}.

Definition SM (E A : Type) : Type :=
  locals -> result E A * locals * list sevent.

Definition sret {E A} (a : A) : SM E A := fun l => (Ok a, l, []).

Definition sraise {E A} (e : E) : SM E A := fun l => (Raise e, l, []).

Definition sbind {E A B} (m : SM E A) (f : A -> SM E B) : SM E B :=
  fun l =>
    match m l with
    | (Ok a, l1, t1) =>
        let '(r, l2, t2) := f a l1 in (r, l2, (t1 ++ t2)%list)
    | (Raise e, l1, t1) => (Raise e, l1, t1)
    end.

(** [try: m  except Exception as e: h e]. *)
Definition stry {E F A} (m : SM E A) (h : E -> SM F A) : SM F A :=
  fun l =>
    match m l with
    | (Ok a, l1, t1) => (Ok a, l1, t1)
    | (Raise e, l1, t1) =>
        let '(r, l2, t2) := h e l1 in (r, l2, (t1 ++ t2)%list)
    end.

Notation "x <-- m ;;; k" := (sbind m (fun x => k))
  (at level 61, m at next level, right associativity).
Notation "m ;;; k" := (sbind m (fun _ => k))
  (at level 61, right associativity).

Definition slog {E} (lv : level) (msg : str) : SM E unit :=
  fun l => (Ok tt, l, [Pipeline (Log lv msg)]).

(** A value or an exception of Python. *)
Definition of_result {A} (r : result exn A) : SM raised A :=
  match r with
  | Ok a => sret a
  | Raise e => sraise (PyExn e)
  end.

Definition get_body {E} : SM E json := fun l => (Ok (loc_body l), l, []).

Definition set_body {E} (b : json) : SM E unit :=
  fun l => (Ok tt, mkLocals (loc_state l) b (loc_transcription l), []).

Definition get_transcription {E} : SM E (option str) :=
  fun l => (Ok (loc_transcription l), l, []).

Definition set_transcription {E} (t : option str) : SM E unit :=
  fun l => (Ok tt, mkLocals (loc_state l) (loc_body l) t, []).

(** [await download_and_transcribe(url)]: [requests] and the log take the
    text of a value that is not a string. *)
Definition call_download_and_transcribe (srv : Service) (url : json)
    : SM raised str :=
  fun l =>
    let '(r, s', t) :=
      download_and_transcribe (world srv) (py_str srv url) (loc_state l) in
    (match r with
     | Ok text => Ok text
     | Raise h => Raise (Http h)
     end,
     mkLocals s' (loc_body l) (loc_transcription l),
     map Pipeline t).

(** Sequencing of evaluations that may raise. *)
Definition and_then {A B} (r : result exn A) (f : A -> result exn B)
    : result exn B :=
  match r with
  | Ok a => f a
  | Raise e => Raise e
  end.

(** The condition of lines 187-188 on [body]:
    [body.get("message", {}).get("attachments") and
     len(body["message"]["attachments"]) > 0]. *)
Definition has_attachment (body : json) : result exn bool :=
  and_then (py_get body "message" (JDict [])) (fun message =>
  and_then (py_get message "attachments" JNull) (fun attachments =>
  if truthy attachments then
    and_then (py_getitem body "message") (fun message =>
    and_then (py_getitem message "attachments") (fun attachments =>
    and_then (py_len attachments) (fun n =>
    Ok (0 <? n)%nat)))
  else Ok false)).

(** The right-hand side of line 191:
    [body["message"]["attachments"][0].get("temporary_download_url")]. *)
Definition first_attachment_url (body : json) : result exn json :=
  and_then (py_getitem body "message") (fun message =>
  and_then (py_getitem message "attachments") (fun attachments =>
  and_then (py_getitem_0 attachments) (fun first =>
  py_get first "temporary_download_url" JNull))).

(** [body["message"][key] = value]. *)
Definition set_message_item (key : str) (value : json) : SM raised unit :=
  body <-- get_body ;;;
  message <-- of_result (py_getitem body "message") ;;;
  match message, body with
  | JDict m, JDict b =>
      set_body (JDict (dict_set "message" (JDict (dict_set key value m)) b))
  | JList _, _ =>
      sraise (PyExn (TypeError
                       "list indices must be integers or slices, not str"))
  | _, _ =>
      sraise (PyExn (TypeError
                       ("'" ++ type_name message
                        ++ "' object does not support item assignment")))
  end.

(** Lines 195-197: add the transcription to the message. *)
Definition add_transcription (transcription : str) : SM raised unit :=
  body <-- get_body ;;;
  text <-- of_result (and_then (py_getitem body "message") (fun message =>
                      py_get message "text" JNull)) ;;;
  (if negb (truthy text) then set_message_item "text" (JStr transcription)
   else sret tt) ;;;
  set_message_item "transcription" (JStr transcription).

(** The inner [try] block, lines 187-197. *)
Definition process_audio (srv : Service) : SM raised unit :=
  body <-- get_body ;;;
  found <-- of_result (has_attachment body) ;;;
  if found then
    slog INFO "Found attachment in message" ;;;
    url <-- of_result (first_attachment_url body) ;;;
    if truthy url then
      transcription <-- call_download_and_transcribe srv url ;;;
      set_transcription (Some transcription) ;;;
      add_transcription transcription
    else sret tt
  else sret tt.

(** [table_ref], line 210. *)
Definition table_ref : str :=
  PROJECT_ID ++ "." ++ DATASET_ID ++ "." ++ TABLE_ID.

(** [response_data], lines 219-221. *)
Definition response_data (transcription : option str) : json :=
  JDict ([("status", JStr "success");
          ("message", JStr "Event saved successfully")]
         ++ match transcription with
            | Some t => if (t =? "") then [] else [("transcription", JStr t)]
            | None => []
            end)%list.

Definition do_insert_rows_json (srv : Service) (table : str)
    (rows : list TableRow)
    : SM raised (list json) :=
  fun l =>
    (match insert_rows_json srv table rows with
     | Ok errors => Ok errors
     | Raise e => Raise (PyExn e)
     end, l, [InsertRowsJson table rows]).

(** The row of lines 203-207, given the value of
    [body.get("event_type", "unknown")]. *)
Definition row_of (srv : Service) (event_type body : json) : TableRow :=
  mkRow (isoformat (utcnow srv)) event_type (json_dumps srv body None).

(** Lines 202-223: build the row, insert it and answer. *)
Definition store_event (srv : Service) : SM raised json :=
  body <-- get_body ;;;
  event_type <-- of_result (py_get body "event_type" (JStr "unknown")) ;;;
  let row := row_of srv event_type body in
  errors <-- do_insert_rows_json srv table_ref [row] ;;;
  (match errors with
   | [] => sret tt
   | _ :: _ =>
       slog ERROR ("BigQuery errors: " ++ str_of_value srv (JList errors)) ;;;
       sraise (Http (mkHTTPException 500
                       ("Error inserting rows: "
                        ++ str_of_value srv (JList errors))))
   end) ;;;
  transcription <-- get_transcription ;;;
  sret (response_data transcription).

(** The inner [try] statement, lines 186-200: a failure is logged and the
    request goes on. *)
Definition try_process_audio (srv : Service) : SM raised unit :=
  stry (process_audio srv)
       (fun e =>
          slog ERROR ("Error processing audio: " ++ str_of_raised srv e)).

(** The outer [try] block, lines 180-223. *)
Definition handle_event (srv : Service) : SM raised json :=
  body <-- of_result (request_json srv) ;;;
  set_body body ;;;
  slog INFO ("Received request body: " ++ json_dumps srv body (Some 2)) ;;;
  set_transcription None ;;;
  try_process_audio srv ;;;
  store_event srv.

(** The outer [except] clause, lines 225-227. *)
Definition fail_with_500 (srv : Service) (e : raised)
    : SM HTTPException json :=
  slog ERROR ("Error: " ++ str_of_raised srv e) ;;;
  sraise (mkHTTPException 500 (str_of_raised srv e)).

(** [create_event], lines 177-227. *)
Definition create_event (srv : Service) : SM HTTPException json :=
  stry (handle_event srv) (fail_with_500 srv).

(** A request starts with the files of the working directory, a clock that
    has not been read and no local variable bound. *)
Definition request (srv : Service) (fs : files)
    : result HTTPException json * locals * list sevent :=
  create_event srv (mkLocals (start fs) JNull None).

(** The answer, the final state and the trace of a request. *)
Definition answer {E A} (x : result E A * locals * list sevent)
    : result E A :=
  fst (fst x).
Definition left_behind {E A} (x : result E A * locals * list sevent)
    : locals :=
  snd (fst x).
Definition events {E A} (x : result E A * locals * list sevent)
    : list sevent :=
  snd x.

(** [x] with the events [t] before its own. *)
Definition preceded_by {E A} (t : list sevent)
    (x : result E A * locals * list sevent)
    : result E A * locals * list sevent :=
  (answer x, left_behind x, (t ++ events x)%list).

(** ** What the trace of a request shows *)

(** The addresses fetched, in order. *)
Fixpoint fetched_urls (tr : list sevent) : list str :=
  match tr with
  | [] => []
  | Pipeline (HttpGet url _) :: tr' => url :: fetched_urls tr'
  | _ :: tr' => fetched_urls tr'
  end.

(** The insertions, in order. *)
Fixpoint insertions (tr : list sevent) : list (str * list TableRow) :=
  match tr with
  | [] => []
  | InsertRowsJson table rows :: tr' => (table, rows) :: insertions tr'
  | _ :: tr' => insertions tr'
  end.

(** The calls of [requests.get] in a trace of the pipeline, in order. *)
Fixpoint http_calls (tr : list event) : list (str * list (str * str)) :=
  match tr with
  | [] => []
  | HttpGet url hs :: tr' => (url, hs) :: http_calls tr'
  | _ :: tr' => http_calls tr'
  end.

(** The body that the handler stores when the transcript [t] was obtained:
    the transcript goes under [transcription], and under [text] when the
    message has no text. *)
Definition with_transcript (t : str) (message body : list (str * json))
    : json :=
  let message' :=
    match dict_get "text" message with
    | Some text => if truthy text then message
                   else dict_set "text" (JStr t) message
    | None => dict_set "text" (JStr t) message
    end in
  JDict (dict_set "message"
           (JDict (dict_set "transcription" (JStr t) message')) body).

End Service.

Import Service.

(** ** Concrete requests *)

Module ServiceExamples.

Import Examples.

Definition dquote : str := String (ascii_of_nat 34) EmptyString.

Definition quoted (q s : str) : str := q ++ s ++ q.

Fixpoint spaces (n : nat) : str :=
  match n with
  | O => ""
  | S n' => " " ++ spaces n'
  end.

(** [json.dumps] for values without a float and without a character to
    escape: on one line, or with the items on lines of their own. *)
Fixpoint dumps (indent : option nat) (level : nat) (v : json) : str :=
  let open :=
    match indent with
    | Some n => nl ++ spaces (n * S level)
    | None => ""
    end in
  let close :=
    match indent with
    | Some n => nl ++ spaces (n * level)
    | None => ""
    end in
  let comma :=
    match indent with
    | Some n => "," ++ nl ++ spaces (n * S level)
    | None => ", "
    end in
  match v with
  | JNull => "null"
  | JBool true => "true"
  | JBool false => "false"
  | JInt z => str_of_Z z
  | JFloat _ repr => repr
  | JStr s => quoted dquote s
  | JList [] => "[]"
  | JList (x :: l) =>
      "[" ++ open ++ dumps indent (S level) x
      ++ (fix items (l : list json) : str :=
            match l with
            | [] => ""
            | y :: l' => comma ++ dumps indent (S level) y ++ items l'
            end) l
      ++ close ++ "]"
  | JDict [] => "{}"
  | JDict ((k, x) :: d) =>
      "{" ++ open ++ quoted dquote k ++ ": " ++ dumps indent (S level) x
      ++ (fix items (d : list (str * json)) : str :=
            match d with
            | [] => ""
            | (k', y) :: d' =>
                comma ++ quoted dquote k' ++ ": " ++ dumps indent (S level) y
                ++ items d'
            end) d
      ++ close ++ "}"
  end.

(** [repr], under the same restrictions. *)
Fixpoint repr (v : json) : str :=
  match v with
  | JNull => "None"
  | JBool true => "True"
  | JBool false => "False"
  | JInt z => str_of_Z z
  | JFloat _ r => r
  | JStr s => quoted "'" s
  | JList [] => "[]"
  | JList (x :: l) =>
      "[" ++ repr x
      ++ (fix items (l : list json) : str :=
            match l with
            | [] => ""
            | y :: l' => ", " ++ repr y ++ items l'
            end) l
      ++ "]"
  | JDict [] => "{}"
  | JDict ((k, x) :: d) =>
      "{" ++ quoted "'" k ++ ": " ++ repr x
      ++ (fix items (d : list (str * json)) : str :=
            match d with
            | [] => ""
            | (k', y) :: d' =>
                ", " ++ quoted "'" k' ++ ": " ++ repr y ++ items d'
            end) d
      ++ "}"
  end.

(** [str(e)] of Starlette's [HTTPException]. *)
Definition http_exception_str (h : HTTPException) : str :=
  str_of_Z (status_code h) ++ ": " ++ detail h.

(** A service given by the collaborators of the pipeline, the body of the
    request and the answer of the table. *)
Definition service (w : World) (body : result exn json)
    (table : result exn (list json)) : Service :=
  mkService w body (fun v indent => dumps indent 0 v) repr http_exception_str
    (mkDatetime 2024 3 5 15 0 9 120034) (fun _ _ => table).

(** A voice message: two attachments and an empty text. *)
Definition second_attachment : json :=
  JDict [("temporary_download_url", JStr other_url)].

Definition voice_message_fields (text : json) : list (str * json) :=
  [("id", JInt 17);
   ("text", text);
   ("attachments",
    JList [JDict [("type", JStr "audio");
                  ("temporary_download_url", JStr url)];
           second_attachment])].

Definition voice_fields (text : json) : list (str * json) :=
  [("event_type", JStr "message_created");
   ("message", JDict (voice_message_fields text));
   ("account", JInt 3)].

Definition voice_message : json := JDict (voice_fields (JStr "")).

(** The same message with a caption. *)
Definition captioned_message : json := JDict (voice_fields (JStr "listen")).

(** A message without attachment, and an event without message. *)
Definition text_fields : list (str * json) :=
  [("event_type", JStr "message_created");
   ("message", JDict [("id", JInt 18); ("text", JStr "bom dia");
                      ("attachments", JList [])])].

Definition status_fields : list (str * json) :=
  [("status", JStr "online")].

(** A message whose first attachment has no address. *)
Definition forwarded_fields : list (str * json) :=
  [("event_type", JStr "message_created");
   ("message",
    JDict [("id", JInt 19);
           ("attachments",
            JList [JDict [("type", JStr "image");
                          ("temporary_download_url", JNull)];
                   second_attachment])])].

(** The table refuses the row. *)
Definition refused : list json :=
  [JDict [("index", JInt 0); ("errors", JList [JStr "invalid"])]].

End ServiceExamples.

(** * Properties *)

Section TraceLemmas.

Lemma subprocess_calls_app (t1 t2 : list event) :
  subprocess_calls (t1 ++ t2)%list
  = (subprocess_calls t1 ++ subprocess_calls t2)%list.
Proof.
  induction t1 as [|ev t1 IH]; simpl; [reflexivity|].
  destruct ev; simpl; rewrite IH; reflexivity.
Qed.

Lemma transcribe_calls_app (t1 t2 : list event) :
  transcribe_calls (t1 ++ t2)%list
  = (transcribe_calls t1 ++ transcribe_calls t2)%list.
Proof.
  induction t1 as [|ev t1 IH]; simpl; [reflexivity|].
  destruct ev; simpl; rewrite IH; reflexivity.
Qed.

Lemma error_log_app (t1 t2 : list event) :
  error_log (t1 ++ t2)%list = (error_log t1 ++ error_log t2)%list.
Proof.
  induction t1 as [|ev t1 IH]; simpl; [reflexivity|].
  destruct ev as [[|] msg| | | |]; simpl; rewrite IH; reflexivity.
Qed.

End TraceLemmas.

Section MonadLemmas.

Context {E A : Type}.

Lemma outcome_after (t : list event) (x : result E A * state * list event) :
  outcome (after t x) = outcome x.
Proof. reflexivity. Qed.

Lemma trace_after (t : list event) (x : result E A * state * list event) :
  trace (after t x) = (t ++ trace x)%list.
Proof. reflexivity. Qed.

Lemma final_after (t : list event) (x : result E A * state * list event) :
  final (after t x) = final x.
Proof. reflexivity. Qed.

Lemma after_after (t u : list event) (x : result E A * state * list event) :
  after t (after u x) = after (t ++ u)%list x.
Proof. unfold after; simpl. rewrite app_assoc. reflexivity. Qed.

Lemma bind_ok {B} (m : M E A) (f : A -> M E B) s a s1 t1 :
  m s = (Ok a, s1, t1) -> bind m f s = after t1 (f a s1).
Proof.
  intros Hm. unfold bind, after. rewrite Hm.
  destruct (f a s1) as [[r s2] t2]; reflexivity.
Qed.

Lemma bind_raise {B} (m : M E A) (f : A -> M E B) s e s1 t1 :
  m s = (Raise e, s1, t1) -> bind m f s = (Raise e, s1, t1).
Proof. intros Hm. unfold bind. rewrite Hm. reflexivity. Qed.

Lemma try_except_ok {F} (m : M E A) (h : E -> M F A) s a s1 t1 :
  m s = (Ok a, s1, t1) -> try_except m h s = (Ok a, s1, t1).
Proof. intros Hm. unfold try_except. rewrite Hm. reflexivity. Qed.

Lemma try_except_raise {F} (m : M E A) (h : E -> M F A) s e s1 t1 :
  m s = (Raise e, s1, t1) -> try_except m h s = after t1 (h e s1).
Proof.
  intros Hm. unfold try_except, after. rewrite Hm.
  destruct (h e s1) as [[r s2] t2]; reflexivity.
Qed.

Lemma quiet_app (t1 t2 : list event) :
  quiet t1 -> quiet t2 -> quiet (t1 ++ t2)%list.
Proof.
  intros (H1 & H2 & H3) (H4 & H5 & H6). repeat split.
  - rewrite subprocess_calls_app, H1, H4. reflexivity.
  - rewrite transcribe_calls_app, H2, H5. reflexivity.
  - rewrite error_log_app, H3, H6. reflexivity.
Qed.

Lemma quiet_bind {B} (m : M E A) (f : A -> M E B) s :
  quiet (trace (m s)) ->
  (forall a s', quiet (trace (f a s'))) ->
  quiet (trace (bind m f s)).
Proof.
  intros Hm Hf. unfold bind.
  destruct (m s) as [[[a|e] s1] t1] eqn:Hms; simpl in Hm.
  - specialize (Hf a s1). destruct (f a s1) as [[r s2] t2]; simpl in *.
    apply quiet_app; assumption.
  - exact Hm.
Qed.

End MonadLemmas.

(** Normal forms of [after], [outcome], [final] and [trace] on triples. *)
Tactic Notation "trace_norm" :=
  unfold after; cbn [outcome final trace fst snd app].
Tactic Notation "trace_norm" "in" hyp(H) :=
  unfold after in H; cbn [outcome final trace fst snd app] in H.

(** One step of a proof that a computation is quiet. *)
Ltac quiet_step :=
  match goal with
  | |- quiet (trace (bind _ _ _)) => apply quiet_bind; [ | intros ]
  | |- quiet (trace ((if ?b then _ else _) _)) => destruct b
  | |- quiet (trace (match ?x with _ => _ end _)) => destruct x
  | |- quiet (trace (match ?x with _ => _ end)) => destruct x
  | |- quiet _ => repeat split; reflexivity
  end.

Section Phases.

Variable w : World.

Lemma for_each_quiet {X} (l : list X) (f : X -> M exn unit) s :
  (forall x s', quiet (trace (f x s'))) -> quiet (trace (for_each l f s)).
Proof.
  intros Hf. revert s. induction l as [|x l IH]; intros s; simpl.
  - repeat split; reflexivity.
  - apply quiet_bind; [apply Hf | intros; apply IH].
Qed.

Lemma report_progress_quiet cl n s :
  quiet (trace (report_progress w cl n s)).
Proof. unfold report_progress. repeat quiet_step. Qed.

Lemma download_chunks_quiet path cl chunks n s :
  quiet (trace (download_chunks w path cl chunks n s)).
Proof.
  revert n s. induction chunks as [|chunk rest IH]; intros n s; simpl.
  - repeat split; reflexivity.
  - destruct chunk as [|b chunk]; [apply IH|].
    apply quiet_bind; [repeat split; reflexivity | intros].
    apply quiet_bind; [apply report_progress_quiet | intros; apply IH].
Qed.

Lemma download_quiet url s : quiet (trace (download w url s)).
Proof.
  unfold download, do_requests_get, raise_for_status, lift, end_of_stream,
    getsize.
  repeat first
    [ apply for_each_quiet; intros
    | apply download_chunks_quiet
    | quiet_step ].
Qed.

Lemma sniff_quiet path s : quiet (trace (sniff w path s)).
Proof.
  unfold sniff, do_magic_from_file, lift, file_read.
  repeat quiet_step.
Qed.

Lemma fetch_quiet url s : quiet (trace (fetch w url s)).
Proof.
  unfold fetch.
  apply quiet_bind; [apply download_quiet | intros].
  apply quiet_bind; [apply sniff_quiet | intros].
  repeat split; reflexivity.
Qed.

Lemma conversion_attempt_eq cmd s :
  conversion_attempt w cmd s
  = let trying :=
      Log INFO ("Trying conversion with command: " ++ String.concat " " cmd) in
    match subprocess_run w cmd with
    | Completed p ws =>
        let s' := mkState (files_put_all ws (st_files s)) (st_ticks s) in
        if (returncode p =? 0)%Z
        then (Ok true, s', [trying; SubprocessRun cmd])
        else (Ok false, s',
              [trying; SubprocessRun cmd;
               Log ERROR ("Conversion attempt failed: " ++ stderr p)])
    | RunRaises e ws =>
        (Ok false, mkState (files_put_all ws (st_files s)) (st_ticks s),
         [trying; SubprocessRun cmd;
          Log ERROR ("Error during conversion attempt: " ++ exn_str e)])
    end.
Proof.
  unfold conversion_attempt, try_except, bind, do_subprocess_run, emit,
    logger_info, logger_error, ret, raise.
  destruct (subprocess_run w cmd) as [p ws|e ws]; simpl;
    [destruct (returncode p =? 0)%Z|]; reflexivity.
Qed.

Lemma conversion_attempt_spec cmd s :
  exists s' tr,
    conversion_attempt w cmd s = (Ok (reports_success w cmd), s', tr)
    /\ subprocess_calls tr = [cmd]
    /\ transcribe_calls tr = []
    /\ error_log tr
       = (if reports_success w cmd then [] else [failure_message w cmd])
    /\ st_ticks s' = st_ticks s.
Proof.
  rewrite conversion_attempt_eq. unfold reports_success, failure_message.
  destruct (subprocess_run w cmd) as [p ws|e]; cbv zeta;
    [destruct (returncode p =? 0)%Z|];
    eexists; eexists; repeat split; reflexivity.
Qed.

(** The loop tries the commands in order and stops after the first that
    reports success; it never raises. *)
Lemma conversion_loop_spec cmds s :
  exists s' tr,
    conversion_loop w cmds s = (Ok (existsb (reports_success w) cmds), s', tr)
    /\ subprocess_calls tr = attempted w cmds
    /\ transcribe_calls tr = []
    /\ error_log tr
       = map (failure_message w)
             (filter (fun c => negb (reports_success w c)) (attempted w cmds))
    /\ st_ticks s' = st_ticks s.
Proof.
  revert s. induction cmds as [|cmd rest IH]; intros s.
  - exists s, []. repeat split; reflexivity.
  - destruct (conversion_attempt_spec cmd s)
      as (s1 & t1 & Hrun & Hsub & Htr & Herr & Htick).
    cbn [conversion_loop existsb attempted].
    rewrite (bind_ok _ _ _ _ _ _ Hrun).
    destruct (reports_success w cmd) eqn:Hok.
    + exists s1, t1. unfold after, ret; cbn [outcome final trace fst snd].
      rewrite app_nil_r. cbn [filter]. rewrite Hok. cbn [negb map].
      repeat split; assumption.
    + destruct (IH s1) as (s2 & t2 & Hloop & Hsub2 & Htr2 & Herr2 & Htick2).
      exists s2, (t1 ++ t2)%list. rewrite Hloop.
      unfold after; cbn [outcome final trace fst snd orb].
      rewrite subprocess_calls_app, transcribe_calls_app, error_log_app.
      rewrite Hsub, Hsub2, Htr, Htr2, Herr, Herr2.
      cbn [filter]. rewrite Hok. cbn [negb map app].
      repeat split; try reflexivity. congruence.
Qed.

Lemma inspect_file_eq path s :
  inspect_file w path s
  = let cmd := ["ffprobe"; "-v"; "error"; "-show_format"; "-show_streams";
                path] in
    match subprocess_run w cmd with
    | Completed p ws =>
        (Ok (Some (stdout p)),
         mkState (files_put_all ws (st_files s)) (st_ticks s),
         [SubprocessRun cmd;
          Log INFO ("File inspection result:" ++ nl ++ stdout p)])
    | RunRaises e ws =>
        (Ok None, mkState (files_put_all ws (st_files s)) (st_ticks s),
         [SubprocessRun cmd;
          Log ERROR ("Error inspecting file: " ++ exn_str e)])
    end.
Proof.
  unfold inspect_file, try_except, bind, do_subprocess_run, emit,
    logger_info, logger_error, ret, raise.
  destruct (subprocess_run w _) as [p ws|e ws]; reflexivity.
Qed.

Lemma transcode_failed d oga s s2 t2 :
  conversion_loop w (strategies w d oga s) (tick s) = (Ok false, s2, t2) ->
  transcode w d oga s
  = (Raise (RuntimeError "All conversion attempts failed"), s2,
     Log INFO ("WAV file will be saved to: " ++ wav_path_at w d s) :: t2).
Proof.
  intros Hloop. unfold transcode, bind, datetime_now, logger_info, emit.
  fold (tick s). fold (wav_path_at w d s). fold (strategies w d oga s).
  rewrite Hloop. cbn [negb]. unfold raise. cbn [app].
  rewrite app_nil_r. reflexivity.
Qed.

Lemma transcode_checked d oga s s2 t2 :
  conversion_loop w (strategies w d oga s) (tick s) = (Ok true, s2, t2) ->
  transcode w d oga s
  = after (Log INFO ("WAV file will be saved to: " ++ wav_path_at w d s) :: t2)
      (match files_get (wav_path_at w d s) (st_files s2) with
       | Some data =>
           let size := N.of_nat (List.length data) in
           (if (size =? 0)%N
            then Raise (ValueError "Converted WAV file is empty")
            else Ok (wav_path_at w d s),
            s2,
            [Log INFO ("Converted WAV file size: " ++ str_of_N size
                       ++ " bytes")])
       | None =>
           (Raise (FileNotFoundError
                     ("[Errno 2] No such file or directory: '"
                      ++ wav_path_at w d s ++ "'")), s2, [])
       end).
Proof.
  intros Hloop. unfold transcode, bind, datetime_now, logger_info, emit,
    getsize.
  fold (tick s). fold (wav_path_at w d s). fold (strategies w d oga s).
  rewrite Hloop. cbn [negb].
  unfold ret, raise, after.
  destruct (files_get (wav_path_at w d s) (st_files s2)) as [data|];
    [|reflexivity].
  cbv zeta. destruct (N.of_nat (Datatypes.length data) =? 0)%N;
    cbn [outcome final trace fst snd app]; rewrite ?app_nil_r; reflexivity.
Qed.

Lemma except_clauses_spec (e : exn) s :
  exists h msg, except_clauses e s = (Raise h, s, [Log ERROR msg]).
Proof.
  unfold except_clauses.
  destruct (is_request_exception e); [|destruct (is_value_error e)];
    eexists; eexists; reflexivity.
Qed.

Lemma transcribe_spec oga wav s :
  exists s' t,
    transcribe w oga wav s
    = (match model_transcribe w wav with
       | Ok text => Ok (strip text)
       | Raise e => Raise e
       end, s', t)
    /\ subprocess_calls t = [ffprobe_command wav]
    /\ transcribe_calls t = [wav]
    /\ st_files s'
       = match subprocess_run w (ffprobe_command wav) with
         | Completed _ ws => files_put_all ws (st_files s)
         | RunRaises _ ws => files_put_all ws (st_files s)
         end.
Proof.
  unfold transcribe, bind, logger_info, emit. cbv beta iota.
  rewrite inspect_file_eq. cbv zeta. fold (ffprobe_command wav).
  unfold do_transcribe, bind, emit, lift, ret, raise.
  destruct (subprocess_run w (ffprobe_command wav)) as [p ws|e ws];
    destruct (model_transcribe w wav) as [text|e'];
    eexists; eexists; (split; [reflexivity|]);
    repeat split; reflexivity.
Qed.

Lemma run_after_fetch url fs d oga s1 t1 :
  fetch w url (start fs) = (Ok (d, oga), s1, t1) ->
  run w url fs
  = after t1 (try_except (convert_and_transcribe w d oga) except_clauses s1).
Proof.
  intros Hfetch. unfold run, download_and_transcribe, try_block.
  unfold try_except at 1. rewrite (bind_ok _ _ _ _ _ _ Hfetch).
  cbn [fst snd]. fold (convert_and_transcribe w d oga).
  unfold try_except.
  destruct (convert_and_transcribe w d oga s1) as [[[a|e] s2] t2];
    unfold after; cbn [outcome final trace fst snd]; [reflexivity|].
  destruct (except_clauses e s2) as [[r s3] t3].
  cbn [outcome final trace fst snd]. rewrite app_assoc. reflexivity.
Qed.

Lemma run_fetch_raises url fs e s1 t1 :
  fetch w url (start fs) = (Raise e, s1, t1) ->
  run w url fs = after t1 (except_clauses e s1).
Proof.
  intros Hfetch. unfold run, download_and_transcribe, try_block.
  apply try_except_raise. apply bind_raise. exact Hfetch.
Qed.

Lemma tail_transcode_raises d oga s1 e s2 t2 :
  transcode w d oga s1 = (Raise e, s2, t2) ->
  try_except (convert_and_transcribe w d oga) except_clauses s1
  = after t2 (except_clauses e s2).
Proof.
  intros Ht. apply try_except_raise. apply bind_raise. exact Ht.
Qed.

Lemma tail_transcode_ok d oga s1 wav s2 t2 :
  transcode w d oga s1 = (Ok wav, s2, t2) ->
  try_except (convert_and_transcribe w d oga) except_clauses s1
  = after t2 (try_except (transcribe w oga wav) except_clauses s2).
Proof.
  intros Ht. unfold convert_and_transcribe, try_except at 1.
  rewrite (bind_ok _ _ _ _ _ _ Ht). unfold try_except.
  destruct (transcribe w oga wav s2) as [[[a|e] s3] t3];
    unfold after; cbn [outcome final trace fst snd]; [reflexivity|].
  destruct (except_clauses e s3) as [[r s4] t4].
  cbn [outcome final trace fst snd]. rewrite app_assoc. reflexivity.
Qed.

End Phases.

Section Transcoder.

Variable w : World.

Lemma conversion_loop_cons_fail cmd rest s :
  reports_success w cmd = false ->
  exists s1,
    conversion_loop w (cmd :: rest) s
    = after [Log INFO ("Trying conversion with command: "
                       ++ String.concat " " cmd);
             SubprocessRun cmd;
             Log ERROR (failure_message w cmd)]
            (conversion_loop w rest s1)
    /\ st_ticks s1 = st_ticks s.
Proof.
  intros Hfail. cbn [conversion_loop]. unfold bind at 1.
  rewrite conversion_attempt_eq. cbv zeta.
  unfold reports_success in Hfail. unfold failure_message.
  destruct (subprocess_run w cmd) as [p ws|e ws].
  - rewrite Hfail.
    exists (mkState (files_put_all ws (st_files s)) (st_ticks s)).
    split; [|reflexivity].
    destruct (conversion_loop w rest _) as [[r s2] t2]. reflexivity.
  - exists (mkState (files_put_all ws (st_files s)) (st_ticks s)).
    split; [|reflexivity].
    destruct (conversion_loop w rest _) as [[r s2] t2]. reflexivity.
Qed.

Lemma conversion_loop_cons_ok cmd rest s :
  reports_success w cmd = true ->
  exists s1,
    conversion_loop w (cmd :: rest) s
    = (Ok true, s1,
       [Log INFO ("Trying conversion with command: "
                  ++ String.concat " " cmd);
        SubprocessRun cmd])
    /\ st_ticks s1 = st_ticks s.
Proof.
  intros Hok. cbn [conversion_loop]. unfold bind at 1.
  rewrite conversion_attempt_eq. cbv zeta.
  unfold reports_success in Hok.
  destruct (subprocess_run w cmd) as [p ws|e ws]; [|discriminate].
  rewrite Hok. eexists; split; reflexivity.
Qed.

Lemma attempted_decoders cmds :
  forallb is_ffmpeg cmds = true ->
  filter is_ffmpeg (attempted w cmds) = attempted w cmds.
Proof.
  induction cmds as [|cmd rest IH]; intros Hall; [reflexivity|].
  cbn [forallb] in Hall. apply andb_true_iff in Hall as [Hc Hrest].
  cbn [attempted]. destruct (reports_success w cmd); cbn [filter]; rewrite Hc.
  - reflexivity.
  - rewrite (IH Hrest). reflexivity.
Qed.

Lemma strategies_decoders d oga s :
  forallb is_ffmpeg (strategies w d oga s) = true.
Proof. reflexivity. Qed.

(** Whatever happens after the download, the decode steps of the run are
    the strategies up to the first success, and launches of other
    programs come after them. *)
Lemma tail_subprocess_calls d oga s1 :
  exists probes,
    subprocess_calls
      (trace (try_except (convert_and_transcribe w d oga) except_clauses s1))
    = (attempted w (strategies w d oga s1) ++ probes)%list
    /\ filter is_ffmpeg probes = [].
Proof.
  destruct (conversion_loop_spec w (strategies w d oga s1) (tick s1))
    as (s2 & t2 & Hloop & Hsub & _ & _ & _).
  assert (Hraise : forall e t,
             transcode w d oga s1 = (Raise e, s2, t) ->
             subprocess_calls t = attempted w (strategies w d oga s1) ->
             subprocess_calls
               (trace (try_except (convert_and_transcribe w d oga)
                                  except_clauses s1))
             = (attempted w (strategies w d oga s1) ++ [])%list).
  { intros e t Ht Ht'. rewrite (tail_transcode_raises w _ _ _ _ _ _ Ht).
    destruct (except_clauses_spec e s2) as (h & msg & Hh). rewrite Hh.
    rewrite trace_after, subprocess_calls_app, Ht'. reflexivity. }
  destruct (existsb (reports_success w) (strategies w d oga s1)).
  - pose proof (transcode_checked w d oga s1 s2 t2 Hloop) as Ht.
    destruct (files_get (wav_path_at w d s1) (st_files s2)) as [data|].
    + cbv zeta in Ht.
      destruct (N.of_nat (Datatypes.length data) =? 0)%N; trace_norm in Ht.
      * exists []. split; [|reflexivity]. apply (Hraise _ _ Ht).
        cbn [subprocess_calls]. rewrite subprocess_calls_app, Hsub.
        apply app_nil_r.
      * rewrite (tail_transcode_ok w _ _ _ _ _ _ Ht).
        destruct (transcribe_spec w oga (wav_path_at w d s1) s2)
          as (s3 & t3 & Htr & Hsub3 & _ & _).
        exists [ffprobe_command (wav_path_at w d s1)]. split; [|reflexivity].
        rewrite trace_after, subprocess_calls_app.
        cbn [subprocess_calls]. rewrite subprocess_calls_app, Hsub.
        cbn [subprocess_calls]. rewrite app_nil_r. f_equal.
        destruct (model_transcribe w (wav_path_at w d s1)) as [text|e].
        -- rewrite (try_except_ok _ _ _ _ _ _ Htr). exact Hsub3.
        -- rewrite (try_except_raise _ _ _ _ _ _ Htr).
           destruct (except_clauses_spec e s3) as (h & msg & Hh). rewrite Hh.
           rewrite trace_after, subprocess_calls_app, Hsub3. reflexivity.
    + trace_norm in Ht.
      exists []. split; [|reflexivity]. apply (Hraise _ _ Ht).
      cbn [subprocess_calls]. rewrite app_nil_r. exact Hsub.
  - pose proof (transcode_failed w d oga s1 s2 t2 Hloop) as Ht.
    exists []. split; [|reflexivity]. apply (Hraise _ _ Ht). exact Hsub.
Qed.

Lemma run_decoder_calls url fs d oga s1 t1 :
  fetch w url (start fs) = (Ok (d, oga), s1, t1) ->
  decoder_calls (trace (run w url fs)) = attempted w (strategies w d oga s1).
Proof.
  intros Hfetch. rewrite (run_after_fetch w _ _ _ _ _ _ Hfetch).
  rewrite trace_after. unfold decoder_calls. rewrite subprocess_calls_app.
  pose proof (fetch_quiet w url (start fs)) as (Hq & _ & _).
  rewrite Hfetch in Hq. cbn [trace snd] in Hq. rewrite Hq. cbn [app].
  destruct (tail_subprocess_calls d oga s1) as (probes & -> & Hprobes).
  rewrite filter_app, Hprobes, app_nil_r.
  apply attempted_decoders, strategies_decoders.
Qed.

End Transcoder.

Section StrategyOrder.

Variable w : World.

(** C1: the strategies are applied in the fixed order OGG hint, raw-audio
    hint, no hint; the decode steps of a run are exactly the strategies up
    to and including the first that reports a zero exit status.  A success
    of the first (second) strategy leaves the later ones unlaunched, and
    when only the third succeeds it is launched after the two others have
    been launched and reported as failed. *)
Theorem strategies_in_order_until_first_success url fs d oga s1 t1 :
  fetch w url (start fs) = (Ok (d, oga), s1, t1) ->
  map container_hint (strategies w d oga s1) = [Some "ogg"; Some "audio"; None]
  /\ decoder_calls (trace (run w url fs)) = attempted w (strategies w d oga s1)
  /\ forall c1 c2 c3,
       strategies w d oga s1 = [c1; c2; c3] ->
       (reports_success w c1 = true ->
        decoder_calls (trace (run w url fs)) = [c1])
       /\ (reports_success w c1 = false -> reports_success w c2 = true ->
           decoder_calls (trace (run w url fs)) = [c1; c2])
       /\ (reports_success w c1 = false -> reports_success w c2 = false ->
           reports_success w c3 = true ->
           decoder_calls (trace (run w url fs)) = [c1; c2; c3]
           /\ exists s2 t2,
               conversion_loop w (strategies w d oga s1) (tick s1)
               = (Ok true, s2, t2)
               /\ filter is_strategy_event t2
                  = [SubprocessRun c1; Log ERROR (failure_message w c1);
                     SubprocessRun c2; Log ERROR (failure_message w c2);
                     SubprocessRun c3]).
Proof.
  intros Hfetch. split; [reflexivity|].
  pose proof (run_decoder_calls w url fs d oga s1 t1 Hfetch) as Hcalls.
  split; [exact Hcalls|].
  intros c1 c2 c3 Hcmds. rewrite Hcalls, Hcmds. cbn [attempted].
  split; [|split].
  - intros ->. reflexivity.
  - intros -> ->. reflexivity.
  - intros H1 H2 H3. rewrite H1, H2, H3. split; [reflexivity|].
    destruct (conversion_loop_cons_fail w c1 [c2; c3] (tick s1) H1)
      as (sa & Ea & _).
    destruct (conversion_loop_cons_fail w c2 [c3] sa H2) as (sb & Eb & _).
    destruct (conversion_loop_cons_ok w c3 [] sb H3) as (sc & Ec & _).
    rewrite Ec in Eb. rewrite Eb in Ea. trace_norm in Ea.
    eexists; eexists; split; [exact Ea|]. reflexivity.
Qed.

End StrategyOrder.

Lemma strategies_in_order_witness :
  fetch Examples.world_auto_only Examples.url (start Examples.no_files)
  = (Ok (Examples.ex_dir, Examples.ex_oga),
     final (Examples.fetched Examples.world_auto_only),
     trace (Examples.fetched Examples.world_auto_only))
  /\ decoder_calls
       (trace (run Examples.world_auto_only Examples.url Examples.no_files))
     = conversion_commands Examples.ex_oga Examples.ex_wav.
Proof.
  assert (H : fetch Examples.world_auto_only Examples.url
                (start Examples.no_files)
              = (Ok (Examples.ex_dir, Examples.ex_oga),
                 final (Examples.fetched Examples.world_auto_only),
                 trace (Examples.fetched Examples.world_auto_only)))
    by (vm_compute; reflexivity).
  split; [exact H|].
  destruct (strategies_in_order_until_first_success _ _ _ _ _ _ _ H)
    as (_ & _ & Hcases).
  destruct (Hcases _ _ _ eq_refl) as (_ & _ & Honly).
  destruct Honly as [Hcalls _]; [reflexivity | reflexivity | reflexivity |].
  exact Hcalls.
Defined.

Section TranscodeFailures.

Variable w : World.

Lemma run_transcode_raises url fs d oga s1 t1 e s2 t2 :
  fetch w url (start fs) = (Ok (d, oga), s1, t1) ->
  transcode w d oga s1 = (Raise e, s2, t2) ->
  run w url fs = after (t1 ++ t2)%list (except_clauses e s2).
Proof.
  intros Hfetch Ht. rewrite (run_after_fetch w _ _ _ _ _ _ Hfetch).
  rewrite (tail_transcode_raises w _ _ _ _ _ _ Ht). apply after_after.
Qed.

Lemma fetched_trace_quiet url fs r s1 t1 :
  fetch w url (start fs) = (r, s1, t1) -> quiet t1.
Proof.
  intros Hfetch. pose proof (fetch_quiet w url (start fs)) as Hq.
  rewrite Hfetch in Hq. exact Hq.
Qed.

(** When some strategy reports success, the strategies launched end with
    a successful one and all before it failed. *)
Lemma attempted_ends_with_success cmds :
  existsb (reports_success w) cmds = true ->
  exists failed c,
    attempted w cmds = (failed ++ [c])%list
    /\ reports_success w c = true
    /\ forallb (fun c' => negb (reports_success w c')) failed = true.
Proof.
  induction cmds as [|cmd rest IH]; cbn [existsb attempted]; [discriminate|].
  destruct (reports_success w cmd) eqn:Hc; cbn [orb].
  - intros _. exists [], cmd. repeat split. exact Hc.
  - intros Hrest. destruct (IH Hrest) as (failed & c & Hatt & Hok & Hfailed).
    exists (cmd :: failed), c. rewrite Hatt. cbn [forallb]. rewrite Hc, Hfailed.
    repeat split. exact Hok.
Qed.

Lemma attempted_all_failed cmds :
  existsb (reports_success w) cmds = false ->
  attempted w cmds = cmds
  /\ filter (fun c => negb (reports_success w c)) cmds = cmds.
Proof.
  induction cmds as [|cmd rest IH]; cbn [existsb attempted filter];
    [split; reflexivity|].
  destruct (reports_success w cmd); cbn [orb negb]; [discriminate|].
  intros Hrest. destruct (IH Hrest) as [-> ->]. split; reflexivity.
Qed.

(** C2: when some strategy reports success and the output file is empty,
    the run fails with the error of an empty transcode, which differs from
    the error of a failed conversion; the launched programs are the
    strategies up to the successful one, which is the last program
    launched, and the engine is not called. *)
Theorem empty_output_fails_with_EmptyTranscode url fs d oga s1 t1 s2 t2 :
  fetch w url (start fs) = (Ok (d, oga), s1, t1) ->
  conversion_loop w (strategies w d oga s1) (tick s1) = (Ok true, s2, t2) ->
  files_get (wav_path_at w d s1) (st_files s2) = Some [] ->
  outcome (run w url fs) = Raise EmptyTranscode
  /\ EmptyTranscode <> AllConversionsFailed
  /\ subprocess_calls (trace (run w url fs))
     = attempted w (strategies w d oga s1)
  /\ (exists failed c,
        subprocess_calls (trace (run w url fs)) = (failed ++ [c])%list
        /\ reports_success w c = true
        /\ forallb (fun c' => negb (reports_success w c')) failed = true)
  /\ transcribe_calls (trace (run w url fs)) = [].
Proof.
  intros Hfetch Hloop Hempty.
  destruct (conversion_loop_spec w (strategies w d oga s1) (tick s1))
    as (s2' & t2' & Hspec & Hsub & Htr & _ & _).
  rewrite Hloop in Hspec.
  assert (Hsome : existsb (reports_success w) (strategies w d oga s1) = true)
    by congruence.
  assert (t2' = t2) by congruence. subst t2'. clear Hspec s2'.
  pose proof (transcode_checked w d oga s1 s2 t2 Hloop) as Ht.
  rewrite Hempty in Ht. trace_norm in Ht.
  change (N.of_nat (Datatypes.length (@nil byte)) =? 0)%N with true in Ht.
  cbv iota in Ht.
  match type of Ht with _ = (_, _, ?t) => set (tx := t) in * end.
  assert (Hsubx : subprocess_calls tx = attempted w (strategies w d oga s1)).
  { subst tx. cbn [subprocess_calls]. rewrite subprocess_calls_app, Hsub.
    apply app_nil_r. }
  assert (Htrx : transcribe_calls tx = []).
  { subst tx. cbn [transcribe_calls]. rewrite transcribe_calls_app, Htr.
    reflexivity. }
  clearbody tx.
  rewrite (run_transcode_raises _ _ _ _ _ _ _ _ _ Hfetch Ht).
  destruct (fetched_trace_quiet _ _ _ _ _ Hfetch) as (Hq1 & Hq2 & _).
  rewrite trace_after, !subprocess_calls_app, !transcribe_calls_app.
  rewrite Hq1, Hq2, Hsubx, Htrx. cbn [app subprocess_calls].
  rewrite app_nil_r.
  split; [reflexivity|]. split; [discriminate|]. split; [reflexivity|].
  split; [|reflexivity].
  apply attempted_ends_with_success. exact Hsome.
Qed.

Lemma run_when_all_fail url fs d oga s1 t1 :
  fetch w url (start fs) = (Ok (d, oga), s1, t1) ->
  existsb (reports_success w) (strategies w d oga s1) = false ->
  outcome (run w url fs) = Raise AllConversionsFailed
  /\ subprocess_calls (trace (run w url fs)) = strategies w d oga s1
  /\ error_log (trace (run w url fs))
     = (map (failure_message w) (strategies w d oga s1)
        ++ ["Error in download_and_transcribe: All conversion attempts failed"])%list
  /\ transcribe_calls (trace (run w url fs)) = [].
Proof.
  intros Hfetch Hnone.
  destruct (conversion_loop_spec w (strategies w d oga s1) (tick s1))
    as (s2 & t2 & Hloop & Hsub & Htr & Herr & _).
  rewrite Hnone in Hloop.
  destruct (attempted_all_failed _ Hnone) as [Hatt Hfilter].
  rewrite Hatt in Hsub, Herr. rewrite Hfilter in Herr.
  pose proof (transcode_failed w d oga s1 s2 t2 Hloop) as Ht.
  rewrite (run_transcode_raises _ _ _ _ _ _ _ _ _ Hfetch Ht).
  destruct (fetched_trace_quiet _ _ _ _ _ Hfetch) as (Hq1 & Hq2 & Hq3).
  split; [reflexivity|].
  rewrite trace_after.
  rewrite !subprocess_calls_app, !error_log_app, !transcribe_calls_app.
  rewrite Hq1, Hq2, Hq3.
  cbn [subprocess_calls transcribe_calls error_log app].
  rewrite Hsub, Htr, Herr. rewrite app_nil_r.
  repeat split; reflexivity.
Qed.

(** C3, as the code has it: when every strategy fails, the run fails with
    the error of a failed conversion, whose text is fixed; all strategies
    were launched, in order; the error output of each is a record of the
    log at level [ERROR], in order, followed by the record of the failed
    run; the engine is not called. *)
Theorem all_strategies_fail_AllConversionsFailed url fs d oga s1 t1 :
  fetch w url (start fs) = (Ok (d, oga), s1, t1) ->
  existsb (reports_success w) (strategies w d oga s1) = false ->
  outcome (run w url fs) = Raise AllConversionsFailed
  /\ detail AllConversionsFailed = "All conversion attempts failed"
  /\ subprocess_calls (trace (run w url fs)) = strategies w d oga s1
  /\ error_log (trace (run w url fs))
     = (map (failure_message w) (strategies w d oga s1)
        ++ ["Error in download_and_transcribe: All conversion attempts failed"])%list
  /\ transcribe_calls (trace (run w url fs)) = [].
Proof.
  intros Hfetch Hnone.
  destruct (run_when_all_fail url fs d oga s1 t1 Hfetch Hnone)
    as (Hout & Hcalls & Hlog & Htr).
  repeat split; assumption.
Qed.

Lemma attempted_app_failed (failed cmds : list (list str)) :
  (forall c, In c failed -> reports_success w c = false) ->
  attempted w (failed ++ cmds)%list = (failed ++ attempted w cmds)%list.
Proof.
  induction failed as [|c failed IH]; intros Hfailed; [reflexivity|].
  cbn [app attempted]. rewrite (Hfailed c (or_introl eq_refl)).
  rewrite IH; [reflexivity|].
  intros c' Hc'. apply Hfailed. right. exact Hc'.
Qed.

Lemma existsb_none (failed : list (list str)) :
  (forall c, In c failed -> reports_success w c = false) ->
  existsb (reports_success w) failed = false.
Proof.
  intros Hfailed. apply not_true_is_false. intros Hsome.
  apply existsb_exists in Hsome as (c & Hin & Hok).
  rewrite (Hfailed c Hin) in Hok. discriminate.
Qed.

(** C10: a strategy for which the call of [subprocess.run] raises is
    logged as failed and the loop goes on with the strategies after it, in
    the state that the call has left; in a run, whichever strategy it is,
    the decode steps after it are those of the strategies that follow, and
    when none of these reports success the run fails with the error of a
    failed conversion; when the call raises for every strategy, all of
    them were tried and the run fails with that error, not with one of the
    exceptions raised. *)
Theorem raising_strategy_counts_as_failed :
  (forall cmd rest s e ws,
      subprocess_run w cmd = RunRaises e ws ->
      conversion_loop w (cmd :: rest) s
      = after [Log INFO ("Trying conversion with command: "
                         ++ String.concat " " cmd);
               SubprocessRun cmd;
               Log ERROR ("Error during conversion attempt: " ++ exn_str e)]
              (conversion_loop w rest
                 (mkState (files_put_all ws (st_files s)) (st_ticks s))))
  /\ (forall url fs d oga s1 t1,
         fetch w url (start fs) = (Ok (d, oga), s1, t1) ->
         (forall failed cmd rest e ws,
             strategies w d oga s1 = (failed ++ cmd :: rest)%list ->
             (forall c, In c failed -> reports_success w c = false) ->
             subprocess_run w cmd = RunRaises e ws ->
             decoder_calls (trace (run w url fs))
             = (failed ++ cmd :: attempted w rest)%list
             /\ (existsb (reports_success w) rest = false ->
                 outcome (run w url fs) = Raise AllConversionsFailed
                 /\ transcribe_calls (trace (run w url fs)) = []))
         /\ ((forall c, In c (strategies w d oga s1) ->
                        exists e ws, subprocess_run w c = RunRaises e ws) ->
             outcome (run w url fs) = Raise AllConversionsFailed
             /\ subprocess_calls (trace (run w url fs))
                = strategies w d oga s1
             /\ transcribe_calls (trace (run w url fs)) = [])).
Proof.
  split.
  - intros cmd rest s e ws He. cbn [conversion_loop]. unfold bind at 1.
    rewrite conversion_attempt_eq, He. cbv beta iota zeta.
    destruct (conversion_loop w rest _) as [[r s'] t']. reflexivity.
  - intros url fs d oga s1 t1 Hfetch. split.
    + intros failed cmd rest e ws Hall Hfailed He.
      assert (Hcmd : reports_success w cmd = false).
      { unfold reports_success. rewrite He. reflexivity. }
      split.
      * rewrite (run_decoder_calls w _ _ _ _ _ _ Hfetch), Hall.
        rewrite (attempted_app_failed _ _ Hfailed).
        cbn [attempted]. rewrite Hcmd. reflexivity.
      * intros Hrest.
        assert (Hnone : existsb (reports_success w) (strategies w d oga s1)
                        = false).
        { rewrite Hall, existsb_app, (existsb_none _ Hfailed).
          cbn [existsb orb]. rewrite Hcmd, Hrest. reflexivity. }
        destruct (run_when_all_fail url fs d oga s1 t1 Hfetch Hnone)
          as (Hout & _ & _ & Htr).
        split; assumption.
    + intros Hraise.
      assert (Hnone : existsb (reports_success w) (strategies w d oga s1)
                      = false).
      { apply existsb_none. intros c Hin.
        destruct (Hraise c Hin) as (e & ws & He).
        unfold reports_success. rewrite He. reflexivity. }
      destruct (run_when_all_fail url fs d oga s1 t1 Hfetch Hnone)
        as (Hout & Hcalls & _ & Htr).
      repeat split; assumption.
Qed.

End TranscodeFailures.

Lemma empty_output_witness :
  fetch Examples.world_empty_output Examples.url (start Examples.no_files)
  = (Ok (Examples.ex_dir, Examples.ex_oga),
     final (Examples.fetched Examples.world_empty_output),
     trace (Examples.fetched Examples.world_empty_output))
  /\ files_get Examples.ex_wav
       (st_files (final (Examples.converted Examples.world_empty_output)))
     = Some []
  /\ outcome (run Examples.world_empty_output Examples.url Examples.no_files)
     = Raise EmptyTranscode
  /\ List.length
       (subprocess_calls
          (trace (run Examples.world_empty_output Examples.url
                      Examples.no_files))) = 2.
Proof.
  assert (Hfetch : fetch Examples.world_empty_output Examples.url
                     (start Examples.no_files)
                   = (Ok (Examples.ex_dir, Examples.ex_oga),
                      final (Examples.fetched Examples.world_empty_output),
                      trace (Examples.fetched Examples.world_empty_output)))
    by (vm_compute; reflexivity).
  assert (Hloop :
    conversion_loop Examples.world_empty_output
      (strategies Examples.world_empty_output Examples.ex_dir Examples.ex_oga
         (final (Examples.fetched Examples.world_empty_output)))
      (tick (final (Examples.fetched Examples.world_empty_output)))
    = (Ok true, final (Examples.converted Examples.world_empty_output),
       trace (Examples.converted Examples.world_empty_output)))
    by (vm_compute; reflexivity).
  assert (Hempty :
    files_get
      (wav_path_at Examples.world_empty_output Examples.ex_dir
         (final (Examples.fetched Examples.world_empty_output)))
      (st_files (final (Examples.converted Examples.world_empty_output)))
    = Some []) by (vm_compute; reflexivity).
  destruct (empty_output_fails_with_EmptyTranscode _ _ _ _ _ _ _ _ _
              Hfetch Hloop Hempty) as (Hout & _ & Hcalls & _).
  split; [exact Hfetch|]. split; [exact Hempty|]. split; [exact Hout|].
  rewrite Hcalls. vm_compute. reflexivity.
Defined.

Lemma all_strategies_fail_witness :
  fetch (Examples.world_none "a" "b" "c") Examples.url (start Examples.no_files)
  = (Ok (Examples.ex_dir, Examples.ex_oga),
     final (Examples.fetched (Examples.world_none "a" "b" "c")),
     trace (Examples.fetched (Examples.world_none "a" "b" "c")))
  /\ outcome (run (Examples.world_none "a" "b" "c") Examples.url
                  Examples.no_files)
     = Raise AllConversionsFailed
  /\ error_log (trace (run (Examples.world_none "a" "b" "c") Examples.url
                           Examples.no_files))
     = ["Conversion attempt failed: a"; "Conversion attempt failed: b";
        "Conversion attempt failed: c";
        "Error in download_and_transcribe: All conversion attempts failed"].
Proof.
  assert (Hfetch : fetch (Examples.world_none "a" "b" "c") Examples.url
                     (start Examples.no_files)
                   = (Ok (Examples.ex_dir, Examples.ex_oga),
                      final (Examples.fetched (Examples.world_none "a" "b" "c")),
                      trace (Examples.fetched (Examples.world_none "a" "b" "c"))))
    by (vm_compute; reflexivity).
  destruct (all_strategies_fail_AllConversionsFailed _ _ _ _ _ _ _
              Hfetch eq_refl) as (Hout & _ & _ & Hlog & _).
  split; [exact Hfetch|]. split; [exact Hout|]. exact Hlog.
Defined.

(** C3 as stated fails: the error raised when every strategy fails is the
    same whatever the strategies wrote on their error output, and its text
    contains none of it. *)
Lemma error_does_not_carry_strategy_output :
  outcome (run (Examples.world_none
                  "Invalid data found when processing input"
                  "Unknown input format: 'audio'"
                  "moov atom not found")
               Examples.url Examples.no_files)
  = Raise (mkHTTPException 500 "All conversion attempts failed")
  /\ outcome (run (Examples.world_none "" "" "") Examples.url
                  Examples.no_files)
     = Raise (mkHTTPException 500 "All conversion attempts failed")
  /\ str_contains "Invalid data found when processing input"
       "All conversion attempts failed" = false
  /\ str_contains "Unknown input format: 'audio'"
       "All conversion attempts failed" = false
  /\ str_contains "moov atom not found"
       "All conversion attempts failed" = false.
Proof. repeat split; vm_compute; reflexivity. Qed.

Lemma raising_strategy_witness :
  outcome (run Examples.world_no_ffmpeg Examples.url Examples.no_files)
  = Raise AllConversionsFailed
  /\ subprocess_calls
       (trace (run Examples.world_no_ffmpeg Examples.url Examples.no_files))
     = conversion_commands Examples.ex_oga Examples.ex_wav
  /\ subprocess_run Examples.world_garbled_first
       (hd [] (conversion_commands Examples.ex_oga Examples.ex_wav))
     = RunRaises Examples.undecodable [(Examples.ex_wav, [xff])]
  /\ decoder_calls
       (trace (run Examples.world_garbled_first Examples.url
                 Examples.no_files))
     = firstn 2 (conversion_commands Examples.ex_oga Examples.ex_wav).
Proof.
  assert (Hfetch : fetch Examples.world_no_ffmpeg Examples.url
                     (start Examples.no_files)
                   = (Ok (Examples.ex_dir, Examples.ex_oga),
                      final (Examples.fetched Examples.world_no_ffmpeg),
                      trace (Examples.fetched Examples.world_no_ffmpeg)))
    by (vm_compute; reflexivity).
  assert (Hraise : forall c,
             In c (strategies Examples.world_no_ffmpeg Examples.ex_dir
                     Examples.ex_oga
                     (final (Examples.fetched Examples.world_no_ffmpeg))) ->
             exists e ws,
               subprocess_run Examples.world_no_ffmpeg c = RunRaises e ws).
  { intros c [<-|[<-|[<-|[]]]]; eexists; eexists; vm_compute; reflexivity. }
  destruct (proj2 (raising_strategy_counts_as_failed _) _ _ _ _ _ _ Hfetch)
    as (_ & Hall).
  destruct (Hall Hraise) as (Hout & Hcalls & _).
  split; [exact Hout|]. split; [exact Hcalls|].
  assert (Hfetch' : fetch Examples.world_garbled_first Examples.url
                      (start Examples.no_files)
                    = (Ok (Examples.ex_dir, Examples.ex_oga),
                       final (Examples.fetched Examples.world_garbled_first),
                       trace (Examples.fetched Examples.world_garbled_first)))
    by (vm_compute; reflexivity).
  assert (Hgarbled :
    subprocess_run Examples.world_garbled_first
      (hd [] (conversion_commands Examples.ex_oga Examples.ex_wav))
    = RunRaises Examples.undecodable [(Examples.ex_wav, [xff])])
    by (vm_compute; reflexivity).
  split; [exact Hgarbled|].
  destruct (proj2 (raising_strategy_counts_as_failed _) _ _ _ _ _ _ Hfetch')
    as (Hnext & _).
  destruct (Hnext []
              (hd [] (conversion_commands Examples.ex_oga Examples.ex_wav))
              (tl (conversion_commands Examples.ex_oga Examples.ex_wav))
              Examples.undecodable [(Examples.ex_wav, [xff])])
    as (Hdec & _).
  - vm_compute. reflexivity.
  - intros c [].
  - exact Hgarbled.
  - etransitivity; [exact Hdec|]. vm_compute. reflexivity.
Defined.

Section Download.

Variable w : World.

Lemma http_error_msg_error (r : Response) :
  (400 <= resp_status r < 600)%Z ->
  http_error_msg r = Some (status_message r).
Proof.
  intros Hst. unfold status_message, http_error_msg.
  destruct ((400 <=? resp_status r) && (resp_status r <? 500))%Z eqn:H4;
    [reflexivity|].
  destruct ((500 <=? resp_status r) && (resp_status r <? 600))%Z eqn:H5;
    [reflexivity|].
  exfalso. apply andb_false_iff in H4, H5.
  rewrite Z.leb_gt, Z.ltb_ge in H4, H5. lia.
Qed.

Lemma http_error_msg_none (r : Response) :
  (resp_status r < 400 \/ 600 <= resp_status r)%Z ->
  http_error_msg r = None.
Proof.
  intros Hst. unfold http_error_msg.
  destruct ((400 <=? resp_status r) && (resp_status r <? 500))%Z eqn:H4.
  { apply andb_true_iff in H4. rewrite Z.leb_le, Z.ltb_lt in H4. lia. }
  destruct ((500 <=? resp_status r) && (resp_status r <? 600))%Z eqn:H5.
  { apply andb_true_iff in H5. rewrite Z.leb_le, Z.ltb_lt in H5. lia. }
  reflexivity.
Qed.

Lemma for_each_log {X} (l : list X) (f : X -> str) s :
  for_each l (fun x => logger_info (f x)) s
  = (Ok tt, s, map (fun x => Log INFO (f x)) l) :> result exn unit * _ * _.
Proof.
  induction l as [|x l IH]; [reflexivity|].
  cbn [for_each map]. unfold bind at 1. unfold logger_info at 1, emit.
  rewrite IH. reflexivity.
Qed.

Lemma download_chunks_empty path cl chunks n s :
  List.concat chunks = [] ->
  download_chunks w path cl chunks n s = (Ok n, s, []).
Proof.
  induction chunks as [|chunk rest IH]; intros Hempty; [reflexivity|].
  cbn [List.concat] in Hempty. apply app_eq_nil in Hempty as [-> Hrest].
  cbn [download_chunks]. apply IH, Hrest.
Qed.

Lemma download_early_failure url s e :
  transport_failure w url e ->
  (forall r, requests_get w url headers = Ok r ->
             (400 <= resp_status r < 600)%Z) ->
  download w url s
  = (Raise e, s,
     [Log INFO ("Downloading audio from URL: " ++ url); HttpGet url headers]).
Proof.
  intros Hfail Hearly.
  unfold download, bind, logger_info, do_requests_get, bind, emit, lift.
  cbv beta iota.
  destruct Hfail as [e Hget _|r Hget Hst|r e Hget Hst _ _ _].
  - rewrite Hget. reflexivity.
  - rewrite Hget. unfold ret at 1. cbv beta iota. unfold raise_for_status.
    rewrite (http_error_msg_error r Hst). reflexivity.
  - pose proof (Hearly r Hget). lia.
Qed.

Lemma report_progress_ok cl n s :
  match cl with
  | None => True
  | Some c => c = "" \/ exists total, py_int w c = Ok total /\ total <> 0%Z
  end ->
  exists t, report_progress w cl n s = (Ok tt, s, t).
Proof.
  unfold report_progress. destruct cl as [c|]; [|eexists; reflexivity].
  intros [-> | (total & Hint & Hnz)]; [eexists; reflexivity|].
  destruct (c =? ""); [eexists; reflexivity|].
  rewrite Hint. apply Z.eqb_neq in Hnz. rewrite Hnz.
  eexists; reflexivity.
Qed.

Lemma download_chunks_ok path cl chunks n s :
  match cl with
  | None => True
  | Some c => c = "" \/ exists total, py_int w c = Ok total /\ total <> 0%Z
  end ->
  exists n' s' t, download_chunks w path cl chunks n s = (Ok n', s', t).
Proof.
  intros Hcl. revert n s.
  induction chunks as [|chunk rest IH]; intros n s.
  - eexists; eexists; eexists; reflexivity.
  - cbn [download_chunks]. destruct chunk as [|c chunk]; [apply IH|].
    unfold bind at 1, file_write.
    match goal with
    | |- context [report_progress w cl ?m] =>
        match goal with
        | |- context [bind (report_progress w cl m) ?f ?s0] =>
            destruct (report_progress_ok cl m s0 Hcl) as (t & Hrep);
            rewrite (bind_ok _ f s0 tt s0 t Hrep)
        end
    end.
    match goal with
    | |- context [download_chunks w path cl rest ?m ?s0] =>
        destruct (IH m s0) as (n' & s' & t' & Hrest); rewrite Hrest
    end.
    eexists; eexists; eexists; reflexivity.
Qed.

Lemma download_stream_breaks url s r e :
  requests_get w url headers = Ok r ->
  (resp_status r < 400 \/ 600 <= resp_status r)%Z ->
  resp_stream_error r = Some e ->
  progress_reportable w r ->
  outcome (download w url s) = Raise e.
Proof.
  intros Hget Hst Hstream Hprogress.
  unfold download, bind, logger_info, do_requests_get, bind, emit, lift.
  cbv beta iota. rewrite Hget. unfold ret at 1. cbv beta iota.
  unfold raise_for_status. rewrite (http_error_msg_none r Hst).
  unfold ret at 1. cbv beta iota.
  rewrite (for_each_log (resp_headers r) (fun kv => fst kv ++ ": " ++ snd kv)).
  cbv beta iota. unfold datetime_now, open_wb. cbv beta iota.
  match goal with
  | |- context [download_chunks w ?path ?cl ?chunks ?n ?s0] =>
      assert (Hchunks : exists n' s' t,
                download_chunks w path cl chunks n s0 = (Ok n', s', t))
  end.
  { destruct Hprogress as [Hempty | Hcl].
    - eexists; eexists; eexists. apply download_chunks_empty. exact Hempty.
    - apply download_chunks_ok. exact Hcl. }
  destruct Hchunks as (n' & s' & t & Hchunks). rewrite Hchunks.
  unfold end_of_stream. rewrite Hstream. reflexivity.
Qed.

Lemma transport_failure_class url e :
  transport_failure w url e -> is_request_exception e = true.
Proof.
  intros [e' _ He|r _ _|r e' _ _ _ He _]; [exact He | reflexivity | exact He].
Qed.

Lemma download_transport_failure url s e :
  transport_failure w url e -> outcome (download w url s) = Raise e.
Proof.
  intros Hfail.
  destruct Hfail as [e Hget He|r Hget Hst|r e Hget Hst Hstream He Hprogress].
  - rewrite (download_early_failure url s e (request_raises w url e Hget He));
      [reflexivity|].
    intros r Hr. rewrite Hget in Hr. discriminate.
  - rewrite (download_early_failure url s _ (error_status w url r Hget Hst));
      [reflexivity|].
    intros r' Hr. rewrite Hget in Hr. injection Hr as <-. exact Hst.
  - apply (download_stream_breaks url s r e Hget Hst Hstream Hprogress).
Qed.

Lemma download_empty_body url s r :
  requests_get w url headers = Ok r ->
  (resp_status r < 400 \/ 600 <= resp_status r)%Z ->
  List.concat (resp_chunks r) = [] ->
  resp_stream_error r = None ->
  exists s' t,
    download w url s = (Raise (ValueError "Downloaded file is empty"), s', t)
    /\ quiet t /\ magic_calls t = [].
Proof.
  intros Hget Hst Hempty Hstream.
  unfold download, bind, logger_info, do_requests_get, bind, emit, lift.
  cbv beta iota. rewrite Hget. unfold ret at 1. cbv beta iota.
  unfold raise_for_status. rewrite (http_error_msg_none r Hst).
  unfold ret at 1. cbv beta iota.
  rewrite (for_each_log (resp_headers r) (fun kv => fst kv ++ ": " ++ snd kv)).
  cbv beta iota. unfold datetime_now, open_wb. cbv beta iota.
  rewrite (download_chunks_empty _ _ _ _ _ Hempty). cbv beta iota.
  unfold end_of_stream. rewrite Hstream. unfold ret at 1. cbv beta iota.
  unfold getsize. cbn [st_files files_put files_get].
  rewrite String.eqb_refl. cbn [List.length N.of_nat N.eqb].
  unfold raise. cbv beta iota.
  eexists; eexists; split; [reflexivity|].
  assert (Hlog : forall (l : list (str * str)) (f : str * str -> str),
             quiet (map (fun kv => Log INFO (f kv)) l)
             /\ magic_calls (map (fun kv => Log INFO (f kv)) l) = []).
  { intros l f. induction l as [|x l [(H1 & H2 & H3) H4]];
      [repeat split; reflexivity|].
    repeat split; cbn; assumption. }
  destruct (Hlog (resp_headers r) (fun kv => fst kv ++ ": " ++ snd kv))
    as [(H1 & H2 & H3) H4].
  cbn [app]. unfold quiet.
  cbn [subprocess_calls transcribe_calls error_log magic_calls].
  rewrite !subprocess_calls_app, !transcribe_calls_app, !error_log_app.
  rewrite H1, H2, H3.
  repeat split; try reflexivity.
  clear - H4. revert H4.
  generalize (map (fun kv : str * str => Log INFO (fst kv ++ ": " ++ snd kv))
                  (resp_headers r)).
  intros l Hl. induction l as [|ev l IH]; [reflexivity|].
  destruct ev; cbn [app magic_calls] in *; try discriminate; auto.
Qed.

(** C4: when the answer is not an error and its body is empty, the
    downloaded file has size zero and the run fails with the error of an
    empty download; the content is not sniffed, no program is launched and
    the engine is not called. *)
Theorem empty_body_is_EmptyDownload url fs r :
  requests_get w url headers = Ok r ->
  (resp_status r < 400 \/ 600 <= resp_status r)%Z ->
  List.concat (resp_chunks r) = [] ->
  resp_stream_error r = None ->
  outcome (run w url fs) = Raise EmptyDownload
  /\ subprocess_calls (trace (run w url fs)) = []
  /\ transcribe_calls (trace (run w url fs)) = []
  /\ magic_calls (trace (run w url fs)) = [].
Proof.
  intros Hget Hst Hempty Hstream.
  destruct (download_empty_body url (start fs) r Hget Hst Hempty Hstream)
    as (s' & t & Hd & (Hq1 & Hq2 & Hq3) & Hm).
  assert (Hfetch : fetch w url (start fs)
                   = (Raise (ValueError "Downloaded file is empty"), s', t)).
  { unfold fetch. apply bind_raise. exact Hd. }
  rewrite (run_fetch_raises w _ _ _ _ _ Hfetch).
  unfold except_clauses. cbn [is_request_exception is_value_error ValueError].
  unfold after, bind, logger_error, emit, raise.
  cbn [outcome final trace fst snd].
  rewrite subprocess_calls_app, transcribe_calls_app, Hq1, Hq2.
  repeat split; try reflexivity.
  clear - Hm. induction t as [|ev t IH]; [reflexivity|].
  destruct ev; cbn [app magic_calls] in *; try discriminate; auto.
Qed.

End Download.

(** C5 as stated fails: a status that is neither 2xx nor an error for
    [raise_for_status] (here 300) does not stop the run, which decodes and
    transcribes the body; with an empty body (here 304) the run fails with
    the error of an empty download, not with the download error. *)
Lemma non_2xx_status_is_processed :
  outcome (run (Examples.world_status 300 "Multiple Choices"
                  [Examples.ogg_bytes]) Examples.url Examples.no_files)
  = Ok ""
  /\ decoder_calls
       (trace (run (Examples.world_status 300 "Multiple Choices"
                      [Examples.ogg_bytes]) Examples.url Examples.no_files))
     = [["ffmpeg"; "-y"; "-f"; "ogg"; "-i"; Examples.ex_oga;
         "-acodec"; "pcm_s16le"; "-ar"; "16000"; "-ac"; "1"; Examples.ex_wav]]
  /\ transcribe_calls
       (trace (run (Examples.world_status 300 "Multiple Choices"
                      [Examples.ogg_bytes]) Examples.url Examples.no_files))
     = [Examples.ex_wav]
  /\ outcome (run (Examples.world_status 304 "Not Modified" [])
                  Examples.url Examples.no_files)
     = Raise EmptyDownload.
Proof. repeat split; vm_compute; reflexivity. Qed.

Lemma empty_body_witness :
  requests_get (Examples.world_status 200 "OK" [[]; []]) Examples.url headers
  = Ok (Examples.response_of 200 "OK" [[]; []])
  /\ outcome (run (Examples.world_status 200 "OK" [[]; []]) Examples.url
                  Examples.no_files)
     = Raise EmptyDownload.
Proof.
  split; [reflexivity|].
  refine (proj1 (empty_body_is_EmptyDownload
                   (Examples.world_status 200 "OK" [[]; []]) Examples.url
                   Examples.no_files
                   (Examples.response_of 200 "OK" [[]; []])
                   eq_refl _ eq_refl eq_refl)).
  left. cbn. lia.
Defined.

Section Outcome.

Variable w : World.

Lemma except_clauses_outcome (e : exn) s :
  outcome (except_clauses e s) = Raise (http_error_of e)
  /\ final (except_clauses e s) = s.
Proof.
  unfold except_clauses, http_error_of.
  destruct (is_request_exception e); [|destruct (is_value_error e)];
    split; reflexivity.
Qed.

(** The result of a run, phase by phase. *)
Lemma run_outcome_eq url fs :
  outcome (run w url fs)
  = match fetch w url (start fs) with
    | (Raise e, _, _) => Raise (http_error_of e)
    | (Ok (d, oga), s1, _) =>
        match transcode w d oga s1 with
        | (Raise e, _, _) => Raise (http_error_of e)
        | (Ok wav, _, _) =>
            match model_transcribe w wav with
            | Ok text => Ok (strip text)
            | Raise e => Raise (http_error_of e)
            end
        end
    end.
Proof.
  destruct (fetch w url (start fs)) as [[[[d oga]|e] s1] t1] eqn:Hfetch.
  - rewrite (run_after_fetch w _ _ _ _ _ _ Hfetch), outcome_after.
    destruct (transcode w d oga s1) as [[[wav|e] s2] t2] eqn:Ht.
    + rewrite (tail_transcode_ok w _ _ _ _ _ _ Ht), outcome_after.
      destruct (transcribe_spec w oga wav s2) as (s3 & t3 & Htr & _).
      destruct (model_transcribe w wav) as [text|e].
      * rewrite (try_except_ok _ _ _ _ _ _ Htr). reflexivity.
      * rewrite (try_except_raise _ _ _ _ _ _ Htr), outcome_after.
        apply except_clauses_outcome.
    + rewrite (tail_transcode_raises w _ _ _ _ _ _ Ht), outcome_after.
      apply except_clauses_outcome.
  - rewrite (run_fetch_raises w _ _ _ _ _ Hfetch), outcome_after.
    apply except_clauses_outcome.
Qed.

End Outcome.

Section Extensionality.

(** Two worlds that agree on an oracle agree on the code that asks only
    that oracle. *)
Variables w w' : World.

Lemma bind_ext {E A B} (m m' : M E A) (f g : A -> M E B) s :
  m s = m' s -> (forall a s', f a s' = g a s') -> bind m f s = bind m' g s.
Proof.
  intros Hm Hf. unfold bind. rewrite Hm.
  destruct (m' s) as [[[a|e] s1] t1]; [|reflexivity].
  rewrite Hf. reflexivity.
Qed.

Lemma report_progress_ext cl n s :
  py_int w = py_int w' ->
  format_progress w = format_progress w' ->
  report_progress w cl n s = report_progress w' cl n s.
Proof. intros Hint Hfmt. unfold report_progress. rewrite Hint, Hfmt. reflexivity. Qed.

Lemma download_chunks_ext path cl chunks n s :
  py_int w = py_int w' ->
  format_progress w = format_progress w' ->
  download_chunks w path cl chunks n s = download_chunks w' path cl chunks n s.
Proof.
  intros Hint Hfmt. revert n s.
  induction chunks as [|chunk rest IH]; intros n s; [reflexivity|].
  cbn [download_chunks]. destruct chunk as [|b chunk]; [apply IH|].
  apply bind_ext; [reflexivity | intros].
  apply bind_ext; [apply report_progress_ext; assumption | intros].
  apply IH.
Qed.

Lemma download_ext url s :
  home w = home w' -> clock w = clock w' ->
  requests_get w = requests_get w' ->
  py_int w = py_int w' -> format_progress w = format_progress w' ->
  download w url s = download w' url s.
Proof.
  intros Hhome Hclock Hget Hint Hfmt.
  unfold download, do_requests_get, datetime_now, temp_dir_of.
  rewrite Hhome, Hclock, Hget.
  repeat first
    [ apply download_chunks_ext; assumption
    | reflexivity
    | apply bind_ext; [ | intros ] ].
Qed.

Lemma conversion_loop_ext cmds s :
  (forall c, In c cmds -> subprocess_run w c = subprocess_run w' c) ->
  conversion_loop w cmds s = conversion_loop w' cmds s.
Proof.
  revert s. induction cmds as [|cmd rest IH]; intros s Hsame; [reflexivity|].
  cbn [conversion_loop]. apply bind_ext.
  - rewrite !conversion_attempt_eq, (Hsame cmd (or_introl eq_refl)).
    reflexivity.
  - intros [|] s'; [reflexivity|]. apply IH.
    intros c Hc. apply Hsame. right. exact Hc.
Qed.

Lemma transcode_ext d oga s :
  clock w = clock w' ->
  (forall c, is_ffmpeg c = true -> subprocess_run w c = subprocess_run w' c) ->
  transcode w d oga s = transcode w' d oga s.
Proof.
  intros Hclock Hsame. unfold transcode, datetime_now. rewrite Hclock.
  repeat first
    [ apply conversion_loop_ext;
      intros c [<-|[<-|[<-|[]]]]; apply Hsame; reflexivity
    | reflexivity
    | apply bind_ext; [ | intros ] ].
Qed.

End Extensionality.

Section Transport.

Variable w : World.

(** A run depends on the answer of the server only through what
    [raise_for_status] makes of its status line, its headers and its
    body. *)
Lemma run_with_status url fs r status reason :
  requests_get w url headers = Ok r ->
  (resp_status r < 400 \/ 600 <= resp_status r)%Z ->
  (status < 400 \/ 600 <= status)%Z ->
  run (with_response w (Ok (with_status r status reason))) url fs
  = run w url fs.
Proof.
  intros Hget Hst Hst'.
  assert (Hd : forall s,
             download (with_response w (Ok (with_status r status reason)))
               url s
             = download w url s).
  { intros s. unfold download.
    apply bind_ext; [reflexivity|]. intros [] s0.
    assert (Hl : do_requests_get
                   (with_response w (Ok (with_status r status reason)))
                   url headers s0
                 = (Ok (with_status r status reason), s0,
                    [HttpGet url headers])) by reflexivity.
    assert (Hr : do_requests_get w url headers s0
                 = (Ok r, s0, [HttpGet url headers])).
    { unfold do_requests_get, bind, emit, lift. rewrite Hget. reflexivity. }
    rewrite (bind_ok _ _ _ _ _ _ Hl), (bind_ok _ _ _ _ _ _ Hr). f_equal.
    unfold raise_for_status.
    rewrite (http_error_msg_none r Hst).
    rewrite (http_error_msg_none (with_status r status reason) Hst').
    unfold datetime_now, temp_dir_of.
    cbn [with_status with_response resp_headers resp_chunks
         resp_stream_error home clock].
    repeat first
      [ apply download_chunks_ext; reflexivity
      | reflexivity
      | apply bind_ext; [ | intros ] ]. }
  unfold run, download_and_transcribe, try_block.
  assert (Hf : fetch (with_response w (Ok (with_status r status reason)))
                 url (start fs)
               = fetch w url (start fs)).
  { unfold fetch, bind. rewrite Hd. reflexivity. }
  unfold try_except, bind. rewrite Hf.
  destruct (fetch w url (start fs)) as [[[[d oga]|e] s1] t1]; [|reflexivity].
  cbn [fst snd].
  rewrite (transcode_ext (with_response w (Ok (with_status r status reason)))
             w d oga s1 eq_refl (fun c _ => eq_refl)).
  reflexivity.
Qed.

(** C5, as the code has it: when the request raises an exception of
    [requests], or the answer has a status from 400 to 599, or the
    connection breaks with an exception of [requests] while the body of an
    accepted answer is read, the run fails with the download error; no
    program is launched, the engine is not called and the only record at
    level [ERROR] is that of the download error.  When no answer was
    accepted, nothing but the request and two log records happens and no
    file is written.  And an answer with a status outside 400..599 is
    accepted whatever the status is: the run is the same as for any other
    such status (200, say) with the same headers and body. *)
Theorem transport_failure_is_NetworkError url fs :
  (forall e,
      transport_failure w url e ->
      outcome (run w url fs) = Raise (NetworkError e)
      /\ subprocess_calls (trace (run w url fs)) = []
      /\ transcribe_calls (trace (run w url fs)) = []
      /\ error_log (trace (run w url fs))
         = ["Error downloading file: " ++ exn_str e]
      /\ ((forall r, requests_get w url headers = Ok r ->
                     (400 <= resp_status r < 600)%Z) ->
          trace (run w url fs)
          = [Log INFO ("Downloading audio from URL: " ++ url);
             HttpGet url headers;
             Log ERROR ("Error downloading file: " ++ exn_str e)]
          /\ st_files (final (run w url fs)) = fs))
  /\ (forall r status reason,
         requests_get w url headers = Ok r ->
         (resp_status r < 400 \/ 600 <= resp_status r)%Z ->
         (status < 400 \/ 600 <= status)%Z ->
         run (with_response w (Ok (with_status r status reason))) url fs
         = run w url fs).
Proof.
  split; [|apply run_with_status].
  intros e Hfail.
  pose proof (download_transport_failure w url (start fs) e Hfail) as Hout.
  pose proof (download_quiet w url (start fs)) as (Hq1 & Hq2 & Hq3).
  destruct (download w url (start fs)) as [[r0 s'] t] eqn:Hd.
  cbn [outcome fst] in Hout. subst r0. cbn [trace snd] in Hq1, Hq2, Hq3.
  assert (Hfetch : fetch w url (start fs) = (Raise e, s', t)).
  { unfold fetch. apply bind_raise. exact Hd. }
  rewrite (run_fetch_raises w _ _ _ _ _ Hfetch).
  unfold except_clauses. rewrite (transport_failure_class w url e Hfail).
  unfold after, bind, logger_error, emit, raise.
  cbn [outcome final trace fst snd].
  rewrite subprocess_calls_app, transcribe_calls_app, error_log_app.
  rewrite Hq1, Hq2, Hq3.
  split; [reflexivity|]. split; [reflexivity|]. split; [reflexivity|].
  split; [reflexivity|].
  intros Hearly.
  rewrite (download_early_failure w url (start fs) e Hfail Hearly) in Hd.
  injection Hd as <- <-. split; reflexivity.
Qed.

End Transport.

Lemma transport_failure_witness :
  transport_failure (Examples.world_status 404 "Not Found" [Examples.ogg_bytes])
    Examples.url
    (HTTPError ("404 Client Error: Not Found for url: " ++ Examples.url))
  /\ outcome (run (Examples.world_status 404 "Not Found" [Examples.ogg_bytes])
                  Examples.url Examples.no_files)
     = Raise (mkHTTPException 500
                ("Download error: 404 Client Error: Not Found for url: "
                 ++ Examples.url))
  /\ transport_failure Examples.world_broken_with_length Examples.url
       Examples.broken
  /\ outcome (run Examples.world_broken_with_length Examples.url
                Examples.no_files)
     = Raise (NetworkError Examples.broken)
  /\ run (with_response Examples.world_silent
            (Ok (with_status (Examples.response_of 200 "OK"
                                [Examples.ogg_bytes])
                   300 "Multiple Choices")))
       Examples.url Examples.no_files
     = run Examples.world_silent Examples.url Examples.no_files.
Proof.
  assert (H : transport_failure
                (Examples.world_status 404 "Not Found" [Examples.ogg_bytes])
                Examples.url
                (HTTPError
                   (status_message
                      (Examples.response_of 404 "Not Found"
                         [Examples.ogg_bytes])))).
  { apply error_status; [reflexivity | cbn; lia]. }
  assert (H' : transport_failure Examples.world_broken_with_length
                 Examples.url Examples.broken).
  { apply (stream_breaks _ _ Examples.half_body);
      [reflexivity | left; cbn; lia | reflexivity | reflexivity |].
    right. cbn. right. exists 6%Z. split; [reflexivity | discriminate]. }
  split; [exact H|].
  split;
    [exact (proj1 (proj1 (transport_failure_is_NetworkError _ _
                            Examples.no_files) _ H))|].
  split; [exact H'|].
  split;
    [exact (proj1 (proj1 (transport_failure_is_NetworkError _ _
                            Examples.no_files) _ H'))|].
  apply (proj2 (transport_failure_is_NetworkError Examples.world_silent
                  Examples.url Examples.no_files)
           (Examples.response_of 200 "OK" [Examples.ogg_bytes])
           300%Z "Multiple Choices" eq_refl); left; cbn; lia.
Defined.

Section Strip.

Lemma lstrip_spec (s : str) :
  exists l, s = l ++ lstrip s /\ all_space l = true.
Proof.
  induction s as [|c s (l & Hs & Hl)].
  - exists "". split; reflexivity.
  - cbn [lstrip]. destruct (isspace c) eqn:Hc.
    + exists (String c l). cbn [append all_space]. rewrite <- Hs, Hc, Hl.
      split; reflexivity.
    + exists "". split; reflexivity.
Qed.

Lemma lstrip_first (s : str) (c : ascii) :
  first_char (lstrip s) = Some c -> isspace c = false.
Proof.
  induction s as [|c' s IH]; cbn [lstrip]; [discriminate|].
  destruct (isspace c') eqn:Hc; [exact IH|].
  cbn [first_char]. intros [= <-]. exact Hc.
Qed.

Lemma rstrip_spec (s : str) :
  exists r, s = rstrip s ++ r /\ all_space r = true.
Proof.
  induction s as [|c s (r & Hs & Hr)].
  - exists "". split; reflexivity.
  - cbn [rstrip]. destruct (rstrip s) as [|c' s'] eqn:Hrs.
    + cbn [append] in Hs. subst r. destruct (isspace c) eqn:Hc.
      * exists (String c s). cbn [append all_space]. rewrite Hc, Hr.
        split; reflexivity.
      * exists s. split; [reflexivity | exact Hr].
    + exists r. cbn [append] in *. rewrite <- Hs. split; [reflexivity | exact Hr].
Qed.

Lemma rstrip_last (s : str) (c : ascii) :
  last_char (rstrip s) = Some c -> isspace c = false.
Proof.
  induction s as [|c' s IH]; cbn [rstrip]; [discriminate|].
  destruct (rstrip s) as [|c'' s'] eqn:Hrs.
  - destruct (isspace c') eqn:Hc; [discriminate|].
    cbn [last_char]. intros [= <-]. exact Hc.
  - cbn [last_char]. exact IH.
Qed.

Lemma rstrip_first (s : str) (c : ascii) :
  first_char (rstrip s) = Some c -> first_char s = Some c.
Proof.
  destruct s as [|c' s]; cbn [rstrip]; [discriminate|].
  destruct (rstrip s); [destruct (isspace c'); [discriminate|]|]; exact id.
Qed.

Lemma rstrip_all_space (s : str) : all_space s = true -> rstrip s = "".
Proof.
  induction s as [|c s IH]; [reflexivity|].
  cbn [all_space rstrip]. intros H. apply andb_true_iff in H as [Hc Hs].
  rewrite (IH Hs), Hc. reflexivity.
Qed.

Lemma lstrip_all_space (s : str) : all_space s = true -> lstrip s = "".
Proof.
  induction s as [|c s IH]; [reflexivity|].
  cbn [all_space lstrip]. intros H. apply andb_true_iff in H as [Hc Hs].
  rewrite Hc. exact (IH Hs).
Qed.

(** [strip] removes white space at both ends and nothing else. *)
Lemma strip_spec (s : str) :
  (exists l r,
      s = l ++ strip s ++ r /\ all_space l = true /\ all_space r = true)
  /\ (forall c, first_char (strip s) = Some c -> isspace c = false)
  /\ (forall c, last_char (strip s) = Some c -> isspace c = false)
  /\ (all_space s = true -> strip s = "").
Proof.
  unfold strip. repeat split.
  - destruct (lstrip_spec s) as (l & Hs & Hl).
    destruct (rstrip_spec (lstrip s)) as (r & Hs' & Hr).
    exists l, r. rewrite <- Hs', <- Hs. repeat split; assumption.
  - intros c Hc. apply (lstrip_first s). apply rstrip_first. exact Hc.
  - intros c. apply rstrip_last.
  - intros Hall. rewrite (lstrip_all_space s Hall). reflexivity.
Qed.

End Strip.

Section TranscodeInversion.

Variable w : World.

(** A transcode that returns has seen a strategy report success and has
    found a non-empty output file under the name it chose. *)
Lemma transcode_ok_inv d oga s1 wav s2 t2 :
  transcode w d oga s1 = (Ok wav, s2, t2) ->
  wav = wav_path_at w d s1
  /\ existsb (reports_success w) (strategies w d oga s1) = true
  /\ (exists data, files_get wav (st_files s2) = Some data /\ data <> [])
  /\ st_ticks s2 = S (st_ticks s1)
  /\ subprocess_calls t2 = attempted w (strategies w d oga s1)
  /\ transcribe_calls t2 = [].
Proof.
  intros Ht.
  destruct (conversion_loop_spec w (strategies w d oga s1) (tick s1))
    as (sl & tl & Hloop & Hsub & Htr & _ & Hticks).
  destruct (existsb (reports_success w) (strategies w d oga s1)).
  - pose proof (transcode_checked w d oga s1 sl tl Hloop) as Hc.
    rewrite Ht in Hc.
    destruct (files_get (wav_path_at w d s1) (st_files sl)) as [data|] eqn:Hf;
      trace_norm in Hc; [|discriminate].
    destruct (N.of_nat (Datatypes.length data) =? 0)%N eqn:Hsize;
      [discriminate|].
    injection Hc as -> -> ->.
    split; [reflexivity|]. split; [reflexivity|]. split.
    { exists data. split; [exact Hf|]. intros ->. discriminate. }
    split; [exact Hticks|].
    cbn [subprocess_calls transcribe_calls].
    rewrite subprocess_calls_app, transcribe_calls_app, Hsub, Htr.
    split; [apply app_nil_r | reflexivity].
  - pose proof (transcode_failed w d oga s1 sl tl Hloop) as Hc.
    rewrite Ht in Hc. discriminate.
Qed.

End TranscodeInversion.

Section Transcript.

Variable w : World.

(** C7: a run that gets as far as the engine returns the text of the
    engine without the white space at its ends, and a successful run
    returns nothing else; a text of white space only (no speech) gives the
    empty transcript as a result, not an error. *)
Theorem transcript_is_stripped_text url fs d oga s1 t1 wav s2 t2 :
  fetch w url (start fs) = (Ok (d, oga), s1, t1) ->
  transcode w d oga s1 = (Ok wav, s2, t2) ->
  (forall text,
      model_transcribe w wav = Ok text ->
      outcome (run w url fs) = Ok (strip text)
      /\ (exists l r, text = l ++ strip text ++ r
                      /\ all_space l = true /\ all_space r = true)
      /\ (forall c, first_char (strip text) = Some c -> isspace c = false)
      /\ (forall c, last_char (strip text) = Some c -> isspace c = false)
      /\ (all_space text = true -> outcome (run w url fs) = Ok ""))
  /\ (forall t,
         outcome (run w url fs) = Ok t ->
         exists text, model_transcribe w wav = Ok text /\ t = strip text)
  /\ transcribe_calls (trace (run w url fs)) = [wav].
Proof.
  intros Hfetch Ht.
  pose proof (run_outcome_eq w url fs) as Hout. rewrite Hfetch, Ht in Hout.
  split; [|split].
  - intros text Htext. rewrite Htext in Hout.
    destruct (strip_spec text) as (Hdec & Hfirst & Hlast & Hblank).
    repeat split; try assumption.
    intros Hall. rewrite Hout, (Hblank Hall). reflexivity.
  - intros t Hok. rewrite Hok in Hout.
    destruct (model_transcribe w wav) as [text|e]; [|discriminate].
    exists text. split; [reflexivity | congruence].
  - rewrite (run_after_fetch w _ _ _ _ _ _ Hfetch).
    rewrite (tail_transcode_ok w _ _ _ _ _ _ Ht).
    destruct (transcribe_spec w oga wav s2) as (s3 & t3 & Htr & _ & Hcalls & _).
    destruct (fetched_trace_quiet _ _ _ _ _ _ Hfetch) as (_ & Hq & _).
    destruct (transcode_ok_inv w _ _ _ _ _ _ Ht) as (_ & _ & _ & _ & _ & Ht2).
    rewrite !trace_after, !transcribe_calls_app, Hq, Ht2. cbn [app].
    destruct (model_transcribe w wav) as [text|e].
    + rewrite (try_except_ok _ _ _ _ _ _ Htr). exact Hcalls.
    + rewrite (try_except_raise _ _ _ _ _ _ Htr), trace_after.
      destruct (except_clauses_spec e s3) as (h & msg & ->).
      rewrite transcribe_calls_app, Hcalls. reflexivity.
Qed.

End Transcript.

Lemma transcript_witness :
  fetch Examples.world_silent Examples.url (start Examples.no_files)
  = (Ok (Examples.ex_dir, Examples.ex_oga),
     final (Examples.fetched Examples.world_silent),
     trace (Examples.fetched Examples.world_silent))
  /\ transcode Examples.world_silent Examples.ex_dir Examples.ex_oga
       (final (Examples.fetched Examples.world_silent))
     = (Ok Examples.ex_wav,
        final (Examples.transcoded Examples.world_silent),
        trace (Examples.transcoded Examples.world_silent))
  /\ model_transcribe Examples.world_silent Examples.ex_wav = Ok " "
  /\ outcome (run Examples.world_silent Examples.url Examples.no_files)
     = Ok "".
Proof.
  assert (Hfetch : fetch Examples.world_silent Examples.url
                     (start Examples.no_files)
                   = (Ok (Examples.ex_dir, Examples.ex_oga),
                      final (Examples.fetched Examples.world_silent),
                      trace (Examples.fetched Examples.world_silent)))
    by (vm_compute; reflexivity).
  assert (Ht : transcode Examples.world_silent Examples.ex_dir Examples.ex_oga
                 (final (Examples.fetched Examples.world_silent))
               = (Ok Examples.ex_wav,
                  final (Examples.transcoded Examples.world_silent),
                  trace (Examples.transcoded Examples.world_silent)))
    by (vm_compute; reflexivity).
  destruct (transcript_is_stripped_text _ _ _ _ _ _ _ _ _ _ Hfetch Ht)
    as (Htext & _ & _).
  destruct (Htext " " eq_refl) as (_ & _ & _ & _ & Hblank).
  split; [exact Hfetch|]. split; [exact Ht|]. split; [reflexivity|].
  apply Hblank. reflexivity.
Defined.

Section Probe.

Variable w : World.

Lemma is_ffmpeg_not_ffprobe (cmd : list str) :
  is_ffmpeg cmd = true -> is_ffprobe cmd = false.
Proof.
  destruct cmd as [|prog rest]; [discriminate|]. cbn [is_ffmpeg is_ffprobe].
  intros H. apply String.eqb_eq in H. subst prog. reflexivity.
Qed.

Lemma sniff_ext (w1 w2 : World) path s :
  magic_from_file w1 = magic_from_file w2 -> sniff w1 path s = sniff w2 path s.
Proof.
  intros Hm. unfold sniff, do_magic_from_file. rewrite Hm. reflexivity.
Qed.

Lemma fetch_with_probe o url s : fetch (with_probe w o) url s = fetch w url s.
Proof.
  unfold fetch. apply bind_ext.
  - apply download_ext; reflexivity.
  - intros paths s'. apply bind_ext; [|reflexivity].
    apply sniff_ext. reflexivity.
Qed.

Lemma subprocess_run_with_probe o (cmd : list str) :
  is_ffmpeg cmd = true ->
  subprocess_run (with_probe w o) cmd = subprocess_run w cmd.
Proof.
  intros Hc. cbn [subprocess_run with_probe].
  rewrite (is_ffmpeg_not_ffprobe cmd Hc). reflexivity.
Qed.

Lemma transcode_with_probe o d oga s :
  transcode (with_probe w o) d oga s = transcode w d oga s.
Proof.
  apply transcode_ext; [reflexivity|].
  intros c Hc. apply subprocess_run_with_probe. exact Hc.
Qed.

Lemma attempted_ext (w1 w2 : World) cmds :
  (forall c, In c cmds -> subprocess_run w1 c = subprocess_run w2 c) ->
  attempted w1 cmds = attempted w2 cmds.
Proof.
  induction cmds as [|cmd rest IH]; intros Hsame; [reflexivity|].
  cbn [attempted]. unfold reports_success.
  rewrite (Hsame cmd (or_introl eq_refl)), IH; [reflexivity|].
  intros c Hc. apply Hsame. right. exact Hc.
Qed.

Lemma run_calls_fetch_raises (w0 : World) url fs e s1 t1 :
  fetch w0 url (start fs) = (Raise e, s1, t1) ->
  subprocess_calls (trace (run w0 url fs)) = []
  /\ transcribe_calls (trace (run w0 url fs)) = [].
Proof.
  intros Hfetch. rewrite (run_fetch_raises w0 _ _ _ _ _ Hfetch), trace_after.
  destruct (fetched_trace_quiet _ _ _ _ _ _ Hfetch) as (H1 & H2 & _).
  destruct (except_clauses_spec e s1) as (h & msg & ->).
  rewrite subprocess_calls_app, transcribe_calls_app, H1, H2.
  split; reflexivity.
Qed.

(** The calls of the engine in a run, phase by phase. *)
Lemma run_transcribe_calls (w0 : World) url fs :
  transcribe_calls (trace (run w0 url fs))
  = match fetch w0 url (start fs) with
    | (Ok (d, oga), s1, _) =>
        match transcode w0 d oga s1 with
        | (Ok wav, _, _) => [wav]
        | (Raise _, _, _) => []
        end
    | (Raise _, _, _) => []
    end.
Proof.
  destruct (fetch w0 url (start fs)) as [[[[d oga]|e] s1] t1] eqn:Hfetch.
  - destruct (fetched_trace_quiet _ _ _ _ _ _ Hfetch) as (_ & Hq & _).
    destruct (transcode w0 d oga s1) as [[[wav|e] s2] t2] eqn:Ht.
    + rewrite (run_after_fetch w0 _ _ _ _ _ _ Hfetch).
      rewrite (tail_transcode_ok w0 _ _ _ _ _ _ Ht).
      destruct (transcribe_spec w0 oga wav s2)
        as (s3 & t3 & Htr & _ & Hcalls & _).
      destruct (transcode_ok_inv w0 _ _ _ _ _ _ Ht)
        as (_ & _ & _ & _ & _ & Ht2).
      rewrite !trace_after, !transcribe_calls_app, Hq, Ht2. cbn [app].
      destruct (model_transcribe w0 wav) as [text|e].
      * rewrite (try_except_ok _ _ _ _ _ _ Htr). exact Hcalls.
      * rewrite (try_except_raise _ _ _ _ _ _ Htr), trace_after.
        destruct (except_clauses_spec e s3) as (h & msg & ->).
        rewrite transcribe_calls_app, Hcalls. reflexivity.
    + rewrite (run_transcode_raises w0 _ _ _ _ _ _ _ _ _ Hfetch Ht), trace_after.
      destruct (except_clauses_spec e s2) as (h & msg & ->).
      rewrite !transcribe_calls_app, Hq. cbn [transcribe_calls app].
      rewrite app_nil_r.
      destruct (conversion_loop_spec w0 (strategies w0 d oga s1) (tick s1))
        as (sl & tl & Hloop & _ & Htl & _).
      destruct (existsb (reports_success w0) (strategies w0 d oga s1)).
      * pose proof (transcode_checked w0 d oga s1 sl tl Hloop) as Hc.
        rewrite Ht in Hc.
        destruct (files_get (wav_path_at w0 d s1) (st_files sl)) as [data|];
          trace_norm in Hc.
        -- injection Hc as _ _ ->. cbn [transcribe_calls].
           rewrite transcribe_calls_app, Htl. reflexivity.
        -- injection Hc as _ _ ->. cbn [transcribe_calls].
           rewrite app_nil_r. exact Htl.
      * pose proof (transcode_failed w0 d oga s1 sl tl Hloop) as Hc.
        rewrite Ht in Hc. injection Hc as _ _ ->. exact Htl.
  - apply (run_calls_fetch_raises w0 _ _ _ _ _ Hfetch).
Qed.

(** The decode steps of a run, phase by phase. *)
Lemma run_decoder_calls_eq (w0 : World) url fs :
  decoder_calls (trace (run w0 url fs))
  = match fetch w0 url (start fs) with
    | (Ok (d, oga), s1, _) => attempted w0 (strategies w0 d oga s1)
    | (Raise _, _, _) => []
    end.
Proof.
  destruct (fetch w0 url (start fs)) as [[[[d oga]|e] s1] t1] eqn:Hfetch.
  - apply (run_decoder_calls w0 _ _ _ _ _ _ Hfetch).
  - unfold decoder_calls.
    rewrite (proj1 (run_calls_fetch_raises w0 _ _ _ _ _ Hfetch)). reflexivity.
Qed.

(** C6, as the code has it: [inspect_file] never raises.  When the call
    of [subprocess.run] raises (the tool is absent, ...), the exception is
    logged and there is no report.  When the child runs, its captured
    output is the report whatever its exit status is: a tool that ends
    with an error is not noticed, nothing is logged as an error and the
    report is not absent.  And the result of a run, its decode steps and
    its calls of the engine are the same whatever the call for [ffprobe]
    does. *)
Theorem probe_never_fails_the_run :
  (forall path s,
      exists report s' t,
        inspect_file w path s = (Ok report, s', t)
        /\ subprocess_calls t = [ffprobe_command path]
        /\ (forall e ws,
               subprocess_run w (ffprobe_command path) = RunRaises e ws ->
               report = None
               /\ s' = mkState (files_put_all ws (st_files s)) (st_ticks s)
               /\ error_log t = ["Error inspecting file: " ++ exn_str e])
        /\ (forall p ws,
               subprocess_run w (ffprobe_command path) = Completed p ws ->
               report = Some (stdout p)
               /\ s' = mkState (files_put_all ws (st_files s)) (st_ticks s)
               /\ error_log t = []))
  /\ (forall o url fs,
         outcome (run (with_probe w o) url fs) = outcome (run w url fs)
         /\ decoder_calls (trace (run (with_probe w o) url fs))
            = decoder_calls (trace (run w url fs))
         /\ transcribe_calls (trace (run (with_probe w o) url fs))
            = transcribe_calls (trace (run w url fs))).
Proof.
  split.
  - intros path s. rewrite inspect_file_eq. cbv zeta.
    fold (ffprobe_command path).
    destruct (subprocess_run w (ffprobe_command path)) as [p ws|e ws].
    + eexists; eexists; eexists. split; [reflexivity|].
      split; [reflexivity|]. split; [intros e ws' [=]|].
      intros p' ws' [= <- <-]. repeat split; reflexivity.
    + eexists; eexists; eexists. split; [reflexivity|].
      split; [reflexivity|]. split; [|intros p ws' [=]].
      intros e' ws' [= <- <-]. repeat split; reflexivity.
  - intros o url fs.
    rewrite !run_outcome_eq, !run_decoder_calls_eq, !run_transcribe_calls.
    rewrite fetch_with_probe.
    destruct (fetch w url (start fs)) as [[[[d oga]|e] s1] t1];
      [|repeat split; reflexivity].
    rewrite transcode_with_probe. split; [reflexivity|]. split; [|reflexivity].
    apply attempted_ext. intros c [<-|[<-|[<-|[]]]];
      apply subprocess_run_with_probe; reflexivity.
Qed.

End Probe.

Lemma probe_witness :
  outcome (run (with_probe Examples.world_auto_only Examples.cannot_launch)
             Examples.url Examples.no_files)
  = Ok "bom dia"
  /\ outcome (run (with_probe Examples.world_auto_only
                     Examples.probe_erroring)
                Examples.url Examples.no_files)
     = Ok "bom dia".
Proof.
  split.
  - etransitivity;
      [exact (proj1 (proj2 (probe_never_fails_the_run
                              Examples.world_auto_only)
                       Examples.cannot_launch Examples.url
                       Examples.no_files))|].
    vm_compute. reflexivity.
  - etransitivity;
      [exact (proj1 (proj2 (probe_never_fails_the_run
                              Examples.world_auto_only)
                       Examples.probe_erroring Examples.url
                       Examples.no_files))|].
    vm_compute. reflexivity.
Defined.

(** C6 as stated fails: a tool that runs and ends with an error status
    does not give an absent report.  The report is the captured output
    (here the empty text), it is logged like that of a tool that ended
    well, and nothing is logged at level [ERROR]. *)
Lemma erroring_probe_gives_a_report :
  subprocess_run Examples.world_probe_fails (ffprobe_command Examples.ex_wav)
  = Completed
      (mkCompleted 1 "" "Invalid data found when processing input") []
  /\ inspect_file Examples.world_probe_fails Examples.ex_wav
       (start Examples.no_files)
     = (Ok (Some ""), start Examples.no_files,
        [SubprocessRun (ffprobe_command Examples.ex_wav);
         Log INFO ("File inspection result:" ++ nl)])
  /\ error_log
       (trace (inspect_file Examples.world_probe_fails Examples.ex_wav
                 (start Examples.no_files)))
     = [].
Proof. repeat split; vm_compute; reflexivity. Qed.

Section Mime.

Variable w : World.

Lemma sniff_with_magic m path s :
  sniff (with_magic w (Ok m)) path s
  = match files_get path (st_files s) with
    | Some data =>
        (Ok tt, s,
         [MagicFromFile path; Log INFO ("Detected MIME type: " ++ m);
          Log INFO ("File header (hex): " ++ hex (firstn 16 data))])
    | None =>
        (Raise (FileNotFoundError
                  ("[Errno 2] No such file or directory: '" ++ path ++ "'")),
         s, [MagicFromFile path; Log INFO ("Detected MIME type: " ++ m)])
    end.
Proof.
  unfold sniff, do_magic_from_file, bind, emit, lift, logger_info, emit,
    file_read, ret.
  cbn [magic_from_file with_magic].
  destruct (files_get path (st_files s)); reflexivity.
Qed.

Lemma download_with_magic r url s :
  download (with_magic w r) url s = download w url s.
Proof. apply download_ext; reflexivity. Qed.

Lemma transcode_with_magic r d oga s :
  transcode (with_magic w r) d oga s = transcode w d oga s.
Proof. apply transcode_ext; reflexivity. Qed.

(** Up to its trace, [fetch] is the same for all MIME types. *)
Lemma fetch_with_magic m url s :
  outcome (fetch (with_magic w (Ok m)) url s)
  = match download w url s with
    | (Ok paths, s1, _) =>
        match files_get (snd paths) (st_files s1) with
        | Some _ => Ok paths
        | None =>
            Raise (FileNotFoundError
                     ("[Errno 2] No such file or directory: '"
                      ++ snd paths ++ "'"))
        end
    | (Raise e, _, _) => Raise e
    end
  /\ final (fetch (with_magic w (Ok m)) url s) = final (download w url s).
Proof.
  unfold fetch, bind. rewrite download_with_magic.
  destruct (download w url s) as [[[paths|e] s1] t1]; [|split; reflexivity].
  rewrite sniff_with_magic.
  destruct (files_get (snd paths) (st_files s1)); split; reflexivity.
Qed.

(** A download that returns has left a non-empty file under the name it
    returns. *)
Lemma download_ok_inv url s d oga s1 t1 :
  download w url s = (Ok (d, oga), s1, t1) ->
  exists data, files_get oga (st_files s1) = Some data /\ data <> [].
Proof.
  unfold download, bind, logger_info, do_requests_get, bind, emit, lift.
  cbv beta iota.
  destruct (requests_get w url headers) as [r|e]; unfold ret, raise;
    cbv beta iota; [|discriminate].
  unfold raise_for_status.
  destruct (http_error_msg r); unfold ret, raise; cbv beta iota;
    [discriminate|].
  rewrite (for_each_log (resp_headers r) (fun kv => fst kv ++ ": " ++ snd kv)).
  cbv beta iota. unfold datetime_now, open_wb. cbv beta iota.
  destruct (download_chunks w _ _ _ _ _) as [[[n|e] s2] t2]; [|discriminate].
  unfold end_of_stream.
  destruct (resp_stream_error r); unfold ret, raise; cbv beta iota;
    [discriminate|].
  unfold getsize.
  destruct (files_get _ (st_files s2)) as [data|] eqn:Hfile; [|discriminate].
  cbv beta iota.
  destruct (N.of_nat (Datatypes.length data) =? 0)%N eqn:Hsize;
    unfold ret, raise; cbv beta iota; [discriminate|].
  intros [= <- <- <- _]. exists data. split; [exact Hfile|].
  intros ->. discriminate.
Qed.

(** C9: the result of a run, its decode steps and its calls of the engine
    are the same for all MIME types that content sniffing may report; and
    once the download has left a non-empty file, the first strategy is
    launched and the decode steps are those that the exit statuses alone
    determine, whatever the MIME type. *)
Theorem mime_type_is_diagnostic_only url fs :
  (forall m m',
      outcome (run (with_magic w (Ok m)) url fs)
      = outcome (run (with_magic w (Ok m')) url fs)
      /\ decoder_calls (trace (run (with_magic w (Ok m)) url fs))
         = decoder_calls (trace (run (with_magic w (Ok m')) url fs))
      /\ transcribe_calls (trace (run (with_magic w (Ok m)) url fs))
         = transcribe_calls (trace (run (with_magic w (Ok m')) url fs)))
  /\ (forall d oga s1 t1,
         download w url (start fs) = (Ok (d, oga), s1, t1) ->
         forall m,
         decoder_calls (trace (run (with_magic w (Ok m)) url fs))
         = attempted w (strategies w d oga s1)
         /\ exists later,
             decoder_calls (trace (run (with_magic w (Ok m)) url fs))
             = hd [] (strategies w d oga s1) :: later).
Proof.
  assert (Hatt : forall r cmds, attempted (with_magic w r) cmds = attempted w cmds).
  { intros r cmds. apply attempted_ext. reflexivity. }
  split.
  - intros m m'.
    rewrite !run_outcome_eq, !run_decoder_calls_eq, !run_transcribe_calls.
    destruct (fetch_with_magic m url (start fs)) as [Ho Hf].
    destruct (fetch_with_magic m' url (start fs)) as [Ho' Hf'].
    rewrite <- Ho' in Ho. rewrite <- Hf' in Hf. clear Ho' Hf'.
    destruct (fetch (with_magic w (Ok m)) url (start fs)) as [[r1 s1] t1].
    destruct (fetch (with_magic w (Ok m')) url (start fs)) as [[r2 s2] t2].
    cbn [outcome final fst snd] in Ho, Hf. subst r2 s2.
    destruct r1 as [[d oga]|e]; [|repeat split; reflexivity].
    rewrite !transcode_with_magic, !Hatt.
    repeat split; reflexivity.
  - intros d oga s1 t1 Hd m.
    destruct (download_ok_inv _ _ _ _ _ _ Hd) as (data & Hfile & _).
    destruct (fetch_with_magic m url (start fs)) as [Ho Hf].
    rewrite Hd in Ho, Hf. cbn [snd final fst] in Ho, Hf. rewrite Hfile in Ho.
    rewrite run_decoder_calls_eq.
    destruct (fetch (with_magic w (Ok m)) url (start fs)) as [[r1 s1'] t1'].
    cbn [outcome final fst snd] in Ho, Hf. subst r1 s1'.
    rewrite Hatt. split; [reflexivity|].
    cbn [strategies conversion_commands hd attempted].
    destruct (reports_success w _); eexists; reflexivity.
Qed.

End Mime.

Lemma mime_type_witness :
  download Examples.world_auto_only Examples.url (start Examples.no_files)
  = (Ok (Examples.ex_dir, Examples.ex_oga),
     final (Examples.fetched Examples.world_auto_only),
     trace (download Examples.world_auto_only Examples.url
              (start Examples.no_files)))
  /\ decoder_calls
       (trace (run (with_magic Examples.world_auto_only (Ok "text/html"))
                   Examples.url Examples.no_files))
     = conversion_commands Examples.ex_oga Examples.ex_wav.
Proof.
  assert (Hd : download Examples.world_auto_only Examples.url
                 (start Examples.no_files)
               = (Ok (Examples.ex_dir, Examples.ex_oga),
                  final (Examples.fetched Examples.world_auto_only),
                  trace (download Examples.world_auto_only Examples.url
                           (start Examples.no_files))))
    by (vm_compute; reflexivity).
  split; [exact Hd|].
  destruct (mime_type_is_diagnostic_only Examples.world_auto_only
              Examples.url Examples.no_files) as [_ Hgo].
  destruct (Hgo _ _ _ _ Hd "text/html") as [Hcalls _].
  etransitivity; [exact Hcalls|]. vm_compute. reflexivity.
Defined.

Section FileNames.

(** The names of the working files depend on the clock through the
    second-resolution time stamp only. *)
Lemma audio_path_ignores_microsecond temp_dir y mo d h mi sec us us' ext :
  audio_path temp_dir (mkDatetime y mo d h mi sec us) ext
  = audio_path temp_dir (mkDatetime y mo d h mi sec us') ext.
Proof. reflexivity. Qed.

(** C8, at the failing input: two runs whose clock readings differ but
    fall in the same second use the same path for the fetched file and the
    same path for the transcoded file; run one after the other, the second
    overwrites the fetched file of the first. *)
Theorem same_second_runs_collide :
  clock Examples.world_auto_only 0 <> clock Examples.world_half_a_second_later 0
  /\ clock Examples.world_auto_only 1 <> clock Examples.world_half_a_second_later 1
  /\ magic_calls (trace (run Examples.world_auto_only Examples.url
                           Examples.no_files)) = [Examples.ex_oga]
  /\ magic_calls (trace (run Examples.world_half_a_second_later
                           Examples.other_url Examples.no_files))
     = [Examples.ex_oga]
  /\ transcribe_calls (trace (run Examples.world_auto_only Examples.url
                                Examples.no_files)) = [Examples.ex_wav]
  /\ transcribe_calls (trace (run Examples.world_half_a_second_later
                                Examples.other_url Examples.no_files))
     = [Examples.ex_wav]
  /\ files_get Examples.ex_oga
       (st_files (final (run Examples.world_auto_only Examples.url
                           Examples.no_files)))
     = Some Examples.ogg_bytes
  /\ files_get Examples.ex_oga
       (st_files
          (final (run Examples.world_half_a_second_later Examples.other_url
                    (st_files (final (run Examples.world_auto_only
                                        Examples.url Examples.no_files))))))
     = Some Examples.other_bytes.
Proof.
  split; [discriminate|]. split; [discriminate|].
  repeat split; vm_compute; reflexivity.
Qed.

End FileNames.

Section RunInvariant.

Variable w : World.

Lemma sniff_final path s : final (sniff w path s) = s.
Proof.
  unfold sniff, do_magic_from_file, bind, emit, lift, logger_info, emit,
    file_read, ret, raise.
  destruct (magic_from_file w path); [|reflexivity].
  destruct (files_get path (st_files s)); reflexivity.
Qed.

(** A fetch that returns is a download that returned, in the same state. *)
Lemma fetch_ok_inv url s d oga s1 t1 :
  fetch w url s = (Ok (d, oga), s1, t1) ->
  exists t0, download w url s = (Ok (d, oga), s1, t0).
Proof.
  unfold fetch, bind.
  destruct (download w url s) as [[[paths|e] s0] t0]; [|discriminate].
  pose proof (sniff_final (snd paths) s0) as Hfinal.
  destruct (sniff w (snd paths) s0) as [[[[]|e] s'] t']; [|discriminate].
  cbn [final fst snd] in Hfinal. subst s'.
  unfold ret. intros [= -> <- _]. exists t0. reflexivity.
Qed.

(** A transcript is produced only from a non-empty fetched file and a
    non-empty converted file, and it is the stripped text of the engine on
    the converted file. *)
Theorem transcript_only_from_non_empty_files url fs t :
  outcome (run w url fs) = Ok t ->
  exists d oga s1 t1 wav s2 t2 fetched converted text,
    fetch w url (start fs) = (Ok (d, oga), s1, t1)
    /\ files_get oga (st_files s1) = Some fetched /\ fetched <> []
    /\ transcode w d oga s1 = (Ok wav, s2, t2)
    /\ files_get wav (st_files s2) = Some converted /\ converted <> []
    /\ model_transcribe w wav = Ok text
    /\ t = strip text.
Proof.
  rewrite run_outcome_eq.
  destruct (fetch w url (start fs)) as [[[[d oga]|e] s1] t1] eqn:Hfetch;
    [|discriminate].
  destruct (transcode w d oga s1) as [[[wav|e] s2] t2] eqn:Ht; [|discriminate].
  destruct (model_transcribe w wav) as [text|e] eqn:Htext; [|discriminate].
  intros [= <-].
  destruct (fetch_ok_inv _ _ _ _ _ _ Hfetch) as (t0 & Hd).
  destruct (download_ok_inv w _ _ _ _ _ _ Hd) as (fetched & Hf & Hne).
  destruct (transcode_ok_inv w _ _ _ _ _ _ Ht)
    as (_ & _ & (converted & Hc & Hne') & _).
  exists d, oga, s1, t1, wav, s2, t2, fetched, converted, text.
  repeat split; assumption.
Qed.

Lemma download_chunks_no_length path chunks n s :
  exists n' s',
    download_chunks w path None chunks n s = (Ok n', s', [])
    /\ st_ticks s' = st_ticks s.
Proof.
  revert n s. induction chunks as [|chunk rest IH]; intros n s.
  - exists n, s. split; reflexivity.
  - cbn [download_chunks]. destruct chunk as [|b chunk]; [apply IH|].
    unfold bind, file_write, report_progress, ret. cbv beta iota zeta.
    match goal with
    | |- context [download_chunks w path None rest ?n0 ?s0] =>
        destruct (IH n0 s0) as (n' & s' & -> & Hticks)
    end.
    exists n', s'. split; [reflexivity | exact Hticks].
Qed.

(** A transfer that breaks off while the body is read (without a
    Content-Length header) fails the run with the download error, after
    the chunks received were written; no program is launched and the
    engine is not called. *)
Theorem broken_stream_is_NetworkError url fs r e :
  requests_get w url headers = Ok r ->
  (resp_status r < 400 \/ 600 <= resp_status r)%Z ->
  headers_get "Content-Length" (resp_headers r) = None ->
  resp_stream_error r = Some e ->
  is_request_exception e = true ->
  outcome (run w url fs) = Raise (NetworkError e)
  /\ subprocess_calls (trace (run w url fs)) = []
  /\ transcribe_calls (trace (run w url fs)) = [].
Proof.
  intros Hget Hst Hlen Hstream Hclass.
  assert (Hd : exists s1 t1, download w url (start fs) = (Raise e, s1, t1)).
  { unfold download, bind, logger_info, do_requests_get, bind, emit, lift.
    cbv beta iota. rewrite Hget. unfold ret at 1. cbv beta iota.
    unfold raise_for_status. rewrite (http_error_msg_none r Hst).
    unfold ret at 1. cbv beta iota.
    rewrite (for_each_log (resp_headers r) (fun kv => fst kv ++ ": " ++ snd kv)).
    cbv beta iota. unfold datetime_now, open_wb. cbv beta iota. rewrite Hlen.
    match goal with
    | |- context [download_chunks w ?p None ?l ?n0 ?s0] =>
        destruct (download_chunks_no_length p l n0 s0) as (n' & s' & -> & _)
    end.
    cbv beta iota. unfold end_of_stream. rewrite Hstream. unfold raise.
    eexists; eexists; reflexivity. }
  destruct Hd as (s1 & t1 & Hd).
  assert (Hfetch : fetch w url (start fs) = (Raise e, s1, t1)).
  { unfold fetch. apply bind_raise. exact Hd. }
  split.
  - rewrite run_outcome_eq, Hfetch. unfold http_error_of. rewrite Hclass.
    reflexivity.
  - apply (run_calls_fetch_raises w _ _ _ _ _ Hfetch).
Qed.

End RunInvariant.

Lemma transcript_only_from_non_empty_files_witness :
  outcome (run Examples.world_auto_only Examples.url Examples.no_files)
  = Ok "bom dia"
  /\ exists fetched converted,
       files_get Examples.ex_oga
         (st_files (final (Examples.fetched Examples.world_auto_only)))
       = Some fetched
       /\ fetched <> []
       /\ files_get Examples.ex_wav
            (st_files (final (Examples.transcoded Examples.world_auto_only)))
          = Some converted
       /\ converted <> [].
Proof.
  assert (Hrun : outcome (run Examples.world_auto_only Examples.url
                            Examples.no_files) = Ok "bom dia")
    by (vm_compute; reflexivity).
  split; [exact Hrun|].
  destruct (transcript_only_from_non_empty_files _ _ _ _ Hrun)
    as (d & oga & s1 & t1 & wav & s2 & t2 & fetched & converted & text
        & Hfetch & Hf & Hne & Ht & Hc & Hne' & _).
  assert (Hfetch' : fetch Examples.world_auto_only Examples.url
                      (start Examples.no_files)
                    = (Ok (Examples.ex_dir, Examples.ex_oga),
                       final (Examples.fetched Examples.world_auto_only),
                       trace (Examples.fetched Examples.world_auto_only)))
    by (vm_compute; reflexivity).
  rewrite Hfetch' in Hfetch. injection Hfetch as <- <- <- <-.
  assert (Ht' : transcode Examples.world_auto_only Examples.ex_dir
                  Examples.ex_oga
                  (final (Examples.fetched Examples.world_auto_only))
                = (Ok Examples.ex_wav,
                   final (Examples.transcoded Examples.world_auto_only),
                   trace (Examples.transcoded Examples.world_auto_only)))
    by (vm_compute; reflexivity).
  rewrite Ht' in Ht. injection Ht as <- <- <-.
  exists fetched, converted. repeat split; assumption.
Defined.

Lemma broken_stream_witness :
  requests_get Examples.world_broken_stream Examples.url headers
  = Ok (mkResponse 200 "OK" Examples.url [("Content-Type", "audio/ogg")]
          [Examples.ogg_bytes] (Some Examples.broken))
  /\ outcome (run Examples.world_broken_stream Examples.url Examples.no_files)
     = Raise (NetworkError Examples.broken).
Proof.
  split; [reflexivity|].
  refine (proj1 (broken_stream_is_NetworkError Examples.world_broken_stream
                   Examples.url Examples.no_files _ Examples.broken
                   eq_refl _ eq_refl eq_refl eq_refl)).
  left. cbn. lia.
Defined.

Section PathNames.

Lemma str_append_assoc (a b c : str) : (a ++ b) ++ c = a ++ b ++ c.
Proof.
  induction a as [|x a IH]; [reflexivity|].
  cbn [append]. rewrite IH. reflexivity.
Qed.

Lemma str_length_append (a b : str) :
  String.length (a ++ b) = String.length a + String.length b.
Proof.
  induction a as [|x a IH]; [reflexivity|].
  cbn [append String.length]. rewrite IH. reflexivity.
Qed.

Lemma append_inj_length (a a' b b' : str) :
  String.length a = String.length a' ->
  a ++ b = a' ++ b' -> a = a' /\ b = b'.
Proof.
  revert a'. induction a as [|c a IH]; intros [|c' a'] Hlen H;
    try discriminate.
  - split; [reflexivity | exact H].
  - cbn [append] in H. injection H as -> H. injection Hlen as Hlen.
    destruct (IH a' Hlen H) as [-> ->]. split; reflexivity.
Qed.

Lemma append_cancel_l (a b b' : str) : a ++ b = a ++ b' -> b = b'.
Proof.
  intros H. apply (append_inj_length a a b b' eq_refl) in H. apply H.
Qed.

Lemma last_char_append (a b : str) :
  b <> "" -> last_char (a ++ b) = last_char b.
Proof.
  intros Hb. induction a as [|c a IH]; [reflexivity|].
  cbn [append last_char]. rewrite IH.
  destruct (a ++ b) eqn:Hab; [|reflexivity].
  destruct a; [|discriminate]. cbn [append] in Hab. contradiction.
Qed.

(** Below a bound, a property of numbers that computes is checked by
    running it. *)
Lemma below_bound (P : N -> bool) (bound : nat) :
  forallb (fun k => P (N.of_nat k)) (seq 0 bound) = true ->
  forall n, (n < N.of_nat bound)%N -> P n = true.
Proof.
  intros Hall n Hn. rewrite forallb_forall in Hall.
  rewrite <- (N2Nat.id n). apply Hall. apply in_seq. lia.
Qed.

Lemma two_digits (n : N) :
  (n < 100)%N ->
  String.length (zfill 2 (str_of_N n)) = 2
  /\ digits_value 0 (zfill 2 (str_of_N n)) = n.
Proof.
  intros Hn.
  pose proof (below_bound
    (fun k => Nat.eqb (String.length (zfill 2 (str_of_N k))) 2
              && N.eqb (digits_value 0 (zfill 2 (str_of_N k))) k)
    100 ltac:(vm_compute; reflexivity) n Hn) as H.
  cbv beta in H. apply andb_true_iff in H as [H1 H2].
  split; [apply Nat.eqb_eq, H1 | apply N.eqb_eq, H2].
Qed.

Lemma four_digits (n : N) :
  (n < 10000)%N ->
  String.length (zfill 4 (str_of_N n)) = 4
  /\ digits_value 0 (zfill 4 (str_of_N n)) = n.
Proof.
  intros Hn.
  assert (Hb : (n < N.of_nat (100 * 100))%N)
    by (change (N.of_nat (100 * 100)) with 10000%N; exact Hn).
  pose proof (below_bound
    (fun k => Nat.eqb (String.length (zfill 4 (str_of_N k))) 4
              && N.eqb (digits_value 0 (zfill 4 (str_of_N k))) k)
    (100 * 100) ltac:(vm_compute; reflexivity) n Hb) as H.
  cbv beta in H. apply andb_true_iff in H as [H1 H2].
  split; [apply Nat.eqb_eq, H1 | apply N.eqb_eq, H2].
Qed.

Lemma field_inj (width : nat) (n m : N) (rest rest' : str) :
  String.length (zfill width (str_of_N n)) = width ->
  String.length (zfill width (str_of_N m)) = width ->
  digits_value 0 (zfill width (str_of_N n)) = n ->
  digits_value 0 (zfill width (str_of_N m)) = m ->
  zfill width (str_of_N n) ++ rest = zfill width (str_of_N m) ++ rest' ->
  n = m /\ rest = rest'.
Proof.
  intros Ln Lm Vn Vm H.
  apply append_inj_length in H as [Hfield Hrest]; [|congruence].
  split; [|exact Hrest]. rewrite <- Vn, <- Vm, Hfield. reflexivity.
Qed.

(** The time stamp determines the reading of the clock to the second. *)
Lemma strftime_inj (t t' : datetime) :
  valid_datetime t -> valid_datetime t' ->
  strftime_Ymd_HMS t = strftime_Ymd_HMS t' ->
  to_the_second t = to_the_second t'.
Proof.
  intros (Hy & Hmo & Hd & Hh & Hmi & Hs) (Hy' & Hmo' & Hd' & Hh' & Hmi' & Hs').
  unfold strftime_Ymd_HMS, to_the_second. intros H.
  destruct (four_digits (year t)) as [L1 V1]; [lia|].
  destruct (four_digits (year t')) as [L1' V1']; [lia|].
  apply (field_inj 4 _ _ _ _ L1 L1' V1 V1') in H as [-> H].
  destruct (two_digits (month t)) as [L2 V2]; [lia|].
  destruct (two_digits (month t')) as [L2' V2']; [lia|].
  apply (field_inj 2 _ _ _ _ L2 L2' V2 V2') in H as [-> H].
  destruct (two_digits (day t)) as [L3 V3]; [lia|].
  destruct (two_digits (day t')) as [L3' V3']; [lia|].
  apply (field_inj 2 _ _ _ _ L3 L3' V3 V3') in H as [-> H].
  apply (append_cancel_l "_") in H.
  destruct (two_digits (hour t)) as [L4 V4]; [lia|].
  destruct (two_digits (hour t')) as [L4' V4']; [lia|].
  apply (field_inj 2 _ _ _ _ L4 L4' V4 V4') in H as [-> H].
  destruct (two_digits (minute t)) as [L5 V5]; [lia|].
  destruct (two_digits (minute t')) as [L5' V5']; [lia|].
  apply (field_inj 2 _ _ _ _ L5 L5' V5 V5') in H as [-> H].
  destruct (two_digits (second t)) as [L6 V6]; [lia|].
  destruct (two_digits (second t')) as [L6' V6']; [lia|].
  rewrite <- V6, <- V6', H. reflexivity.
Qed.

Lemma strftime_length (t : datetime) :
  valid_datetime t -> String.length (strftime_Ymd_HMS t) = 15.
Proof.
  intros (Hy & Hmo & Hd & Hh & Hmi & Hs). unfold strftime_Ymd_HMS.
  destruct (four_digits (year t)) as [L1 _]; [lia|].
  destruct (two_digits (month t)) as [L2 _]; [lia|].
  destruct (two_digits (day t)) as [L3 _]; [lia|].
  destruct (two_digits (hour t)) as [L4 _]; [lia|].
  destruct (two_digits (minute t)) as [L5 _]; [lia|].
  destruct (two_digits (second t)) as [L6 _]; [lia|].
  rewrite !str_length_append, L1, L2, L3, L4, L5, L6. reflexivity.
Qed.

Lemma audio_path_eq (temp_dir : str) (t : datetime) (ext : str) :
  exists prefix,
    forall t' ext',
      audio_path temp_dir t' ext'
      = prefix ++ "audio_" ++ strftime_Ymd_HMS t' ++ ext'.
Proof.
  unfold audio_path, path_join. cbn [append startswith_slash].
  destruct ((temp_dir =? "") || endswith_slash temp_dir).
  - exists temp_dir. reflexivity.
  - exists (temp_dir ++ "/"). intros t' ext'.
    rewrite str_append_assoc. reflexivity.
Qed.

(** What holds of the file names: two runs in the same working directory
    whose clock readings differ to the second use different names for the
    fetched file and for the transcoded file. *)
Theorem audio_path_injective_to_the_second temp_dir t t' ext :
  valid_datetime t -> valid_datetime t' ->
  to_the_second t <> to_the_second t' ->
  audio_path temp_dir t ext <> audio_path temp_dir t' ext.
Proof.
  intros Hv Hv' Hdiff Heq. apply Hdiff, strftime_inj; try assumption.
  destruct (audio_path_eq temp_dir t ext) as (prefix & Hp).
  rewrite !Hp in Heq. apply append_cancel_l in Heq.
  apply (append_cancel_l "audio_") in Heq.
  apply append_inj_length in Heq; [apply Heq|].
  rewrite !strftime_length; [reflexivity | assumption | assumption].
Qed.

(** The fetched file and the transcoded file never share a name, whatever
    the clock says. *)
Theorem fetched_and_transcoded_paths_differ temp_dir t t' :
  audio_path temp_dir t ".oga" <> audio_path temp_dir t' ".wav".
Proof.
  intros Heq. destruct (audio_path_eq temp_dir t ".oga") as (prefix & Hp).
  rewrite !Hp in Heq. apply (f_equal last_char) in Heq.
  rewrite <- !str_append_assoc in Heq.
  rewrite (last_char_append _ ".oga"), (last_char_append _ ".wav") in Heq;
    discriminate.
Qed.

End PathNames.

Lemma audio_path_injective_witness :
  valid_datetime (Examples.at_noon 0)
  /\ to_the_second (Examples.at_noon 0)
     <> to_the_second (mkDatetime 2024 3 5 12 0 8 0)
  /\ audio_path Examples.ex_dir (Examples.at_noon 0) ".oga"
     <> audio_path Examples.ex_dir (mkDatetime 2024 3 5 12 0 8 0) ".oga".
Proof.
  assert (Hv : valid_datetime (Examples.at_noon 0)) by (cbv; repeat split; discriminate).
  assert (Hv' : valid_datetime (mkDatetime 2024 3 5 12 0 8 0))
    by (cbv; repeat split; discriminate).
  assert (Hd : to_the_second (Examples.at_noon 0)
               <> to_the_second (mkDatetime 2024 3 5 12 0 8 0))
    by discriminate.
  split; [exact Hv|]. split; [exact Hd|].
  exact (audio_path_injective_to_the_second Examples.ex_dir _ _ ".oga"
           Hv Hv' Hd).
Defined.

Section Progress.

Variable w : World.

(** The progress report is not only an observation: when the body is not
    empty and [int] cannot read the Content-Length header, the
    [ValueError] ends the run with status 400 and the text of that error,
    before any program is launched. *)
Theorem unreadable_content_length_fails_the_run url fs r cl msg chunk rest :
  requests_get w url headers = Ok r ->
  (resp_status r < 400 \/ 600 <= resp_status r)%Z ->
  headers_get "Content-Length" (resp_headers r) = Some cl ->
  cl <> "" ->
  py_int w cl = Raise msg ->
  resp_chunks r = chunk :: rest ->
  chunk <> [] ->
  outcome (run w url fs) = Raise (mkHTTPException 400 msg)
  /\ subprocess_calls (trace (run w url fs)) = []
  /\ transcribe_calls (trace (run w url fs)) = [].
Proof.
  intros Hget Hst Hlen Hcl Hint Hchunks Hchunk.
  assert (Hd : exists s1 t1,
             download w url (start fs) = (Raise (ValueError msg), s1, t1)).
  { unfold download, bind, logger_info, do_requests_get, bind, emit, lift.
    cbv beta iota. rewrite Hget. unfold ret at 1. cbv beta iota.
    unfold raise_for_status. rewrite (http_error_msg_none r Hst).
    unfold ret at 1. cbv beta iota.
    rewrite (for_each_log (resp_headers r) (fun kv => fst kv ++ ": " ++ snd kv)).
    cbv beta iota. unfold datetime_now, open_wb. cbv beta iota.
    rewrite Hlen, Hchunks. cbn [download_chunks].
    destruct chunk as [|b chunk]; [contradiction|].
    unfold bind, file_write, report_progress. cbv beta iota zeta.
    apply String.eqb_neq in Hcl. rewrite Hcl, Hint. unfold raise.
    eexists; eexists; reflexivity. }
  destruct Hd as (s1 & t1 & Hd).
  assert (Hfetch : fetch w url (start fs) = (Raise (ValueError msg), s1, t1)).
  { unfold fetch. apply bind_raise. exact Hd. }
  split.
  - rewrite run_outcome_eq, Hfetch. reflexivity.
  - apply (run_calls_fetch_raises _ _ _ _ _ _ Hfetch).
Qed.

End Progress.

Lemma unreadable_content_length_witness :
  headers_get "Content-Length"
    [("Content-Length", "6, 6")] = Some "6, 6"
  /\ outcome (run Examples.world_two_lengths Examples.url Examples.no_files)
     = Raise (mkHTTPException 400
                "invalid literal for int() with base 10: '6, 6'").
Proof.
  split; [reflexivity|].
  refine (proj1 (unreadable_content_length_fails_the_run
                   Examples.world_two_lengths Examples.url Examples.no_files
                   _ "6, 6" _ Examples.ogg_bytes []
                   eq_refl _ eq_refl _ eq_refl eq_refl _)).
  - left. cbn. lia.
  - discriminate.
  - discriminate.
Defined.

Lemma fetched_and_transcoded_paths_witness :
  audio_path Examples.ex_dir (Examples.at_noon 0) ".oga" = Examples.ex_oga
  /\ audio_path Examples.ex_dir (Examples.at_noon 1) ".wav" = Examples.ex_wav
  /\ Examples.ex_oga <> Examples.ex_wav.
Proof.
  split; [reflexivity|]. split; [reflexivity|].
  exact (fetched_and_transcoded_paths_differ Examples.ex_dir
           (Examples.at_noon 0) (Examples.at_noon 1)).
Defined.

(** * One call of [requests.get] per run *)

Section HttpCalls.

Variable w : World.

Lemma http_calls_app (t1 t2 : list event) :
  http_calls (t1 ++ t2)%list = (http_calls t1 ++ http_calls t2)%list.
Proof.
  induction t1 as [|ev t1 IH]; simpl; [reflexivity|].
  destruct ev; simpl; rewrite ?IH; reflexivity.
Qed.

Lemma offline_bind {E A B} (m : M E A) (f : A -> M E B) s :
  http_calls (trace (m s)) = [] ->
  (forall a s', http_calls (trace (f a s')) = []) ->
  http_calls (trace (bind m f s)) = [].
Proof.
  intros Hm Hf. unfold bind.
  destruct (m s) as [[[a|e] s1] t1]; simpl in Hm; [|exact Hm].
  specialize (Hf a s1). destruct (f a s1) as [[r s2] t2]; simpl in *.
  rewrite http_calls_app, Hm, Hf. reflexivity.
Qed.

(** What follows a computation adds no request when it makes none. *)
Lemma http_calls_bind_l {E A B} (m : M E A) (f : A -> M E B) s :
  (forall a s', http_calls (trace (f a s')) = []) ->
  http_calls (trace (bind m f s)) = http_calls (trace (m s)).
Proof.
  intros Hf. unfold bind.
  destruct (m s) as [[[a|e] s1] t1]; simpl; [|reflexivity].
  specialize (Hf a s1). destruct (f a s1) as [[r s2] t2]; simpl in *.
  rewrite http_calls_app, Hf, app_nil_r. reflexivity.
Qed.

Lemma http_calls_try_except {E F A} (m : M E A) (h : E -> M F A) s :
  (forall e s', http_calls (trace (h e s')) = []) ->
  http_calls (trace (try_except m h s)) = http_calls (trace (m s)).
Proof.
  intros Hh. unfold try_except.
  destruct (m s) as [[[a|e] s1] t1]; simpl; [reflexivity|].
  specialize (Hh e s1). destruct (h e s1) as [[r s2] t2]; simpl in *.
  rewrite http_calls_app, Hh, app_nil_r. reflexivity.
Qed.

Ltac offline_step :=
  match goal with
  | |- http_calls (trace (bind _ _ _)) = [] => apply offline_bind; [ | intros ]
  | |- http_calls (trace ((if ?b then _ else _) _)) = [] => destruct b
  | |- http_calls (trace (match ?x with _ => _ end _)) = [] => destruct x
  | |- http_calls (trace (match ?x with _ => _ end)) = [] => destruct x
  | |- http_calls _ = [] => reflexivity
  end.

Lemma for_each_offline {X} (l : list X) (f : X -> M exn unit) s :
  (forall x s', http_calls (trace (f x s')) = []) ->
  http_calls (trace (for_each l f s)) = [].
Proof.
  intros Hf. revert s. induction l as [|x l IH]; intros s; simpl.
  - reflexivity.
  - apply offline_bind; [apply Hf | intros; apply IH].
Qed.

Lemma download_chunks_offline path cl chunks n s :
  http_calls (trace (download_chunks w path cl chunks n s)) = [].
Proof.
  revert n s. induction chunks as [|chunk rest IH]; intros n s; simpl.
  - reflexivity.
  - destruct chunk as [|b chunk]; [apply IH|].
    apply offline_bind; [reflexivity | intros].
    apply offline_bind; [|intros; apply IH].
    unfold report_progress. repeat offline_step.
Qed.

Lemma sniff_offline path s : http_calls (trace (sniff w path s)) = [].
Proof.
  unfold sniff, do_magic_from_file, lift, file_read.
  repeat offline_step.
Qed.

Lemma conversion_loop_offline cmds s :
  http_calls (trace (conversion_loop w cmds s)) = [].
Proof.
  revert s. induction cmds as [|cmd rest IH]; intros s; simpl.
  - reflexivity.
  - apply offline_bind.
    + rewrite conversion_attempt_eq. cbv zeta.
      destruct (subprocess_run w cmd) as [p ws|e];
        [destruct (returncode p =? 0)%Z|]; reflexivity.
    + intros [|] s'; [reflexivity | apply IH].
Qed.

Lemma transcode_offline d oga s :
  http_calls (trace (transcode w d oga s)) = [].
Proof.
  unfold transcode, getsize.
  repeat first [ apply conversion_loop_offline | offline_step ].
Qed.

Lemma transcribe_offline oga wav s :
  http_calls (trace (transcribe w oga wav s)) = [].
Proof.
  unfold transcribe, do_transcribe, lift.
  repeat first
    [ match goal with
      | |- http_calls (trace (inspect_file _ _ _)) = [] =>
          rewrite inspect_file_eq; cbv zeta
      end
    | offline_step ].
Qed.

Lemma except_clauses_offline (e : exn) s :
  http_calls (trace (except_clauses e s)) = [].
Proof.
  destruct (except_clauses_spec e s) as (h & msg & Heq).
  rewrite Heq. reflexivity.
Qed.

Lemma download_http_calls url s :
  http_calls (trace (download w url s)) = [(url, headers)].
Proof.
  unfold download.
  rewrite (bind_ok _ _ s tt s [Log INFO ("Downloading audio from URL: " ++ url)]
             eq_refl).
  rewrite trace_after, http_calls_app. cbn [http_calls app].
  unfold do_requests_get, emit, lift.
  destruct (requests_get w url headers) as [r|e] eqn:Hget.
  - match goal with
    | |- http_calls (trace (bind ?m ?f s)) = _ =>
        rewrite (bind_ok m f s r s [HttpGet url headers])
    end.
    2:{ unfold bind. rewrite ?Hget. reflexivity. }
    rewrite trace_after, http_calls_app. cbn [http_calls app].
    f_equal.
    unfold raise_for_status, end_of_stream, getsize.
    repeat first
      [ apply for_each_offline; intros
      | apply download_chunks_offline
      | offline_step ].
  - match goal with
    | |- http_calls (trace (bind ?m ?f s)) = _ =>
        rewrite (bind_raise m f s e s [HttpGet url headers])
    end.
    2:{ unfold bind. rewrite ?Hget. reflexivity. }
    reflexivity.
Qed.

Lemma download_and_transcribe_http_calls url s :
  http_calls (trace (download_and_transcribe w url s)) = [(url, headers)].
Proof.
  unfold download_and_transcribe.
  rewrite http_calls_try_except by apply except_clauses_offline.
  unfold try_block.
  rewrite http_calls_bind_l.
  - unfold fetch. rewrite http_calls_bind_l; [apply download_http_calls|].
    intros paths s'. apply offline_bind; [apply sniff_offline|].
    intros; reflexivity.
  - intros paths s'. apply offline_bind; [apply transcode_offline|].
    intros; apply transcribe_offline.
Qed.

(** Whatever its outcome, a run of [download_and_transcribe] calls
    [requests.get] exactly once, with the address it was given and the two
    fixed headers.  The code retries no failure and no later phase calls
    it again.  (What the library does inside that call, such as following
    redirections, is not counted.) *)
Theorem run_calls_requests_get_once url fs :
  http_calls (trace (run w url fs)) = [(url, headers)].
Proof. unfold run. apply download_and_transcribe_http_calls. Qed.

End HttpCalls.

(** * The fetched file *)

Section FetchedFile.

Variable w : World.

Lemma files_get_put_same (p : str) (data : bytes) (fs : files) :
  files_get p (files_put p data fs) = Some data.
Proof. unfold files_put. simpl. rewrite String.eqb_refl. reflexivity. Qed.

Lemma files_get_put_other (p q : str) (data : bytes) (fs : files) :
  q <> p -> files_get q (files_put p data fs) = files_get q fs.
Proof.
  intros Hne. unfold files_put. simpl.
  destruct (p =? q) eqn:H; [|reflexivity].
  apply String.eqb_eq in H. congruence.
Qed.

(** The loop appends the chunks to the file and touches no other file. *)
Lemma download_chunks_files path cl chunks n s old n' s' t :
  files_get path (st_files s) = Some old ->
  download_chunks w path cl chunks n s = (Ok n', s', t) ->
  files_get path (st_files s') = Some (old ++ List.concat chunks)%list
  /\ (forall q, q <> path ->
                files_get q (st_files s') = files_get q (st_files s))
  /\ st_ticks s' = st_ticks s.
Proof.
  revert n s old t n' s'.
  induction chunks as [|chunk rest IH]; intros n s old t n' s' Hold.
  - cbn [download_chunks List.concat]. unfold ret. intros [= _ <- _].
    rewrite app_nil_r. split; [exact Hold|]. split; reflexivity.
  - cbn [download_chunks List.concat].
    destruct chunk as [|c chunk].
    + cbn [app]. apply IH. exact Hold.
    + unfold bind at 1, file_write. rewrite Hold.
      set (s0 := mkState _ _).
      unfold bind at 1.
      destruct (report_progress w cl _ s0) as [[[[]|e] s2] t2] eqn:Hrep;
        [|discriminate].
      assert (Hs2 : s2 = s0).
      { revert Hrep. unfold report_progress.
        destruct cl as [c0|]; [|unfold ret; congruence].
        destruct (c0 =? ""); [unfold ret; congruence|].
        destruct (py_int w c0) as [total|msg]; [|discriminate].
        destruct (total =? 0)%Z; [discriminate|].
        unfold logger_info, emit. congruence. }
      subst s2.
      destruct (download_chunks w path cl rest _ s0)
        as [[[n2|e] s3] t3] eqn:Hrest; [|discriminate].
      intros [= <- <- _].
      destruct (IH _ s0 (old ++ c :: chunk)%list t3 _ _
                  (files_get_put_same _ _ _) Hrest) as (Hfile & Hother & Htick).
      rewrite <- app_assoc in Hfile.
      split; [exact Hfile|]. split; [|exact Htick].
      intros q Hq. rewrite (Hother q Hq).
      apply files_get_put_other. exact Hq.
Qed.

Lemma download_ok_files url s d oga s1 t1 r :
  download w url s = (Ok (d, oga), s1, t1) ->
  requests_get w url headers = Ok r ->
  d = temp_dir_of w
  /\ oga = audio_path (temp_dir_of w) (clock w (st_ticks s)) ".oga"
  /\ files_get oga (st_files s1) = Some (List.concat (resp_chunks r))
  /\ forall q, q <> oga ->
               files_get q (st_files s1) = files_get q (st_files s).
Proof.
  intros Hd Hget. revert Hd.
  unfold download, bind, logger_info, do_requests_get, bind, emit, lift.
  cbv beta iota. rewrite Hget. unfold ret, raise; cbv beta iota.
  unfold raise_for_status.
  destruct (http_error_msg r); unfold ret, raise; cbv beta iota;
    [discriminate|].
  rewrite (for_each_log (resp_headers r) (fun kv => fst kv ++ ": " ++ snd kv)).
  cbv beta iota. unfold datetime_now, open_wb. cbv beta iota.
  cbn [st_files st_ticks].
  set (path := audio_path (temp_dir_of w) (clock w (st_ticks s)) ".oga").
  destruct (download_chunks w path _ _ _ _) as [[[n|e] s2] t2] eqn:Hchunks;
    [|discriminate].
  destruct (download_chunks_files path _ _ _
              (mkState (files_put path [] (st_files s)) (S (st_ticks s)))
              [] _ _ _
              (files_get_put_same path [] (st_files s)) Hchunks)
    as (Hfile & Hother & _).
  cbn [app st_files] in Hfile, Hother.
  unfold end_of_stream.
  destruct (resp_stream_error r); unfold ret, raise; cbv beta iota;
    [discriminate|].
  unfold getsize. rewrite Hfile. cbv beta iota.
  destruct (N.of_nat _ =? 0)%N; unfold ret, raise; cbv beta iota;
    [discriminate|].
  intros [= <- <- <- _].
  split; [reflexivity|]. split; [reflexivity|]. split; [exact Hfile|].
  intros q Hq. rewrite (Hother q Hq).
  apply files_get_put_other. exact Hq.
Qed.

(** A fetch that returns has saved the body of the response, chunk after
    chunk, under the name made from the first reading of the clock, in
    place of what a file of that name held before; it has touched no other
    file. *)
Theorem fetched_file_is_the_response_body url fs d oga s1 t1 r :
  fetch w url (start fs) = (Ok (d, oga), s1, t1) ->
  requests_get w url headers = Ok r ->
  oga = audio_path (temp_dir_of w) (clock w 0) ".oga"
  /\ files_get oga (st_files s1) = Some (List.concat (resp_chunks r))
  /\ forall q, q <> oga -> files_get q (st_files s1) = files_get q fs.
Proof.
  intros Hfetch Hget.
  destruct (fetch_ok_inv w _ _ _ _ _ _ Hfetch) as (t0 & Hd).
  destruct (download_ok_files _ _ _ _ _ _ _ Hd Hget) as (_ & Hp & Hf & Ho).
  repeat split; assumption.
Qed.

End FetchedFile.

Lemma fetched_file_witness :
  files_get Examples.ex_oga [(Examples.ex_oga, Examples.wav_bytes)]
  = Some Examples.wav_bytes
  /\ files_get Examples.ex_oga
       (st_files
          (final (fetch Examples.world_auto_only Examples.url
                    (start [(Examples.ex_oga, Examples.wav_bytes)]))))
     = Some Examples.ogg_bytes.
Proof.
  split; [reflexivity|].
  assert (Hfetch :
    fetch Examples.world_auto_only Examples.url
      (start [(Examples.ex_oga, Examples.wav_bytes)])
    = (Ok (Examples.ex_dir, Examples.ex_oga),
       final (fetch Examples.world_auto_only Examples.url
                (start [(Examples.ex_oga, Examples.wav_bytes)])),
       trace (fetch Examples.world_auto_only Examples.url
                (start [(Examples.ex_oga, Examples.wav_bytes)]))))
    by (vm_compute; reflexivity).
  destruct (fetched_file_is_the_response_body Examples.world_auto_only
              Examples.url [(Examples.ex_oga, Examples.wav_bytes)]
              _ _ _ _ (Examples.response_of 200 "OK" [Examples.ogg_bytes])
              Hfetch eq_refl)
    as (_ & Hfile & _).
  exact Hfile.
Defined.

(** * The request handler *)

Section ServiceMonad.

Context {E A : Type}.

Lemma sbind_ok {B} (m : SM E A) (f : A -> SM E B) l a l1 t1 :
  m l = (Ok a, l1, t1) -> sbind m f l = preceded_by t1 (f a l1).
Proof.
  intros Hm. unfold sbind, preceded_by. rewrite Hm.
  destruct (f a l1) as [[r l2] t2]; reflexivity.
Qed.

Lemma sbind_raise {B} (m : SM E A) (f : A -> SM E B) l e l1 t1 :
  m l = (Raise e, l1, t1) -> sbind m f l = (Raise e, l1, t1).
Proof. intros Hm. unfold sbind. rewrite Hm. reflexivity. Qed.

Lemma stry_ok {F} (m : SM E A) (h : E -> SM F A) l a l1 t1 :
  m l = (Ok a, l1, t1) -> stry m h l = (Ok a, l1, t1).
Proof. intros Hm. unfold stry. rewrite Hm. reflexivity. Qed.

Lemma stry_raise {F} (m : SM E A) (h : E -> SM F A) l e l1 t1 :
  m l = (Raise e, l1, t1) -> stry m h l = preceded_by t1 (h e l1).
Proof.
  intros Hm. unfold stry, preceded_by. rewrite Hm.
  destruct (h e l1) as [[r l2] t2]; reflexivity.
Qed.

Lemma preceded_by_nil (x : result E A * locals * list sevent) :
  preceded_by [] x = x.
Proof. destruct x as [[r l] t]. reflexivity. Qed.

End ServiceMonad.

Section Events.

Lemma fetched_urls_app (t1 t2 : list sevent) :
  fetched_urls (t1 ++ t2)%list = (fetched_urls t1 ++ fetched_urls t2)%list.
Proof.
  induction t1 as [|ev t1 IH]; simpl; [reflexivity|].
  destruct ev as [[]|]; simpl; rewrite ?IH; reflexivity.
Qed.

Lemma insertions_app (t1 t2 : list sevent) :
  insertions (t1 ++ t2)%list = (insertions t1 ++ insertions t2)%list.
Proof.
  induction t1 as [|ev t1 IH]; simpl; [reflexivity|].
  destruct ev; simpl; rewrite ?IH; reflexivity.
Qed.

Lemma fetched_urls_pipeline (t : list event) :
  fetched_urls (map Pipeline t) = map fst (http_calls t).
Proof.
  induction t as [|ev t IH]; simpl; [reflexivity|].
  destruct ev; simpl; rewrite ?IH; reflexivity.
Qed.

Lemma insertions_pipeline (t : list event) : insertions (map Pipeline t) = [].
Proof. induction t as [|ev t IH]; simpl; [reflexivity | exact IH]. Qed.

End Events.

Section Dictionaries.

Lemma dict_get_set_same (k : str) (v : json) (d : list (str * json)) :
  dict_get k (dict_set k v d) = Some v.
Proof.
  induction d as [|[k' v'] d IH]; simpl.
  - rewrite String.eqb_refl. reflexivity.
  - destruct (k' =? k) eqn:Hk; simpl; rewrite Hk; [reflexivity | exact IH].
Qed.

Lemma dict_get_set_other (k k' : str) (v : json) (d : list (str * json)) :
  k' <> k -> dict_get k' (dict_set k v d) = dict_get k' d.
Proof.
  intros Hne. induction d as [|[k0 v0] d IH]; simpl.
  - destruct (k =? k') eqn:H; [|reflexivity].
    apply String.eqb_eq in H. congruence.
  - destruct (k0 =? k) eqn:Hk; simpl.
    + apply String.eqb_eq in Hk. subst k0.
      destruct (k =? k') eqn:H; [|reflexivity].
      apply String.eqb_eq in H. congruence.
    + rewrite IH. reflexivity.
Qed.

Lemma dict_set_set (k : str) (v v' : json) (d : list (str * json)) :
  dict_set k v' (dict_set k v d) = dict_set k v' d.
Proof.
  induction d as [|[k0 v0] d IH]; simpl.
  - rewrite String.eqb_refl. reflexivity.
  - destruct (k0 =? k) eqn:Hk; simpl; rewrite Hk; [reflexivity|].
    rewrite IH. reflexivity.
Qed.

End Dictionaries.

Section Attachments.

Lemma has_attachment_eq (b m : list (str * json)) :
  dict_get "message" b = Some (JDict m) ->
  has_attachment (JDict b)
  = match dict_get "attachments" m with
    | Some att =>
        if truthy att then
          match py_len att with
          | Ok n => Ok (0 <? n)%nat
          | Raise e => Raise e
          end
        else Ok false
    | None => Ok false
    end.
Proof.
  intros Hm. unfold has_attachment, py_get, py_getitem, and_then, dict_get_or.
  rewrite Hm.
  destruct (dict_get "attachments" m) as [att|]; [|reflexivity].
  destruct (truthy att); reflexivity.
Qed.

Lemma has_attachment_no_message (b : list (str * json)) :
  dict_get "message" b = None -> has_attachment (JDict b) = Ok false.
Proof.
  intros Hm. unfold has_attachment, py_get, and_then, dict_get_or.
  rewrite Hm. reflexivity.
Qed.

Lemma has_attachment_inv (body : json) :
  has_attachment body = Ok true ->
  exists b m att n,
    body = JDict b
    /\ dict_get "message" b = Some (JDict m)
    /\ dict_get "attachments" m = Some att
    /\ truthy att = true
    /\ py_len att = Ok (S n).
Proof.
  intros H. destruct body as [| | | | | |b]; try discriminate H.
  destruct (dict_get "message" b) as [msg|] eqn:Hm.
  2:{ rewrite (has_attachment_no_message _ Hm) in H. discriminate H. }
  destruct msg as [| | | | | |m];
    try (unfold has_attachment, py_get, and_then, dict_get_or in H;
         rewrite Hm in H;
         discriminate H).
  rewrite (has_attachment_eq _ _ Hm) in H.
  destruct (dict_get "attachments" m) as [att|] eqn:Ha; [|discriminate H].
  destruct (truthy att) eqn:Ht; [|discriminate H].
  destruct (py_len att) as [[|n]|e] eqn:Hl; try discriminate H.
  exists b, m, att, n. repeat split; assumption.
Qed.

Lemma has_attachment_not_dict (body : json) :
  (forall b, body <> JDict b) ->
  has_attachment body
  = Raise (AttributeError
             ("'" ++ type_name body ++ "' object has no attribute 'get'")).
Proof.
  intros H. destruct body; try reflexivity. elim (H d). reflexivity.
Qed.

Lemma first_attachment_url_eq (b m : list (str * json)) (att : json) :
  dict_get "message" b = Some (JDict m) ->
  dict_get "attachments" m = Some att ->
  first_attachment_url (JDict b)
  = and_then (py_getitem_0 att)
      (fun first => py_get first "temporary_download_url" JNull).
Proof.
  intros Hm Ha. unfold first_attachment_url, py_getitem at 1 2, and_then.
  rewrite Hm, Ha. reflexivity.
Qed.

Lemma add_transcription_eq (t : str) s (b m : list (str * json)) tr :
  dict_get "message" b = Some (JDict m) ->
  add_transcription t (mkLocals s (JDict b) tr)
  = (Ok tt, mkLocals s (with_transcript t m b) tr, []).
Proof.
  intros Hm.
  assert (Hset : forall key value m0 b0,
            dict_get "message" b0 = Some (JDict m0) ->
            set_message_item key value (mkLocals s (JDict b0) tr)
            = (Ok tt,
               mkLocals s
                 (JDict (dict_set "message" (JDict (dict_set key value m0)) b0))
                 tr, [])).
  { intros key value m0 b0 H0.
    unfold set_message_item, sbind, get_body, of_result, py_getitem.
    cbn [loc_body]. rewrite H0. reflexivity. }
  unfold add_transcription, with_transcript.
  unfold sbind at 1, get_body. cbn [loc_body].
  unfold py_getitem, py_get, and_then, dict_get_or. rewrite Hm.
  unfold of_result, sbind at 1, sret.
  destruct (dict_get "text" m) as [text|];
    [destruct (truthy text)|]; cbn [negb].
  - unfold sbind, sret. rewrite (Hset _ _ _ _ Hm). reflexivity.
  - unfold sbind. rewrite (Hset _ _ _ _ Hm).
    rewrite (Hset _ _ _ _ (dict_get_set_same _ _ _)).
    rewrite dict_set_set. reflexivity.
  - cbn [truthy negb]. unfold sbind. rewrite (Hset _ _ _ _ Hm).
    rewrite (Hset _ _ _ _ (dict_get_set_same _ _ _)).
    rewrite dict_set_set. reflexivity.
Qed.

End Attachments.

Section Handler.

Variable srv : Service.

Lemma process_audio_no_attachment l :
  has_attachment (loc_body l) = Ok false ->
  process_audio srv l = (Ok tt, l, []).
Proof.
  intros H. unfold process_audio, sbind, get_body, of_result.
  rewrite H. reflexivity.
Qed.

Lemma process_audio_condition_raises l e :
  has_attachment (loc_body l) = Raise e ->
  process_audio srv l = (Raise (PyExn e), l, []).
Proof.
  intros H. unfold process_audio, sbind, get_body, of_result.
  rewrite H. reflexivity.
Qed.

(** The block when the condition holds: what is fetched is the address of
    the first attachment, and the transcript goes into the body. *)
Lemma process_audio_found s (b m : list (str * json)) tr0 :
  has_attachment (JDict b) = Ok true ->
  dict_get "message" b = Some (JDict m) ->
  process_audio srv (mkLocals s (JDict b) tr0)
  = preceded_by [Pipeline (Log INFO "Found attachment in message")]
      (match first_attachment_url (JDict b) with
       | Raise e => (Raise (PyExn e), mkLocals s (JDict b) tr0, [])
       | Ok url =>
           if truthy url then
             match download_and_transcribe (world srv) (py_str srv url) s with
             | (Ok t, s', tr) =>
                 (Ok tt, mkLocals s' (with_transcript t m b) (Some t),
                  map Pipeline tr)
             | (Raise h, s', tr) =>
                 (Raise (Http h), mkLocals s' (JDict b) tr0, map Pipeline tr)
             end
           else (Ok tt, mkLocals s (JDict b) tr0, [])
       end).
Proof.
  intros Hc Hm. unfold process_audio.
  unfold sbind at 1, get_body. cbn [loc_body].
  rewrite Hc. unfold of_result at 1, sbind at 1, sret.
  unfold sbind at 1, slog.
  destruct (first_attachment_url (JDict b)) as [url|e];
    unfold of_result; [|reflexivity].
  unfold sbind at 1, sret.
  destruct (truthy url); [|reflexivity].
  unfold sbind at 1, call_download_and_transcribe. cbn [loc_state loc_body
    loc_transcription].
  destruct (download_and_transcribe (world srv) (py_str srv url) s)
    as [[[t|h] s'] tr]; [|reflexivity].
  unfold sbind, set_transcription. cbn [loc_state loc_body].
  rewrite (add_transcription_eq t s' b m (Some t) Hm).
  unfold preceded_by; cbn [answer left_behind events fst snd app].
  rewrite !app_nil_r. reflexivity.
Qed.

(** The inner [try] statement when the first attachment has an address. *)
Lemma try_process_audio_download s (b m : list (str * json)) tr0 url :
  has_attachment (JDict b) = Ok true ->
  dict_get "message" b = Some (JDict m) ->
  first_attachment_url (JDict b) = Ok url ->
  truthy url = true ->
  try_process_audio srv (mkLocals s (JDict b) tr0)
  = preceded_by [Pipeline (Log INFO "Found attachment in message")]
      (match download_and_transcribe (world srv) (py_str srv url) s with
       | (Ok t, s', tr) =>
           (Ok tt, mkLocals s' (with_transcript t m b) (Some t),
            map Pipeline tr)
       | (Raise h, s', tr) =>
           (Ok tt, mkLocals s' (JDict b) tr0,
            app (map Pipeline tr)
              [Pipeline (Log ERROR ("Error processing audio: "
                                    ++ str_of_http_exception srv h))])
       end).
Proof.
  intros Hc Hm Hu Ht. unfold try_process_audio, stry.
  rewrite (process_audio_found s b m tr0 Hc Hm), Hu, Ht.
  destruct (download_and_transcribe (world srv) (py_str srv url) s)
    as [[[t|h] s'] tr]; reflexivity.
Qed.

(** The inner [try] statement never raises, inserts nothing and fetches
    at most one address; it leaves a body that is not an object alone. *)
Lemma try_process_audio_spec l :
  exists l' tr,
    try_process_audio srv l = (Ok tt, l', tr)
    /\ insertions tr = []
    /\ (List.length (fetched_urls tr) <= 1)%nat
    /\ ((forall b, loc_body l <> JDict b) ->
        loc_body l' = loc_body l /\ fetched_urls tr = []).
Proof.
  destruct l as [s body tr0].
  destruct (has_attachment body) as [[|]|e] eqn:Hc.
  - destruct (has_attachment_inv _ Hc) as (b & m & att & n & -> & Hm & _).
    unfold try_process_audio, stry.
    rewrite (process_audio_found s b m tr0 Hc Hm).
    unfold preceded_by.
    destruct (first_attachment_url (JDict b)) as [url|e].
    + destruct (truthy url).
      * pose proof (download_and_transcribe_http_calls (world srv)
                      (py_str srv url) s) as Hcalls.
        destruct (download_and_transcribe (world srv) (py_str srv url) s)
          as [[[t|h] s'] tr]; cbn [trace snd] in Hcalls;
          cbn [answer left_behind events fst snd slog app];
          eexists; eexists; (split; [reflexivity|]);
          cbn [app insertions fetched_urls];
          rewrite ?insertions_app, ?fetched_urls_app, ?app_nil_r,
            insertions_pipeline, fetched_urls_pipeline, Hcalls;
          (split; [reflexivity|]);
          (split; [simpl; lia | intros Hn; elim (Hn b); reflexivity]).
      * eexists; eexists; (split; [reflexivity|]).
        split; [reflexivity|].
        split; [simpl; lia | intros Hn; elim (Hn b); reflexivity].
    + eexists; eexists; (split; [reflexivity|]).
      split; [reflexivity|].
      split; [simpl; lia | intros Hn; elim (Hn b); reflexivity].
  - unfold try_process_audio.
    rewrite (stry_ok _ _ _ _ _ _
               (process_audio_no_attachment (mkLocals s body tr0) Hc)).
    eexists; eexists; (split; [reflexivity|]).
    split; [reflexivity|]. split; [simpl; lia|]. intros _.
    split; reflexivity.
  - unfold try_process_audio.
    rewrite (stry_raise _ _ _ _ _ _
               (process_audio_condition_raises (mkLocals s body tr0) e Hc)).
    eexists; eexists; (split; [reflexivity|]).
    split; [reflexivity|]. split; [simpl; lia|]. intros _.
    split; reflexivity.
Qed.

Lemma store_event_dict l (b : list (str * json)) :
  loc_body l = JDict b ->
  store_event srv l
  = let row :=
      row_of srv (dict_get_or "event_type" b (JStr "unknown")) (JDict b) in
    preceded_by [InsertRowsJson table_ref [row]]
      (match insert_rows_json srv table_ref [row] with
       | Ok [] => (Ok (response_data (loc_transcription l)), l, [])
       | Ok (e :: es) =>
           (Raise (Http (mkHTTPException 500
                           ("Error inserting rows: "
                            ++ str_of_value srv (JList (e :: es))))),
            l,
            [Pipeline (Log ERROR ("BigQuery errors: "
                                  ++ str_of_value srv (JList (e :: es))))])
       | Raise e => (Raise (PyExn e), l, [])
       end).
Proof.
  intros Hb. unfold store_event, sbind, get_body, of_result, py_get,
    do_insert_rows_json. rewrite Hb. cbv zeta. unfold sret.
  destruct (insert_rows_json srv table_ref _) as [[|e es]|e]; reflexivity.
Qed.

Lemma store_event_not_dict l :
  (forall b, loc_body l <> JDict b) ->
  store_event srv l
  = (Raise (PyExn (AttributeError
                     ("'" ++ type_name (loc_body l)
                      ++ "' object has no attribute 'get'"))), l, []).
Proof.
  intros H. unfold store_event, sbind, get_body, of_result, py_get.
  destruct (loc_body l) eqn:Hb; try reflexivity. elim (H d). reflexivity.
Qed.

Lemma request_unreadable fs e :
  request_json srv = Raise e ->
  request srv fs
  = (Raise (mkHTTPException 500 (exn_str e)),
     mkLocals (start fs) JNull None,
     [Pipeline (Log ERROR ("Error: " ++ exn_str e))]).
Proof.
  intros H. unfold request, create_event, stry, handle_event, sbind.
  rewrite H. reflexivity.
Qed.

(** A request whose body was read: the log of the body, the inner [try]
    statement, then the insertion under the outer [except] clause. *)
Lemma request_eq fs body l1 tr1 :
  request_json srv = Ok body ->
  try_process_audio srv (mkLocals (start fs) body None) = (Ok tt, l1, tr1) ->
  request srv fs
  = preceded_by
      (Pipeline (Log INFO ("Received request body: "
                           ++ json_dumps srv body (Some 2))) :: tr1)
      (stry (store_event srv) (fail_with_500 srv) l1).
Proof.
  intros Hb Ha. unfold request, create_event, handle_event.
  unfold stry at 1. unfold sbind at 1. rewrite Hb.
  unfold of_result, sret.
  unfold sbind at 1, set_body. cbn [loc_state loc_transcription].
  unfold sbind at 1, slog.
  unfold sbind at 1, set_transcription. cbn [loc_state loc_body].
  unfold sbind at 1. rewrite Ha.
  unfold stry, preceded_by.
  destruct (store_event srv l1) as [[[r|e] l2] t2];
    cbn [answer left_behind events fst snd app].
  - reflexivity.
  - destruct (fail_with_500 srv e l2) as [[r l3] t3].
    cbn [answer left_behind events fst snd].
    rewrite <- app_assoc. reflexivity.
Qed.

End Handler.

Section Finish.

Variable srv : Service.

(** The insertion under the outer [except] clause, for a body that is an
    object. *)
Lemma finish_dict l (b : list (str * json)) :
  loc_body l = JDict b ->
  stry (store_event srv) (fail_with_500 srv) l
  = let row :=
      row_of srv (dict_get_or "event_type" b (JStr "unknown")) (JDict b) in
    match insert_rows_json srv table_ref [row] with
    | Ok [] =>
        (Ok (response_data (loc_transcription l)), l,
         [InsertRowsJson table_ref [row]])
    | Ok (e :: es) =>
        let inner :=
          mkHTTPException 500
            ("Error inserting rows: " ++ str_of_value srv (JList (e :: es))) in
        (Raise (mkHTTPException 500 (str_of_http_exception srv inner)), l,
         [InsertRowsJson table_ref [row];
          Pipeline (Log ERROR ("BigQuery errors: "
                               ++ str_of_value srv (JList (e :: es))));
          Pipeline (Log ERROR ("Error: " ++ str_of_http_exception srv inner))])
    | Raise e =>
        (Raise (mkHTTPException 500 (exn_str e)), l,
         [InsertRowsJson table_ref [row];
          Pipeline (Log ERROR ("Error: " ++ exn_str e))])
    end.
Proof.
  intros Hb. unfold stry. rewrite (store_event_dict srv l b Hb). cbv zeta.
  destruct (insert_rows_json srv table_ref _) as [[|e es]|e]; reflexivity.
Qed.

Lemma finish_not_dict l :
  (forall b, loc_body l <> JDict b) ->
  stry (store_event srv) (fail_with_500 srv) l
  = let msg := "'" ++ type_name (loc_body l)
               ++ "' object has no attribute 'get'" in
    (Raise (mkHTTPException 500 msg), l,
     [Pipeline (Log ERROR ("Error: " ++ msg))]).
Proof.
  intros Hb. unfold stry. rewrite (store_event_not_dict srv l Hb).
  reflexivity.
Qed.

Lemma finish_fetches_nothing l :
  fetched_urls (events (stry (store_event srv) (fail_with_500 srv) l)) = [].
Proof.
  destruct (loc_body l) as [| | | | | |b] eqn:Hb;
    try (rewrite finish_not_dict; [reflexivity | rewrite Hb; discriminate]).
  rewrite (finish_dict l b Hb). cbv zeta.
  destruct (insert_rows_json srv table_ref _) as [[|e es]|e]; reflexivity.
Qed.

End Finish.

Section Requests.

Variable srv : Service.
Variable fs : files.

(** A request is never answered before the table was asked: either
    nothing is inserted and the request fails, or exactly one insertion is
    made, of one row, into the table [zapy-306602.gtms.events].  No
    insertion is repeated. *)
Theorem request_inserts_one_row_or_fails :
  (insertions (events (request srv fs)) = []
   /\ exists h, answer (request srv fs) = Raise h)
  \/ exists row,
       insertions (events (request srv fs)) = [(table_ref, [row])].
Proof.
  destruct (request_json srv) as [body|e] eqn:Hb.
  2:{ left. rewrite (request_unreadable srv fs e Hb). split; [reflexivity|].
      eexists; reflexivity. }
  destruct (try_process_audio_spec srv (mkLocals (start fs) body None))
    as (l1 & tr1 & Ha & Hins & _ & _).
  rewrite (request_eq srv fs body l1 tr1 Hb Ha).
  unfold preceded_by; cbn [answer left_behind events fst snd].
  cbn [insertions app]. rewrite insertions_app, Hins. cbn [app].
  destruct (loc_body l1) as [| | | | | |b] eqn:Hl;
    try (left; rewrite finish_not_dict by (rewrite Hl; discriminate);
         split; [reflexivity | eexists; reflexivity]).
  right. rewrite (finish_dict srv l1 b Hl). cbv zeta.
  destruct (insert_rows_json srv table_ref _) as [[|e es]|e];
    eexists; reflexivity.
Qed.

(** The answer of a request that reached the table is decided by the
    table alone: no errors, success; a list of errors or an exception,
    a failure. *)
Theorem answer_follows_the_table tbl rows :
  insertions (events (request srv fs)) = [(tbl, rows)] ->
  answer (request srv fs)
  = match insert_rows_json srv tbl rows with
    | Ok [] =>
        Ok (response_data (loc_transcription (left_behind (request srv fs))))
    | Ok (e :: es) =>
        Raise (mkHTTPException 500
                 (str_of_http_exception srv
                    (mkHTTPException 500
                       ("Error inserting rows: "
                        ++ str_of_value srv (JList (e :: es))))))
    | Raise e => Raise (mkHTTPException 500 (exn_str e))
    end.
Proof.
  destruct (request_json srv) as [body|e] eqn:Hb.
  2:{ rewrite (request_unreadable srv fs e Hb). discriminate. }
  destruct (try_process_audio_spec srv (mkLocals (start fs) body None))
    as (l1 & tr1 & Ha & Hins & _ & _).
  rewrite (request_eq srv fs body l1 tr1 Hb Ha).
  unfold preceded_by; cbn [answer left_behind events fst snd].
  cbn [insertions app]. rewrite insertions_app, Hins. cbn [app].
  destruct (loc_body l1) as [| | | | | |b] eqn:Hl;
    try (rewrite finish_not_dict by (rewrite Hl; discriminate);
         discriminate).
  rewrite (finish_dict srv l1 b Hl). cbv zeta.
  destruct (insert_rows_json srv table_ref _) as [[|e es]|e] eqn:Hi;
    cbn [answer left_behind events fst snd insertions];
    intros H; injection H as <- <-; rewrite Hi; reflexivity.
Qed.

(** A request fetches at most one address, whatever its body holds
    and however the pipeline ends. *)
Theorem request_fetches_at_most_once :
  (List.length (fetched_urls (events (request srv fs))) <= 1)%nat.
Proof.
  destruct (request_json srv) as [body|e] eqn:Hb.
  2:{ rewrite (request_unreadable srv fs e Hb). simpl. lia. }
  destruct (try_process_audio_spec srv (mkLocals (start fs) body None))
    as (l1 & tr1 & Ha & _ & Hlen & _).
  rewrite (request_eq srv fs body l1 tr1 Hb Ha).
  unfold preceded_by; cbn [answer left_behind events fst snd].
  cbn [fetched_urls app]. rewrite fetched_urls_app, finish_fetches_nothing.
  rewrite app_nil_r. exact Hlen.
Qed.

(** A request that fails, fails with the status 500 and has logged
    the detail of the failure as its last record: the status 400 of the
    pipeline never reaches the client. *)
Theorem request_fails_with_500 h :
  answer (request srv fs) = Raise h ->
  status_code h = 500%Z
  /\ exists before,
       events (request srv fs)
       = app before [Pipeline (Log ERROR ("Error: " ++ detail h))].
Proof.
  unfold request, create_event, stry.
  destruct (handle_event srv _) as [[[r|e] l1] t1];
    cbn [answer events fst snd]; [discriminate|].
  intros H. injection H as <-. split; [reflexivity|].
  exists t1. reflexivity.
Qed.

(** A body that is not a JSON object is rejected: the request fails
    with the status 500 and Python's message for the missing method [get],
    nothing is fetched and nothing is inserted. *)
Theorem body_that_is_no_object_is_rejected body :
  request_json srv = Ok body ->
  (forall b, body <> JDict b) ->
  answer (request srv fs)
  = Raise (mkHTTPException 500
             ("'" ++ type_name body ++ "' object has no attribute 'get'"))
  /\ insertions (events (request srv fs)) = []
  /\ fetched_urls (events (request srv fs)) = [].
Proof.
  intros Hb Hn.
  destruct (try_process_audio_spec srv (mkLocals (start fs) body None))
    as (l1 & tr1 & Ha & Hins & _ & Hsame).
  destruct (Hsame Hn) as [Hl Hf]. cbn [loc_body] in Hl.
  rewrite (request_eq srv fs body l1 tr1 Hb Ha).
  rewrite finish_not_dict by (rewrite Hl; exact Hn). cbv zeta. rewrite Hl.
  unfold preceded_by; cbn [answer left_behind events fst snd].
  cbn [insertions fetched_urls app].
  rewrite insertions_app, fetched_urls_app, Hins, Hf.
  repeat split; reflexivity.
Qed.

End Requests.

Section StoredBody.

Lemma dict_set_keys (k : str) (v v0 : json) (d : list (str * json)) :
  dict_get k d = Some v0 -> map fst (dict_set k v d) = map fst d.
Proof.
  induction d as [|[k' v'] d IH]; simpl; [discriminate|].
  destruct (k' =? k); simpl; [reflexivity|].
  intros H. rewrite (IH H). reflexivity.
Qed.

(** The message of the stored body: the transcript under [transcription],
    the text kept when there is one, the other items as they were. *)
Lemma with_transcript_spec (t : str) (m b : list (str * json)) :
  exists m',
    with_transcript t m b = JDict (dict_set "message" (JDict m') b)
    /\ dict_get "transcription" m' = Some (JStr t)
    /\ dict_get "text" m'
       = Some (match dict_get "text" m with
               | Some text => if truthy text then text else JStr t
               | None => JStr t
               end)
    /\ forall k, k <> "text" -> k <> "transcription" ->
                 dict_get k m' = dict_get k m.
Proof.
  unfold with_transcript.
  destruct (dict_get "text" m) as [text|] eqn:Htext;
    [destruct (truthy text)|];
    eexists; (split; [reflexivity|]);
    (split; [apply dict_get_set_same|]);
    (split;
     [ rewrite dict_get_set_other by discriminate;
       first [exact Htext | apply dict_get_set_same]
     | intros k H1 H2; rewrite !dict_get_set_other by assumption;
       reflexivity ]).
Qed.

End StoredBody.

Section VoiceMessage.

Variable srv : Service.
Variable fs : files.

(** The request carries a message whose first attachment has the
    address [u]. *)
Variables (b m f : list (str * json)) (others : list json) (u : str).

Hypothesis Hbody : request_json srv = Ok (JDict b).
Hypothesis Hmessage : dict_get "message" b = Some (JDict m).
Hypothesis Hattachments :
  dict_get "attachments" m = Some (JList (JDict f :: others)).
Hypothesis Haddress : dict_get "temporary_download_url" f = Some (JStr u).
Hypothesis Hnonempty : u <> "".

Lemma voice_condition : has_attachment (JDict b) = Ok true.
Proof.
  rewrite (has_attachment_eq b m Hmessage), Hattachments. reflexivity.
Qed.

Lemma voice_address : first_attachment_url (JDict b) = Ok (JStr u).
Proof.
  rewrite (first_attachment_url_eq b m _ Hmessage Hattachments).
  unfold py_getitem_0, and_then, py_get, dict_get_or.
  rewrite Haddress. reflexivity.
Qed.

Lemma voice_truthy : truthy (JStr u) = true.
Proof.
  destruct u; [elim Hnonempty; reflexivity | reflexivity].
Qed.

Lemma voice_audio :
  try_process_audio srv (mkLocals (start fs) (JDict b) None)
  = preceded_by [Pipeline (Log INFO "Found attachment in message")]
      (match run (world srv) u fs with
       | (Ok t, s', tr) =>
           (Ok tt, mkLocals s' (with_transcript t m b) (Some t),
            map Pipeline tr)
       | (Raise h, s', tr) =>
           (Ok tt, mkLocals s' (JDict b) None,
            app (map Pipeline tr)
              [Pipeline (Log ERROR ("Error processing audio: "
                                    ++ str_of_http_exception srv h))])
       end).
Proof.
  exact (try_process_audio_download srv (start fs) b m None (JStr u)
           voice_condition Hmessage voice_address voice_truthy).
Qed.

(** Of the attachments of a message only the first is looked at:
    its address is fetched, once, whatever the pipeline makes of it and
    whatever the other attachments are. *)
Theorem first_attachment_is_fetched :
  fetched_urls (events (request srv fs)) = [u].
Proof.
  pose proof (download_and_transcribe_http_calls (world srv) u (start fs))
    as Hcalls. fold (run (world srv) u fs) in Hcalls.
  pose proof voice_audio as Ha.
  destruct (run (world srv) u fs) as [[[t|h] s'] tr];
    cbn [trace snd] in Hcalls;
    unfold preceded_by in Ha; cbn [answer left_behind events fst snd] in Ha;
    rewrite (request_eq srv fs _ _ _ Hbody Ha);
    unfold preceded_by; cbn [answer left_behind events fst snd];
    cbn [fetched_urls app];
    rewrite ?fetched_urls_app, finish_fetches_nothing,
      fetched_urls_pipeline, Hcalls; reflexivity.
Qed.

(** A failure of the pipeline does not fail the request: it is
    logged, the event is stored with the body as it was received, and the
    answer has no transcription. *)
Theorem failed_transcription_is_swallowed h :
  outcome (run (world srv) u fs) = Raise h ->
  insertions (events (request srv fs))
  = [(table_ref,
      [row_of srv (dict_get_or "event_type" b (JStr "unknown")) (JDict b)])]
  /\ In (Pipeline (Log ERROR ("Error processing audio: "
                              ++ str_of_http_exception srv h)))
        (events (request srv fs))
  /\ (insert_rows_json srv table_ref
        [row_of srv (dict_get_or "event_type" b (JStr "unknown")) (JDict b)]
      = Ok [] ->
      answer (request srv fs) = Ok (response_data None)).
Proof.
  intros Hrun. pose proof voice_audio as Ha.
  destruct (run (world srv) u fs) as [[[t|h'] s'] tr];
    cbn [outcome fst] in Hrun; [discriminate|].
  injection Hrun as ->.
  unfold preceded_by in Ha; cbn [answer left_behind events fst snd] in Ha.
  rewrite (request_eq srv fs _ _ _ Hbody Ha).
  rewrite (finish_dict srv (mkLocals s' (JDict b) None) b eq_refl).
  cbv zeta. unfold preceded_by.
  split; [|split].
  - destruct (insert_rows_json srv table_ref _) as [[|e es]|e];
      cbn [answer left_behind events fst snd insertions app];
      rewrite !insertions_app, insertions_pipeline; reflexivity.
  - destruct (insert_rows_json srv table_ref _) as [[|e es]|e];
      cbn [answer left_behind events fst snd app];
      right; right; apply in_or_app; left; apply in_or_app; right; left;
      reflexivity.
  - intros Hok. rewrite Hok. reflexivity.
Qed.

(** A transcript is stored and returned: the row holds the body with
    the transcript under [transcription] of the message, its other items
    and their order as received, and the answer carries the transcript
    (when it is not empty). *)
Theorem transcript_is_stored_and_returned t :
  outcome (run (world srv) u fs) = Ok t ->
  exists b' m',
    insertions (events (request srv fs))
  = [(table_ref,
      [row_of srv (dict_get_or "event_type" b (JStr "unknown")) (JDict b')])]
    /\ dict_get "message" b' = Some (JDict m')
    /\ dict_get "transcription" m' = Some (JStr t)
    /\ map fst b' = map fst b
    /\ (forall k, k <> "message" -> dict_get k b' = dict_get k b)
    /\ (forall k, k <> "text" -> k <> "transcription" ->
                  dict_get k m' = dict_get k m)
    /\ (insert_rows_json srv table_ref
        [row_of srv (dict_get_or "event_type" b (JStr "unknown")) (JDict b')]
      = Ok [] ->
        answer (request srv fs) = Ok (response_data (Some t))).
Proof.
  intros Hrun. pose proof voice_audio as Ha.
  destruct (run (world srv) u fs) as [[[t'|h] s'] tr];
    cbn [outcome fst] in Hrun; [|discriminate].
  injection Hrun as ->.
  destruct (with_transcript_spec t m b) as (m' & Hw & Htr & _ & Hrest).
  rewrite Hw in Ha.
  unfold preceded_by in Ha; cbn [answer left_behind events fst snd] in Ha.
  exists (dict_set "message" (JDict m') b), m'.
  rewrite (request_eq srv fs _ _ _ Hbody Ha).
  rewrite (finish_dict srv
             (mkLocals s' (JDict (dict_set "message" (JDict m') b)) (Some t))
             _ eq_refl).
  cbv zeta. unfold dict_get_or.
  rewrite (dict_get_set_other "message" "event_type") by discriminate.
  unfold preceded_by.
  split; [|split; [|split; [|split; [|split; [|split]]]]].
  - destruct (insert_rows_json srv table_ref _) as [[|e es]|e];
      cbn [answer left_behind events fst snd insertions app];
      rewrite insertions_app, insertions_pipeline; reflexivity.
  - apply dict_get_set_same.
  - exact Htr.
  - apply (dict_set_keys _ _ _ _ Hmessage).
  - intros k Hk. apply dict_get_set_other. exact Hk.
  - exact Hrest.
  - intros Hok. rewrite Hok. reflexivity.
Qed.

(** The text of a message is kept when it has one; a message
    without text (none, or one that Python counts as false) gets the
    transcript as its text. *)
Theorem message_text_is_kept_or_filled t :
  outcome (run (world srv) u fs) = Ok t ->
  exists b' m',
    insertions (events (request srv fs))
  = [(table_ref,
      [row_of srv (dict_get_or "event_type" b (JStr "unknown")) (JDict b')])]
    /\ dict_get "message" b' = Some (JDict m')
    /\ dict_get "text" m'
       = Some (match dict_get "text" m with
               | Some text => if truthy text then text else JStr t
               | None => JStr t
               end).
Proof.
  intros Hrun. pose proof voice_audio as Ha.
  destruct (run (world srv) u fs) as [[[t'|h] s'] tr];
    cbn [outcome fst] in Hrun; [|discriminate].
  injection Hrun as ->.
  destruct (with_transcript_spec t m b) as (m' & Hw & _ & Htext & _).
  rewrite Hw in Ha.
  unfold preceded_by in Ha; cbn [answer left_behind events fst snd] in Ha.
  exists (dict_set "message" (JDict m') b), m'.
  rewrite (request_eq srv fs _ _ _ Hbody Ha).
  rewrite (finish_dict srv
             (mkLocals s' (JDict (dict_set "message" (JDict m') b)) (Some t))
             _ eq_refl).
  cbv zeta. unfold dict_get_or.
  rewrite (dict_get_set_other "message" "event_type") by discriminate.
  unfold preceded_by.
  split; [|split].
  - destruct (insert_rows_json srv table_ref _) as [[|e es]|e];
      cbn [answer left_behind events fst snd insertions app];
      rewrite insertions_app, insertions_pipeline; reflexivity.
  - apply dict_get_set_same.
  - exact Htext.
Qed.

End VoiceMessage.

Section PlainEvent.

Variable srv : Service.
Variable fs : files.

(** A request whose inner [try] block does nothing. *)
Lemma request_stored_as_received (b : list (str * json)) tr :
  request_json srv = Ok (JDict b) ->
  try_process_audio srv (mkLocals (start fs) (JDict b) None)
  = (Ok tt, mkLocals (start fs) (JDict b) None, tr) ->
  fetched_urls tr = [] ->
  insertions tr = [] ->
  let row :=
    row_of srv (dict_get_or "event_type" b (JStr "unknown")) (JDict b) in
  fetched_urls (events (request srv fs)) = []
  /\ insertions (events (request srv fs)) = [(table_ref, [row])]
  /\ (insert_rows_json srv table_ref [row] = Ok [] ->
      answer (request srv fs) = Ok (response_data None)).
Proof.
  intros Hb Ha Hf Hi row.
  rewrite (request_eq srv fs _ _ _ Hb Ha).
  unfold preceded_by; cbn [answer left_behind events fst snd].
  cbn [fetched_urls insertions app].
  rewrite fetched_urls_app, insertions_app, finish_fetches_nothing, Hf, Hi.
  split; [reflexivity|].
  rewrite (finish_dict srv (mkLocals (start fs) (JDict b) None) b eq_refl).
  cbv zeta. fold row.
  split.
  - destruct (insert_rows_json srv table_ref [row]) as [[|e es]|e];
      reflexivity.
  - intros Hok. rewrite Hok. reflexivity.
Qed.

(** An event without a message, or with a message that has no
    attachment (no such item, or a value that Python counts as false:
    null, an empty list), is stored as it was received: nothing is
    fetched, the row holds the body unchanged and the name of the event
    (or [unknown]), and the answer has no transcription. *)
Theorem event_without_attachment_is_stored_as_received
    (b : list (str * json)) :
  request_json srv = Ok (JDict b) ->
  (dict_get "message" b = None
   \/ exists m, dict_get "message" b = Some (JDict m)
                /\ forall att, dict_get "attachments" m = Some att ->
                               truthy att = false) ->
  let row :=
    row_of srv (dict_get_or "event_type" b (JStr "unknown")) (JDict b) in
  fetched_urls (events (request srv fs)) = []
  /\ insertions (events (request srv fs)) = [(table_ref, [row])]
  /\ (insert_rows_json srv table_ref [row] = Ok [] ->
      answer (request srv fs) = Ok (response_data None)).
Proof.
  intros Hb Hshape.
  assert (Hc : has_attachment (JDict b) = Ok false).
  { destruct Hshape as [Hm | (m & Hm & Hatt)].
    - apply has_attachment_no_message. exact Hm.
    - rewrite (has_attachment_eq b m Hm).
      destruct (dict_get "attachments" m) as [att|]; [|reflexivity].
      rewrite (Hatt att eq_refl). reflexivity. }
  apply (request_stored_as_received b []); try reflexivity; [exact Hb|].
  unfold try_process_audio.
  apply stry_ok.
  exact (process_audio_no_attachment srv
           (mkLocals (start fs) (JDict b) None) Hc).
Qed.

(** When the first attachment has no address (no such item, or a
    value that Python counts as false), the search stops there: the other
    attachments are not looked at, nothing is fetched, and the event is
    stored as it was received. *)
Theorem first_attachment_without_address_ends_the_search
    (b m f : list (str * json)) (others : list json) :
  request_json srv = Ok (JDict b) ->
  dict_get "message" b = Some (JDict m) ->
  dict_get "attachments" m = Some (JList (JDict f :: others)) ->
  (forall v, dict_get "temporary_download_url" f = Some v ->
             truthy v = false) ->
  let row :=
    row_of srv (dict_get_or "event_type" b (JStr "unknown")) (JDict b) in
  fetched_urls (events (request srv fs)) = []
  /\ insertions (events (request srv fs)) = [(table_ref, [row])]
  /\ (insert_rows_json srv table_ref [row] = Ok [] ->
      answer (request srv fs) = Ok (response_data None)).
Proof.
  intros Hb Hm Ha Hno.
  assert (Hc : has_attachment (JDict b) = Ok true).
  { rewrite (has_attachment_eq b m Hm), Ha. reflexivity. }
  apply (request_stored_as_received b
           [Pipeline (Log INFO "Found attachment in message")]);
    try reflexivity; [exact Hb|].
  unfold try_process_audio, stry.
  rewrite (process_audio_found srv (start fs) b m None Hc Hm).
  rewrite (first_attachment_url_eq b m _ Hm Ha).
  unfold py_getitem_0, and_then, py_get, dict_get_or.
  destruct (dict_get "temporary_download_url" f) as [v|] eqn:Hv.
  - rewrite (Hno v eq_refl). reflexivity.
  - reflexivity.
Qed.

End PlainEvent.

(** ** The theorems on concrete requests *)

Lemma answer_follows_the_table_witness :
  insertions
    (events (request (ServiceExamples.service Examples.world_unreachable
                        (Ok ServiceExamples.captioned_message)
                        (Ok ServiceExamples.refused))
               Examples.no_files))
  = [(table_ref,
      [row_of (ServiceExamples.service Examples.world_unreachable
                 (Ok ServiceExamples.captioned_message)
                 (Ok ServiceExamples.refused))
         (JStr "message_created") ServiceExamples.captioned_message])]
  /\ answer (request (ServiceExamples.service Examples.world_unreachable
                        (Ok ServiceExamples.captioned_message)
                        (Ok ServiceExamples.refused))
               Examples.no_files)
     = Raise (mkHTTPException 500
                "500: Error inserting rows: [{'index': 0, 'errors': ['invalid']}]").
Proof.
  assert (Hins :
    insertions
      (events (request (ServiceExamples.service Examples.world_unreachable
                          (Ok ServiceExamples.captioned_message)
                          (Ok ServiceExamples.refused))
                 Examples.no_files))
    = [(table_ref,
        [row_of (ServiceExamples.service Examples.world_unreachable
                   (Ok ServiceExamples.captioned_message)
                   (Ok ServiceExamples.refused))
           (JStr "message_created") ServiceExamples.captioned_message])])
    by (vm_compute; reflexivity).
  split; [exact Hins|].
  etransitivity; [exact (answer_follows_the_table _ _ _ _ Hins)|].
  vm_compute. reflexivity.
Defined.

Lemma request_fails_with_500_witness :
  answer (request (ServiceExamples.service Examples.world_auto_only
                     (Ok ServiceExamples.voice_message)
                     (Raise (mkExn false false "403 Access Denied")))
            Examples.no_files)
  = Raise (mkHTTPException 500 "403 Access Denied")
  /\ exists before,
       events (request (ServiceExamples.service Examples.world_auto_only
                          (Ok ServiceExamples.voice_message)
                          (Raise (mkExn false false "403 Access Denied")))
                 Examples.no_files)
       = app before [Pipeline (Log ERROR "Error: 403 Access Denied")].
Proof.
  assert (H :
    answer (request (ServiceExamples.service Examples.world_auto_only
                       (Ok ServiceExamples.voice_message)
                       (Raise (mkExn false false "403 Access Denied")))
              Examples.no_files)
    = Raise (mkHTTPException 500 "403 Access Denied"))
    by (vm_compute; reflexivity).
  split; [exact H|].
  exact (proj2 (request_fails_with_500 _ _ _ H)).
Defined.

Lemma body_that_is_no_object_witness :
  answer (request (ServiceExamples.service Examples.world_auto_only
                     (Ok (JList [ServiceExamples.voice_message])) (Ok []))
            Examples.no_files)
  = Raise (mkHTTPException 500 "'list' object has no attribute 'get'")
  /\ insertions
       (events (request (ServiceExamples.service Examples.world_auto_only
                           (Ok (JList [ServiceExamples.voice_message]))
                           (Ok []))
                  Examples.no_files))
     = []
  /\ fetched_urls
       (events (request (ServiceExamples.service Examples.world_auto_only
                           (Ok (JList [ServiceExamples.voice_message]))
                           (Ok []))
                  Examples.no_files))
     = [].
Proof.
  apply (body_that_is_no_object_is_rejected
           (ServiceExamples.service Examples.world_auto_only
              (Ok (JList [ServiceExamples.voice_message])) (Ok []))
           Examples.no_files (JList [ServiceExamples.voice_message]) eq_refl).
  intros b. discriminate.
Defined.

Lemma first_attachment_is_fetched_witness :
  Examples.url <> Examples.other_url
  /\ fetched_urls
       (events (request (ServiceExamples.service Examples.world_unreachable
                           (Ok ServiceExamples.voice_message) (Ok []))
                  Examples.no_files))
     = [Examples.url].
Proof.
  split; [discriminate|].
  apply (first_attachment_is_fetched
           (ServiceExamples.service Examples.world_unreachable
              (Ok ServiceExamples.voice_message) (Ok []))
           Examples.no_files
           (ServiceExamples.voice_fields (JStr ""))
           (ServiceExamples.voice_message_fields (JStr ""))
           [("type", JStr "audio");
            ("temporary_download_url", JStr Examples.url)]
           [ServiceExamples.second_attachment] Examples.url
           eq_refl eq_refl eq_refl eq_refl).
  discriminate.
Defined.

Lemma failed_transcription_witness :
  outcome (run Examples.world_unreachable Examples.url Examples.no_files)
  = Raise (mkHTTPException 500 "Download error: Connection refused")
  /\ insertions
       (events (request (ServiceExamples.service Examples.world_unreachable
                           (Ok ServiceExamples.voice_message) (Ok []))
                  Examples.no_files))
     = [(table_ref,
         [row_of (ServiceExamples.service Examples.world_unreachable
                    (Ok ServiceExamples.voice_message) (Ok []))
            (JStr "message_created") ServiceExamples.voice_message])]
  /\ answer (request (ServiceExamples.service Examples.world_unreachable
                        (Ok ServiceExamples.voice_message) (Ok []))
               Examples.no_files)
     = Ok (response_data None).
Proof.
  assert (Hrun :
    outcome (run Examples.world_unreachable Examples.url Examples.no_files)
    = Raise (mkHTTPException 500 "Download error: Connection refused"))
    by (vm_compute; reflexivity).
  destruct (failed_transcription_is_swallowed
              (ServiceExamples.service Examples.world_unreachable
                 (Ok ServiceExamples.voice_message) (Ok []))
              Examples.no_files
              (ServiceExamples.voice_fields (JStr ""))
              (ServiceExamples.voice_message_fields (JStr ""))
              [("type", JStr "audio");
               ("temporary_download_url", JStr Examples.url)]
              [ServiceExamples.second_attachment] Examples.url
              eq_refl eq_refl eq_refl eq_refl
              ltac:(discriminate) _ Hrun)
    as (Hins & _ & Hanswer).
  split; [exact Hrun|]. split; [exact Hins|].
  apply Hanswer. reflexivity.
Defined.

Lemma transcript_is_stored_witness :
  outcome (run Examples.world_auto_only Examples.url Examples.no_files)
  = Ok "bom dia"
  /\ answer (request (ServiceExamples.service Examples.world_auto_only
                        (Ok ServiceExamples.captioned_message) (Ok []))
               Examples.no_files)
     = Ok (JDict [("status", JStr "success");
                  ("message", JStr "Event saved successfully");
                  ("transcription", JStr "bom dia")]).
Proof.
  assert (Hrun :
    outcome (run Examples.world_auto_only Examples.url Examples.no_files)
    = Ok "bom dia")
    by (vm_compute; reflexivity).
  destruct (transcript_is_stored_and_returned
              (ServiceExamples.service Examples.world_auto_only
                 (Ok ServiceExamples.captioned_message) (Ok []))
              Examples.no_files
              (ServiceExamples.voice_fields (JStr "listen"))
              (ServiceExamples.voice_message_fields (JStr "listen"))
              [("type", JStr "audio");
               ("temporary_download_url", JStr Examples.url)]
              [ServiceExamples.second_attachment] Examples.url
              eq_refl eq_refl eq_refl eq_refl
              ltac:(discriminate) _ Hrun)
    as (b' & m' & _ & _ & _ & _ & _ & _ & Hanswer).
  split; [exact Hrun|].
  apply Hanswer. reflexivity.
Defined.

Lemma message_text_witness :
  outcome (run Examples.world_auto_only Examples.url Examples.no_files)
  = Ok "bom dia"
  /\ (exists b' m',
        insertions
          (events (request (ServiceExamples.service Examples.world_auto_only
                              (Ok ServiceExamples.captioned_message) (Ok []))
                     Examples.no_files))
        = [(table_ref,
            [row_of (ServiceExamples.service Examples.world_auto_only
                       (Ok ServiceExamples.captioned_message) (Ok []))
               (JStr "message_created") (JDict b')])]
        /\ dict_get "message" b' = Some (JDict m')
        /\ dict_get "text" m' = Some (JStr "listen"))
  /\ (exists b' m',
        insertions
          (events (request (ServiceExamples.service Examples.world_auto_only
                              (Ok ServiceExamples.voice_message) (Ok []))
                     Examples.no_files))
        = [(table_ref,
            [row_of (ServiceExamples.service Examples.world_auto_only
                       (Ok ServiceExamples.voice_message) (Ok []))
               (JStr "message_created") (JDict b')])]
        /\ dict_get "message" b' = Some (JDict m')
        /\ dict_get "text" m' = Some (JStr "bom dia")).
Proof.
  assert (Hrun :
    outcome (run Examples.world_auto_only Examples.url Examples.no_files)
    = Ok "bom dia")
    by (vm_compute; reflexivity).
  split; [exact Hrun|]. split.
  - exact (message_text_is_kept_or_filled
             (ServiceExamples.service Examples.world_auto_only
                (Ok ServiceExamples.captioned_message) (Ok []))
             Examples.no_files
             (ServiceExamples.voice_fields (JStr "listen"))
             (ServiceExamples.voice_message_fields (JStr "listen"))
             [("type", JStr "audio");
              ("temporary_download_url", JStr Examples.url)]
             [ServiceExamples.second_attachment] Examples.url
             eq_refl eq_refl eq_refl eq_refl
             ltac:(discriminate) _ Hrun).
  - exact (message_text_is_kept_or_filled
             (ServiceExamples.service Examples.world_auto_only
                (Ok ServiceExamples.voice_message) (Ok []))
             Examples.no_files
             (ServiceExamples.voice_fields (JStr ""))
             (ServiceExamples.voice_message_fields (JStr ""))
             [("type", JStr "audio");
              ("temporary_download_url", JStr Examples.url)]
             [ServiceExamples.second_attachment] Examples.url
             eq_refl eq_refl eq_refl eq_refl
             ltac:(discriminate) _ Hrun).
Defined.

Lemma event_without_attachment_witness :
  fetched_urls
    (events (request (ServiceExamples.service Examples.world_auto_only
                        (Ok (JDict ServiceExamples.status_fields)) (Ok []))
               Examples.no_files))
  = []
  /\ insertions
       (events (request (ServiceExamples.service Examples.world_auto_only
                           (Ok (JDict ServiceExamples.status_fields)) (Ok []))
                  Examples.no_files))
     = [(table_ref,
         [row_of (ServiceExamples.service Examples.world_auto_only
                    (Ok (JDict ServiceExamples.status_fields)) (Ok []))
            (JStr "unknown") (JDict ServiceExamples.status_fields)])]
  /\ answer (request (ServiceExamples.service Examples.world_auto_only
                        (Ok (JDict ServiceExamples.status_fields)) (Ok []))
               Examples.no_files)
     = Ok (response_data None).
Proof.
  destruct (event_without_attachment_is_stored_as_received
              (ServiceExamples.service Examples.world_auto_only
                 (Ok (JDict ServiceExamples.status_fields)) (Ok []))
              Examples.no_files ServiceExamples.status_fields eq_refl
              (or_introl eq_refl))
    as (Hf & Hins & Hanswer).
  split; [exact Hf|]. split; [exact Hins|].
  apply Hanswer. reflexivity.
Defined.

Lemma first_attachment_without_address_witness :
  fetched_urls
    (events (request (ServiceExamples.service Examples.world_auto_only
                        (Ok (JDict ServiceExamples.forwarded_fields)) (Ok []))
               Examples.no_files))
  = []
  /\ answer (request (ServiceExamples.service Examples.world_auto_only
                        (Ok (JDict ServiceExamples.forwarded_fields)) (Ok []))
               Examples.no_files)
     = Ok (response_data None).
Proof.
  destruct (first_attachment_without_address_ends_the_search
              (ServiceExamples.service Examples.world_auto_only
                 (Ok (JDict ServiceExamples.forwarded_fields)) (Ok []))
              Examples.no_files ServiceExamples.forwarded_fields
              [("id", JInt 19);
               ("attachments",
                JList [JDict [("type", JStr "image");
                              ("temporary_download_url", JNull)];
                       ServiceExamples.second_attachment])]
              [("type", JStr "image"); ("temporary_download_url", JNull)]
              [ServiceExamples.second_attachment]
              eq_refl eq_refl eq_refl
              (fun v H => f_equal (fun o => match o with
                                            | Some x => truthy x
                                            | None => false
                                            end) (eq_sym H)))
    as (Hf & _ & Hanswer).
  split; [exact Hf|].
  apply Hanswer. reflexivity.
Defined.
